(** * XML Encryption context and XSLT transform stage of xmlsec

    A shallow embedding of [src/xmlenc.c] (the encryption context: template
    parsing, the five top-level operations, the CipherData writer, context
    finalization) and of the XSLT transform (its [readNode], [execute] and
    [xmlSecXslProcess]).

    Conventions of the embedding.
    - A C function returning [int] (0 / -1) or a pointer (non-NULL / NULL)
      becomes a computation in the state-and-failure monad [M]: [Ok] stands
      for the success return, [Fail] for [return(-1)] / [return(NULL)].
      The state that a failing call leaves behind is kept, as in C.
    - [xmlSecError(...)] appends a [Report] to the log of the state.  A failed
      [xmlSecAssert2] appends an [AssertFailed] entry and fails.
    - C [int] fields that only ever hold 0 or 1 ([encrypt], [replaced],
      [dontDestroyEncMethod], [resultBase64Encoded], [encode]) are [bool].
    - Pointers to transforms are indices into a store of transform objects
      (the chain, [ctx->encMethod] and the local [base64Encode] may alias).
    - Pointer arguments that the C code asserts non-NULL ([ctx], [node],
      [tmpl], [data], [uri]) are passed by value, so those assertions hold by
      typing; every other assertion of the source is modelled.
    - libxml2 / libxslt calls and the xmlsec functions that live outside the
      two source files are collaborators: their outcome is read from an
      environment record, and each call that touches the outside world is
      recorded in the trace of the state. *)

From Stdlib Require Import String List ZArith Bool Lia.
From Stdlib Require Import Init.Byte.
From stdpp Require Import base list.
Import ListNotations.

Set Warnings "-register-all".
Local Open Scope string_scope.
Local Open Scope list_scope.

(* ================================================================== *)
(** * Shared data model *)
(* ================================================================== *)

(** Octet buffer ([xmlSecBuffer]): the bytes it currently holds. *)
Definition xmlSecBuffer := list byte.

(** Opaque libxml2 / libxslt handles. *)
Definition xmlDocPtr := nat.
Definition xsltStylesheetPtr := nat.

(** Pointer to a transform object: an index into the transform store. *)
Definition xmlSecTransformPtr := nat.

(** Error reasons passed to [xmlSecError] by the two source files. *)
Inductive xmlSecErrorReason :=
| XMLSEC_ERRORS_R_XMLSEC_FAILED
| XMLSEC_ERRORS_R_MALLOC_FAILED
| XMLSEC_ERRORS_R_XML_FAILED
| XMLSEC_ERRORS_R_XSLT_FAILED
| XMLSEC_ERRORS_R_INVALID_NODE
| XMLSEC_ERRORS_R_UNEXPECTED_NODE
| XMLSEC_ERRORS_R_INVALID_NODE_CONTENT
| XMLSEC_ERRORS_R_INVALID_DATA
| XMLSEC_ERRORS_R_INVALID_TYPE
| XMLSEC_ERRORS_R_INVALID_STATUS
| XMLSEC_ERRORS_R_KEY_NOT_FOUND
| XMLSEC_ERRORS_R_INVALID_URI.

Definition xmlSecErrorReason_eqb (a b : xmlSecErrorReason) : bool :=
  match a, b with
  | XMLSEC_ERRORS_R_XMLSEC_FAILED, XMLSEC_ERRORS_R_XMLSEC_FAILED
  | XMLSEC_ERRORS_R_MALLOC_FAILED, XMLSEC_ERRORS_R_MALLOC_FAILED
  | XMLSEC_ERRORS_R_XML_FAILED, XMLSEC_ERRORS_R_XML_FAILED
  | XMLSEC_ERRORS_R_XSLT_FAILED, XMLSEC_ERRORS_R_XSLT_FAILED
  | XMLSEC_ERRORS_R_INVALID_NODE, XMLSEC_ERRORS_R_INVALID_NODE
  | XMLSEC_ERRORS_R_UNEXPECTED_NODE, XMLSEC_ERRORS_R_UNEXPECTED_NODE
  | XMLSEC_ERRORS_R_INVALID_NODE_CONTENT, XMLSEC_ERRORS_R_INVALID_NODE_CONTENT
  | XMLSEC_ERRORS_R_INVALID_DATA, XMLSEC_ERRORS_R_INVALID_DATA
  | XMLSEC_ERRORS_R_INVALID_TYPE, XMLSEC_ERRORS_R_INVALID_TYPE
  | XMLSEC_ERRORS_R_INVALID_STATUS, XMLSEC_ERRORS_R_INVALID_STATUS
  | XMLSEC_ERRORS_R_KEY_NOT_FOUND, XMLSEC_ERRORS_R_KEY_NOT_FOUND
  | XMLSEC_ERRORS_R_INVALID_URI, XMLSEC_ERRORS_R_INVALID_URI => true
  | _, _ => false
  end.

(** An argument of the printf-style message of [xmlSecError]. *)
Inductive xmlSecErrorArg :=
| ArgStr (s : string)
| ArgInt (z : Z).

(** One [xmlSecError(XMLSEC_ERRORS_HERE, object, subject, reason, msg, ...)]
    call.  [NULL] object / subject is [None]. *)
Record xmlSecErrorRec := mkError {
  errorObject : option string;
  errorSubject : option string;
  errorReason : xmlSecErrorReason;
  errorMsg : string;
  errorArgs : list xmlSecErrorArg
}.

(** Modelled from the spec: the assertion macros [xmlSecAssert] and
    [xmlSecAssert2] are defined in [errors.h], which is not among the sources,
    and the spec lists no error kind for them.  A failed assertion is kept as
    a log entry of its own (with the text of the asserted expression), apart
    from the [xmlSecError] reports that the functions make themselves. *)
Inductive xmlSecLogEntry :=
| Report (e : xmlSecErrorRec)
| AssertFailed (expr : string).

Definition xmlSecLog := list xmlSecLogEntry.

(** [reported r log]: some [xmlSecError] call in [log] carries reason [r]. *)
Definition reportedb (r : xmlSecErrorReason) (log : xmlSecLog) : bool :=
  existsb (fun e => match e with
                    | Report e => xmlSecErrorReason_eqb (errorReason e) r
                    | AssertFailed _ => false
                    end) log.

Definition reported (r : xmlSecErrorReason) (log : xmlSecLog) : Prop :=
  reportedb r log = true.

Definition XMLSEC_ERRORS_NO_MESSAGE : string := " ".

(** The double-quote character, for the messages that quote a value. *)
Definition dquote : string := String (Ascii.ascii_of_nat 34) EmptyString.

(** The message [type=%s] with the value in double quotes. *)
Definition type_msg : string :=
  String.append "type=" (String.append dquote (String.append "%s" dquote)).

(** [xmlSecErrorsSafeString(str)]: the string, or ["NULL"]. *)
Definition xmlSecErrorsSafeString (s : option string) : string :=
  match s with Some s => s | None => "NULL" end.

(** ** Transform objects *)

Inductive xmlSecTransformStatus :=
| xmlSecTransformStatusNone
| xmlSecTransformStatusWorking
| xmlSecTransformStatusFinished
| xmlSecTransformStatusFail.

(** Klass identifiers.  The two klasses named in the sources, and the
    klasses the registry resolves from an [Algorithm] href or a URI. *)
Inductive xmlSecTransformId :=
| xmlSecTransformBase64Id
| xmlSecTransformXsltId
| xmlSecTransformHrefId (href : string).

Definition xmlSecTransformId_eqb (a b : xmlSecTransformId) : bool :=
  match a, b with
  | xmlSecTransformBase64Id, xmlSecTransformBase64Id => true
  | xmlSecTransformXsltId, xmlSecTransformXsltId => true
  | xmlSecTransformHrefId x, xmlSecTransformHrefId y => String.eqb x y
  | _, _ => false
  end.

(** [struct _xmlSecXsltCtx]: the per-klass context placed after the
    transform object. *)
Record xmlSecXsltCtx := mkXsltCtx {
  xslt : option xsltStylesheetPtr
}.

(** The transform instance: the fields the two files read or write. *)
Record xmlSecTransform := mkTransform {
  tr_id : xmlSecTransformId;
  tr_status : xmlSecTransformStatus;
  tr_encode : bool;
  tr_inBuf : xmlSecBuffer;
  tr_outBuf : xmlSecBuffer;
  tr_xsltCtx : xmlSecXsltCtx
}.

Definition set_tr_status (v : xmlSecTransformStatus) (t : xmlSecTransform) :=
  mkTransform (tr_id t) v (tr_encode t) (tr_inBuf t) (tr_outBuf t) (tr_xsltCtx t).
Definition set_tr_encode (v : bool) (t : xmlSecTransform) :=
  mkTransform (tr_id t) (tr_status t) v (tr_inBuf t) (tr_outBuf t) (tr_xsltCtx t).
Definition set_tr_inBuf (v : xmlSecBuffer) (t : xmlSecTransform) :=
  mkTransform (tr_id t) (tr_status t) (tr_encode t) v (tr_outBuf t) (tr_xsltCtx t).
Definition set_tr_outBuf (v : xmlSecBuffer) (t : xmlSecTransform) :=
  mkTransform (tr_id t) (tr_status t) (tr_encode t) (tr_inBuf t) v (tr_xsltCtx t).
Definition set_tr_xsltCtx (v : xmlSecXsltCtx) (t : xmlSecTransform) :=
  mkTransform (tr_id t) (tr_status t) (tr_encode t) (tr_inBuf t) (tr_outBuf t) v.

(** Modelled from the spec: [xmlSecTransformCreate] (transforms.c is not among
    the sources) allocates a zeroed instance of the klass: status None, empty
    buffers, [encode] clear, zeroed per-klass context. *)
Definition xmlSecTransformCreate (id : xmlSecTransformId) : xmlSecTransform :=
  mkTransform id xmlSecTransformStatusNone false [] [] (mkXsltCtx None).

Definition xmlSecNameXslt : string := "xslt".

(** [xmlSecTransformGetName(transform)]: the name of its klass. *)
Definition xmlSecTransformGetName (t : xmlSecTransform) : option string :=
  match tr_id t with
  | xmlSecTransformXsltId => Some xmlSecNameXslt
  | xmlSecTransformBase64Id => Some "base64"
  | xmlSecTransformHrefId h => Some h
  end.

(** Modelled from the spec: [xmlSecBufferRemoveHead(buf, n)] (buffer.c is not
    among the sources) drops the first [n] bytes and shifts the rest to the
    front. *)
Definition xmlSecBufferRemoveHead (buf : xmlSecBuffer) (n : nat) : xmlSecBuffer :=
  skipn n buf.

Definition xmlSecBufferGetSize (buf : xmlSecBuffer) : nat := List.length buf.

(** ** XML nodes *)

Inductive xmlElementType :=
| XML_ELEMENT_NODE
| XML_TEXT_NODE
| XML_COMMENT_NODE.

(** A DOM node: type, local name, namespace href, attributes, owning
    document and children (the sibling list that [node->children] starts). *)
Inductive xmlNode :=
| mkNode (type : xmlElementType) (name : string) (ns : option string)
         (properties : list (string * string)) (doc : option xmlDocPtr)
         (children : list xmlNode).

Definition node_type (n : xmlNode) := let 'mkNode t _ _ _ _ _ := n in t.
Definition node_name (n : xmlNode) := let 'mkNode _ x _ _ _ _ := n in x.
Definition node_ns (n : xmlNode) := let 'mkNode _ _ x _ _ _ := n in x.
Definition node_properties (n : xmlNode) := let 'mkNode _ _ _ x _ _ := n in x.
Definition node_doc (n : xmlNode) := let 'mkNode _ _ _ _ x _ := n in x.
Definition node_children (n : xmlNode) := let 'mkNode _ _ _ _ _ x := n in x.

(** ** The state-and-failure monad *)

Inductive res (A : Type) :=
| Ok (a : A)
| Fail.
Arguments Ok {A} a.
Arguments Fail {A}.

Definition M (S A : Type) : Type := S -> res A * S.

Definition ret {S A} (a : A) : M S A := fun s => (Ok a, s).
Definition fail {S A} : M S A := fun s => (Fail, s).
Definition bind {S A B} (m : M S A) (k : A -> M S B) : M S B :=
  fun s => match m s with
           | (Ok a, s') => k a s'
           | (Fail, s') => (Fail, s')
           end.
Definition get {S} : M S S := fun s => (Ok s, s).
Definition modify {S} (f : S -> S) : M S unit := fun s => (Ok tt, f s).

Declare Scope xmlsec_scope.
Delimit Scope xmlsec_scope with xmlsec.
Notation "x <- c1 ;; c2" := (bind c1 (fun x => c2))
  (at level 100, c1 at next level, right associativity) : xmlsec_scope.
Notation "c1 ;; c2" := (bind c1 (fun _ => c2))
  (at level 100, right associativity) : xmlsec_scope.
Local Open Scope xmlsec_scope.

(** States that carry an error log. *)
Class Logged (S : Type) := log_append : xmlSecLogEntry -> S -> S.

Definition xmlSecError {S} `{Logged S} (object subject : option string)
    (reason : xmlSecErrorReason) (msg : string) (args : list xmlSecErrorArg)
  : M S unit :=
  modify (log_append (Report (mkError object subject reason msg args))).

(** [xmlSecAssert2(p, ret)]: when [p] is false, record it and return. *)
Definition xmlSecAssert2 {S} `{Logged S} (p : bool) (expr : string) : M S unit :=
  if p then ret tt
  else (modify (log_append (AssertFailed expr)) ;; fail).

(** The C idiom [ret = f(...); if(ret < 0) { xmlSecError(...); return(-1); }]:
    run [m]; when it fails, run the [report] and fail. *)
Definition checked {S A} (m : M S A) (report : M S unit) : M S A :=
  fun s => match m s with
           | (Ok a, s') => (Ok a, s')
           | (Fail, s') => (report ;; fail) s'
           end.

Definition is_Some_b {A} (o : option A) : bool :=
  match o with Some _ => true | None => false end.
Definition is_None_b {A} (o : option A) : bool :=
  match o with Some _ => false | None => true end.

(* ================================================================== *)
(** * The XSLT transform *)
(* ================================================================== *)

Module Xslt.

(** Collaborators of the XSLT stage (libxml2, libxslt, and the xmlsec
    parser and buffer helpers). *)
Record env := mkEnv {
  xmlBufferCreate_ok : bool;
  xmlNodeDump : xmlNode -> list byte;
  xmlSecParseMemory : list byte -> option xmlDocPtr;
  xsltParseStylesheetDoc : xmlDocPtr -> option xsltStylesheetPtr;
  xsltApplyStylesheet : xsltStylesheetPtr -> xmlDocPtr -> option xmlDocPtr;
  xmlAllocOutputBuffer_ok : bool;
  xsltSaveResultTo : xmlDocPtr -> xsltStylesheetPtr -> option (list byte);
  xmlSecBufferSetData_ok : list byte -> bool
}.

(** The state the stage's functions work on: the transform object they are
    called with, and the error log. *)
Record state := mkState {
  transform : xmlSecTransform;
  log : xmlSecLog
}.

#[export] Instance state_logged : Logged state :=
  fun e s => mkState (transform s) (log s ++ [e]).

Definition update (f : xmlSecTransform -> xmlSecTransform) : M state unit :=
  modify (fun s => mkState (f (transform s)) (log s)).

Definition xmlSecTransformCheckId (t : xmlSecTransform) (id : xmlSecTransformId) : bool :=
  xmlSecTransformId_eqb (tr_id t) id.

Section WithEnv.
Variable E : env.

(** [xmlSecXsltInitialize]: zero the per-klass context. *)
Definition xmlSecXsltInitialize : M state unit :=
  t <- get ;;
  xmlSecAssert2 (xmlSecTransformCheckId (transform t) xmlSecTransformXsltId)
                "xmlSecTransformCheckId(transform, xmlSecTransformXsltId)" ;;
  update (set_tr_xsltCtx (mkXsltCtx None)) ;;
  ret tt.

(** [xmlSecXsltFinalize]: release the stylesheet, zero the context. *)
Definition xmlSecXsltFinalize : M state unit :=
  t <- get ;;
  xmlSecAssert2 (xmlSecTransformCheckId (transform t) xmlSecTransformXsltId)
                "xmlSecTransformCheckId(transform, xmlSecTransformXsltId)" ;;
  update (set_tr_xsltCtx (mkXsltCtx None)).

(** [xmlSecXsltReadNode]. *)
Definition xmlSecXsltReadNode (node : xmlNode) : M state unit :=
  s <- get ;;
  xmlSecAssert2 (xmlSecTransformCheckId (transform s) xmlSecTransformXsltId)
                "xmlSecTransformCheckId(transform, xmlSecTransformXsltId)" ;;
  xmlSecAssert2 (is_None_b (xslt (tr_xsltCtx (transform s)))) "ctx->xslt == NULL" ;;
  (* read content in the buffer *)
  if negb (xmlBufferCreate_ok E) then
    xmlSecError (Some (xmlSecErrorsSafeString (xmlSecTransformGetName (transform s))))
                (Some "xmlBufferCreate") XMLSEC_ERRORS_R_XML_FAILED
                XMLSEC_ERRORS_NO_MESSAGE [] ;;
    fail
  else
  let buffer := List.concat (List.map (xmlNodeDump E) (node_children node)) in
  (* parse the buffer *)
  match xmlSecParseMemory E buffer with
  | None =>
      xmlSecError (Some (xmlSecErrorsSafeString (xmlSecTransformGetName (transform s))))
                  (Some "xmlSecParseMemory") XMLSEC_ERRORS_R_XMLSEC_FAILED
                  XMLSEC_ERRORS_NO_MESSAGE [] ;;
      fail
  | Some doc =>
      (* pre-process stylesheet *)
      update (set_tr_xsltCtx (mkXsltCtx (xsltParseStylesheetDoc E doc))) ;;
      match xsltParseStylesheetDoc E doc with
      | None =>
          xmlSecError (Some (xmlSecErrorsSafeString (xmlSecTransformGetName (transform s))))
                      (Some "xsltParseStylesheetDoc") XMLSEC_ERRORS_R_XSLT_FAILED
                      XMLSEC_ERRORS_NO_MESSAGE [] ;;
          fail
      | Some _ => ret tt
      end
  end.

(** [xmlSecXslProcess(in, out, stylesheet)]: [in] and [out] are the two
    buffers of the transform in the state. *)
Definition xmlSecXslProcess (stylesheet : option xsltStylesheetPtr) : M state unit :=
  xmlSecAssert2 (is_Some_b stylesheet) "stylesheet != NULL" ;;
  match stylesheet with
  | None => fail
  | Some stylesheet =>
  s <- get ;;
  match xmlSecParseMemory E (tr_inBuf (transform s)) with
  | None =>
      xmlSecError None (Some "xmlSecParseMemory") XMLSEC_ERRORS_R_XMLSEC_FAILED
                  XMLSEC_ERRORS_NO_MESSAGE [] ;;
      fail
  | Some docIn =>
  match xsltApplyStylesheet E stylesheet docIn with
  | None =>
      xmlSecError None (Some "xsltApplyStylesheet") XMLSEC_ERRORS_R_XSLT_FAILED
                  XMLSEC_ERRORS_NO_MESSAGE [] ;;
      fail
  | Some docOut =>
  if negb (xmlAllocOutputBuffer_ok E) then
      xmlSecError None (Some "xmlAllocOutputBuffer") XMLSEC_ERRORS_R_XML_FAILED
                  XMLSEC_ERRORS_NO_MESSAGE [] ;;
      fail
  else
  match xsltSaveResultTo E docOut stylesheet with
  | None =>
      xmlSecError None (Some "xsltSaveResultTo") XMLSEC_ERRORS_R_XSLT_FAILED
                  XMLSEC_ERRORS_NO_MESSAGE [] ;;
      fail
  | Some bytes =>
  if negb (xmlSecBufferSetData_ok E bytes) then
      xmlSecError None (Some "xmlSecBufferSetData") XMLSEC_ERRORS_R_XMLSEC_FAILED
                  XMLSEC_ERRORS_NO_MESSAGE [] ;;
      fail
  else
      update (set_tr_outBuf bytes) ;;
      ret tt
  end end end end.

Definition status_eqb (a b : xmlSecTransformStatus) : bool :=
  match a, b with
  | xmlSecTransformStatusNone, xmlSecTransformStatusNone
  | xmlSecTransformStatusWorking, xmlSecTransformStatusWorking
  | xmlSecTransformStatusFinished, xmlSecTransformStatusFinished
  | xmlSecTransformStatusFail, xmlSecTransformStatusFail => true
  | _, _ => false
  end.

Definition status_code (a : xmlSecTransformStatus) : Z :=
  match a with
  | xmlSecTransformStatusNone => 0
  | xmlSecTransformStatusWorking => 1
  | xmlSecTransformStatusFinished => 2
  | xmlSecTransformStatusFail => 3
  end.

(** [xmlSecXsltExecute(transform, last, transformCtx)].  [transformCtx] is
    only tested against NULL; [transformCtx_set] tells whether it is given. *)
Definition xmlSecXsltExecute (last : Z) (transformCtx_set : bool) : M state unit :=
  s0 <- get ;;
  xmlSecAssert2 (xmlSecTransformCheckId (transform s0) xmlSecTransformXsltId)
                "xmlSecTransformCheckId(transform, xmlSecTransformXsltId)" ;;
  xmlSecAssert2 transformCtx_set "transformCtx != NULL" ;;
  xmlSecAssert2 (is_Some_b (xslt (tr_xsltCtx (transform s0)))) "ctx->xslt != NULL" ;;
  let inSize := xmlSecBufferGetSize (tr_inBuf (transform s0)) in
  let outSize := xmlSecBufferGetSize (tr_outBuf (transform s0)) in
  (if status_eqb (tr_status (transform s0)) xmlSecTransformStatusNone
   then update (set_tr_status xmlSecTransformStatusWorking)
   else ret tt) ;;
  s <- get ;;
  if status_eqb (tr_status (transform s)) xmlSecTransformStatusWorking && (last =? 0)%Z then
    (* just do nothing *)
    xmlSecAssert2 (outSize =? 0)%nat "outSize == 0" ;;
    ret tt
  else if status_eqb (tr_status (transform s)) xmlSecTransformStatusWorking
          && negb (last =? 0)%Z then
    xmlSecAssert2 (outSize =? 0)%nat "outSize == 0" ;;
    checked (xmlSecXslProcess (xslt (tr_xsltCtx (transform s))))
            (xmlSecError
               (Some (xmlSecErrorsSafeString (xmlSecTransformGetName (transform s))))
               (Some "xmlSecXslProcess") XMLSEC_ERRORS_R_XMLSEC_FAILED
               XMLSEC_ERRORS_NO_MESSAGE []) ;;
    update (fun t => set_tr_inBuf (xmlSecBufferRemoveHead (tr_inBuf t) inSize) t) ;;
    update (set_tr_status xmlSecTransformStatusFinished) ;;
    ret tt
  else if status_eqb (tr_status (transform s)) xmlSecTransformStatusFinished then
    (* the only way we can get here is if there is no input *)
    xmlSecAssert2 (inSize =? 0)%nat "inSize == 0" ;;
    ret tt
  else
    xmlSecError (Some (xmlSecErrorsSafeString (xmlSecTransformGetName (transform s))))
                None XMLSEC_ERRORS_R_INVALID_STATUS
                "status=%d" [ArgInt (status_code (tr_status (transform s)))] ;;
    fail.

(** Modelled from the spec: the feeding half of the default [pushBin]
    (transforms.c is not among the sources): append the incoming bytes to
    [inBuf] and invoke [execute(last=0)]. *)
Definition xmlSecBufferAppend (data : list byte) : M state unit :=
  update (fun t => set_tr_inBuf (tr_inBuf t ++ data) t).

(** A run of the stage: one [execute(last=0)] per incoming chunk, then the
    closing [execute(last=1)]. *)
Fixpoint run (chunks : list (list byte)) : M state unit :=
  match chunks with
  | [] => xmlSecXsltExecute 1 true
  | c :: cs =>
      xmlSecBufferAppend c ;;
      xmlSecXsltExecute 0 true ;;
      run cs
  end.

End WithEnv.
End Xslt.

(* ================================================================== *)
(** * The encryption context *)
(* ================================================================== *)

Module XmlEnc.

Inductive xmlEncCtxMode :=
| xmlEncCtxModeEncryptedData
| xmlEncCtxModeEncryptedKey.

Inductive xmlSecKeyInfoMode :=
| xmlSecKeyInfoModeRead
| xmlSecKeyInfoModeWrite.

Inductive xmlSecKeyDataType :=
| xmlSecKeyDataTypeUnknown
| xmlSecKeyDataTypePublic
| xmlSecKeyDataTypePrivate
| xmlSecKeyDataTypeSymmetric.

Inductive xmlSecTransformUsage :=
| xmlSecTransformUsageDSigTransform
| xmlSecTransformUsageEncryptionMethod.

Inductive xmlSecTransformDataType :=
| xmlSecTransformDataTypeBin
| xmlSecTransformDataTypeXml.

(** Key requirements and keys: type and size. *)
Record xmlSecKeyReq := mkKeyReq {
  keyType : xmlSecKeyDataType;
  keyBitsSize : nat
}.

Record xmlSecKey := mkKey {
  key_name : string;
  key_type : xmlSecKeyDataType;
  key_bits : nat
}.

(** The keys manager: its [getKey] hook ([NULL] is [None]).  The hook
    receives the KeyInfo node and the key-info read context, of which it is
    given the key requirements. *)
Record xmlSecKeysMngr := mkKeysMngr {
  getKey : option (xmlNode -> xmlSecKeyReq -> option xmlSecKey)
}.

Record xmlSecKeyInfoCtx := mkKeyInfoCtx {
  ki_mode : xmlSecKeyInfoMode;
  keysMngr : option xmlSecKeysMngr;
  keyReq : xmlSecKeyReq
}.

(** The transform context: the chain from [first] to [last], the input
    URI and the result buffer. *)
Record xmlSecTransformCtx := mkTransformCtx {
  chain : list xmlSecTransformPtr;
  uri : option string;
  result : option xmlSecBuffer
}.

Definition first (t : xmlSecTransformCtx) : option xmlSecTransformPtr :=
  List.hd_error (chain t).

Record xmlSecEncCtx := mkEncCtx {
  mode : xmlEncCtxMode;
  encrypt : bool;
  id_ : option string;
  type_ : option string;
  mimeType : option string;
  encoding : option string;
  recipient : option string;
  carriedKeyName : option string;
  encMethodNode : option xmlNode;
  keyInfoNode : option xmlNode;
  cipherValueNode : option xmlNode;
  encMethod : option xmlSecTransformPtr;
  dontDestroyEncMethod : bool;
  encKey : option xmlSecKey;
  keyInfoReadCtx : xmlSecKeyInfoCtx;
  keyInfoWriteCtx : xmlSecKeyInfoCtx;
  encTransformCtx : xmlSecTransformCtx;
  encResult : option xmlSecBuffer;
  replaced : bool;
  resultBase64Encoded : bool
}.

Definition set_encrypt (v : bool) (c : xmlSecEncCtx) : xmlSecEncCtx :=
  mkEncCtx (mode c) v (id_ c) (type_ c) (mimeType c) (encoding c) (recipient
    c) (carriedKeyName c) (encMethodNode c) (keyInfoNode c) (cipherValueNode
    c) (encMethod c) (dontDestroyEncMethod c) (encKey c) (keyInfoReadCtx c)
    (keyInfoWriteCtx c) (encTransformCtx c) (encResult c) (replaced c)
    (resultBase64Encoded c).
Definition set_id_ (v : option string) (c : xmlSecEncCtx) : xmlSecEncCtx :=
  mkEncCtx (mode c) (encrypt c) v (type_ c) (mimeType c) (encoding c)
    (recipient c) (carriedKeyName c) (encMethodNode c) (keyInfoNode c)
    (cipherValueNode c) (encMethod c) (dontDestroyEncMethod c) (encKey c)
    (keyInfoReadCtx c) (keyInfoWriteCtx c) (encTransformCtx c) (encResult c)
    (replaced c) (resultBase64Encoded c).
Definition set_type_ (v : option string) (c : xmlSecEncCtx) : xmlSecEncCtx :=
  mkEncCtx (mode c) (encrypt c) (id_ c) v (mimeType c) (encoding c)
    (recipient c) (carriedKeyName c) (encMethodNode c) (keyInfoNode c)
    (cipherValueNode c) (encMethod c) (dontDestroyEncMethod c) (encKey c)
    (keyInfoReadCtx c) (keyInfoWriteCtx c) (encTransformCtx c) (encResult c)
    (replaced c) (resultBase64Encoded c).
Definition set_mimeType (v : option string) (c : xmlSecEncCtx) : xmlSecEncCtx :=
  mkEncCtx (mode c) (encrypt c) (id_ c) (type_ c) v (encoding c) (recipient
    c) (carriedKeyName c) (encMethodNode c) (keyInfoNode c) (cipherValueNode
    c) (encMethod c) (dontDestroyEncMethod c) (encKey c) (keyInfoReadCtx c)
    (keyInfoWriteCtx c) (encTransformCtx c) (encResult c) (replaced c)
    (resultBase64Encoded c).
Definition set_encoding (v : option string) (c : xmlSecEncCtx) : xmlSecEncCtx :=
  mkEncCtx (mode c) (encrypt c) (id_ c) (type_ c) (mimeType c) v (recipient
    c) (carriedKeyName c) (encMethodNode c) (keyInfoNode c) (cipherValueNode
    c) (encMethod c) (dontDestroyEncMethod c) (encKey c) (keyInfoReadCtx c)
    (keyInfoWriteCtx c) (encTransformCtx c) (encResult c) (replaced c)
    (resultBase64Encoded c).
Definition set_recipient (v : option string) (c : xmlSecEncCtx) : xmlSecEncCtx :=
  mkEncCtx (mode c) (encrypt c) (id_ c) (type_ c) (mimeType c) (encoding c)
    v (carriedKeyName c) (encMethodNode c) (keyInfoNode c) (cipherValueNode c)
    (encMethod c) (dontDestroyEncMethod c) (encKey c) (keyInfoReadCtx c)
    (keyInfoWriteCtx c) (encTransformCtx c) (encResult c) (replaced c)
    (resultBase64Encoded c).
Definition set_carriedKeyName (v : option string) (c : xmlSecEncCtx) : xmlSecEncCtx :=
  mkEncCtx (mode c) (encrypt c) (id_ c) (type_ c) (mimeType c) (encoding c)
    (recipient c) v (encMethodNode c) (keyInfoNode c) (cipherValueNode c)
    (encMethod c) (dontDestroyEncMethod c) (encKey c) (keyInfoReadCtx c)
    (keyInfoWriteCtx c) (encTransformCtx c) (encResult c) (replaced c)
    (resultBase64Encoded c).
Definition set_encMethodNode (v : option xmlNode) (c : xmlSecEncCtx) : xmlSecEncCtx :=
  mkEncCtx (mode c) (encrypt c) (id_ c) (type_ c) (mimeType c) (encoding c)
    (recipient c) (carriedKeyName c) v (keyInfoNode c) (cipherValueNode c)
    (encMethod c) (dontDestroyEncMethod c) (encKey c) (keyInfoReadCtx c)
    (keyInfoWriteCtx c) (encTransformCtx c) (encResult c) (replaced c)
    (resultBase64Encoded c).
Definition set_keyInfoNode (v : option xmlNode) (c : xmlSecEncCtx) : xmlSecEncCtx :=
  mkEncCtx (mode c) (encrypt c) (id_ c) (type_ c) (mimeType c) (encoding c)
    (recipient c) (carriedKeyName c) (encMethodNode c) v (cipherValueNode c)
    (encMethod c) (dontDestroyEncMethod c) (encKey c) (keyInfoReadCtx c)
    (keyInfoWriteCtx c) (encTransformCtx c) (encResult c) (replaced c)
    (resultBase64Encoded c).
Definition set_cipherValueNode (v : option xmlNode) (c : xmlSecEncCtx) : xmlSecEncCtx :=
  mkEncCtx (mode c) (encrypt c) (id_ c) (type_ c) (mimeType c) (encoding c)
    (recipient c) (carriedKeyName c) (encMethodNode c) (keyInfoNode c) v
    (encMethod c) (dontDestroyEncMethod c) (encKey c) (keyInfoReadCtx c)
    (keyInfoWriteCtx c) (encTransformCtx c) (encResult c) (replaced c)
    (resultBase64Encoded c).
Definition set_encMethod (v : option xmlSecTransformPtr) (c : xmlSecEncCtx) : xmlSecEncCtx :=
  mkEncCtx (mode c) (encrypt c) (id_ c) (type_ c) (mimeType c) (encoding c)
    (recipient c) (carriedKeyName c) (encMethodNode c) (keyInfoNode c)
    (cipherValueNode c) v (dontDestroyEncMethod c) (encKey c) (keyInfoReadCtx
    c) (keyInfoWriteCtx c) (encTransformCtx c) (encResult c) (replaced c)
    (resultBase64Encoded c).
Definition set_dontDestroyEncMethod (v : bool) (c : xmlSecEncCtx) : xmlSecEncCtx :=
  mkEncCtx (mode c) (encrypt c) (id_ c) (type_ c) (mimeType c) (encoding c)
    (recipient c) (carriedKeyName c) (encMethodNode c) (keyInfoNode c)
    (cipherValueNode c) (encMethod c) v (encKey c) (keyInfoReadCtx c)
    (keyInfoWriteCtx c) (encTransformCtx c) (encResult c) (replaced c)
    (resultBase64Encoded c).
Definition set_encKey (v : option xmlSecKey) (c : xmlSecEncCtx) : xmlSecEncCtx :=
  mkEncCtx (mode c) (encrypt c) (id_ c) (type_ c) (mimeType c) (encoding c)
    (recipient c) (carriedKeyName c) (encMethodNode c) (keyInfoNode c)
    (cipherValueNode c) (encMethod c) (dontDestroyEncMethod c) v
    (keyInfoReadCtx c) (keyInfoWriteCtx c) (encTransformCtx c) (encResult c)
    (replaced c) (resultBase64Encoded c).
Definition set_keyInfoReadCtx (v : xmlSecKeyInfoCtx) (c : xmlSecEncCtx) : xmlSecEncCtx :=
  mkEncCtx (mode c) (encrypt c) (id_ c) (type_ c) (mimeType c) (encoding c)
    (recipient c) (carriedKeyName c) (encMethodNode c) (keyInfoNode c)
    (cipherValueNode c) (encMethod c) (dontDestroyEncMethod c) (encKey c) v
    (keyInfoWriteCtx c) (encTransformCtx c) (encResult c) (replaced c)
    (resultBase64Encoded c).
Definition set_keyInfoWriteCtx (v : xmlSecKeyInfoCtx) (c : xmlSecEncCtx) : xmlSecEncCtx :=
  mkEncCtx (mode c) (encrypt c) (id_ c) (type_ c) (mimeType c) (encoding c)
    (recipient c) (carriedKeyName c) (encMethodNode c) (keyInfoNode c)
    (cipherValueNode c) (encMethod c) (dontDestroyEncMethod c) (encKey c)
    (keyInfoReadCtx c) v (encTransformCtx c) (encResult c) (replaced c)
    (resultBase64Encoded c).
Definition set_encTransformCtx (v : xmlSecTransformCtx) (c : xmlSecEncCtx) : xmlSecEncCtx :=
  mkEncCtx (mode c) (encrypt c) (id_ c) (type_ c) (mimeType c) (encoding c)
    (recipient c) (carriedKeyName c) (encMethodNode c) (keyInfoNode c)
    (cipherValueNode c) (encMethod c) (dontDestroyEncMethod c) (encKey c)
    (keyInfoReadCtx c) (keyInfoWriteCtx c) v (encResult c) (replaced c)
    (resultBase64Encoded c).
Definition set_encResult (v : option xmlSecBuffer) (c : xmlSecEncCtx) : xmlSecEncCtx :=
  mkEncCtx (mode c) (encrypt c) (id_ c) (type_ c) (mimeType c) (encoding c)
    (recipient c) (carriedKeyName c) (encMethodNode c) (keyInfoNode c)
    (cipherValueNode c) (encMethod c) (dontDestroyEncMethod c) (encKey c)
    (keyInfoReadCtx c) (keyInfoWriteCtx c) (encTransformCtx c) v (replaced c)
    (resultBase64Encoded c).
Definition set_replaced (v : bool) (c : xmlSecEncCtx) : xmlSecEncCtx :=
  mkEncCtx (mode c) (encrypt c) (id_ c) (type_ c) (mimeType c) (encoding c)
    (recipient c) (carriedKeyName c) (encMethodNode c) (keyInfoNode c)
    (cipherValueNode c) (encMethod c) (dontDestroyEncMethod c) (encKey c)
    (keyInfoReadCtx c) (keyInfoWriteCtx c) (encTransformCtx c) (encResult c) v
    (resultBase64Encoded c).
Definition set_resultBase64Encoded (v : bool) (c : xmlSecEncCtx) : xmlSecEncCtx :=
  mkEncCtx (mode c) (encrypt c) (id_ c) (type_ c) (mimeType c) (encoding c)
    (recipient c) (carriedKeyName c) (encMethodNode c) (keyInfoNode c)
    (cipherValueNode c) (encMethod c) (dontDestroyEncMethod c) (encKey c)
    (keyInfoReadCtx c) (keyInfoWriteCtx c) (encTransformCtx c) (encResult c)
    (replaced c) v.

Definition zero_keyInfoCtx : xmlSecKeyInfoCtx :=
  mkKeyInfoCtx xmlSecKeyInfoModeRead None (mkKeyReq xmlSecKeyDataTypeUnknown 0).

(** [memset(ctx, 0, sizeof(xmlSecEncCtx))]. *)
Definition zero_ctx : xmlSecEncCtx :=
  mkEncCtx xmlEncCtxModeEncryptedData false None None None None None None
           None None None None false None zero_keyInfoCtx zero_keyInfoCtx
           (mkTransformCtx [] None None) None false false.

(** Calls that reach outside the context, in the order they are made. *)
Inductive event :=
| EvAddIDs (node : xmlNode)
| EvSetUri (uri : string) (hint : xmlNode)
| EvGetKey (keyInfoNode : xmlNode) (key : option xmlSecKey)
| EvKeyMatch (key : xmlSecKey) (req : xmlSecKeyReq) (ok : bool)
| EvSetKey (t : xmlSecTransformPtr) (key : xmlSecKey)
| EvPrepare
| EvBinaryExecute (data : list byte)
| EvExecute (doc : option xmlDocPtr)
| EvOutputWrite (data : list byte)
| EvOutputClose
| EvNodeSetContent (node : xmlNode) (data : list byte)
| EvKeyInfoNodeWrite (node : xmlNode) (key : xmlSecKey) (ok : bool)
| EvReplaceNode (node tmpl : xmlNode) (ok : bool)
| EvReplaceContent (node tmpl : xmlNode) (ok : bool)
| EvReplaceNodeBuffer (node : xmlNode) (data : list byte) (ok : bool)
| EvTransformCtxFinalize (chain : list xmlSecTransformPtr)
| EvKeyInfoCtxFinalize (mode : xmlSecKeyInfoMode)
| EvTransformDestroy (t : xmlSecTransformPtr)
| EvKeyDestroy (key : xmlSecKey)
| EvFree (s : string).

(** The state: the context, the store of transform objects, the error log
    and the trace of outside calls. *)
Record state := mkState {
  ctx : xmlSecEncCtx;
  transforms : list xmlSecTransform;
  log : xmlSecLog;
  trace : list event
}.

#[export] Instance state_logged : Logged state :=
  fun e s => mkState (ctx s) (transforms s) (log s ++ [e]) (trace s).

(** Collaborators of the encryption context. *)
Record env := mkEnv {
  xmlSecKeyInfoCtxInitialize_ok : bool;
  xmlSecTransformCtxInitialize_ok : bool;
  (* klass of the source transform that a URI needs; [None]: refused *)
  uriSource : string -> xmlNode -> option xmlSecTransformId;
  (* klass the registry gives for a transform node; [None]: failure *)
  registry : xmlNode -> xmlSecTransformUsage -> option xmlSecTransformId;
  xmlSecTransformCreate_ok : xmlSecTransformId -> bool;
  (* the klass method [setKeyReq]; [None]: failure *)
  setKeyReq : xmlSecTransform -> option xmlSecKeyReq;
  setKey_ok : xmlSecTransform -> xmlSecKey -> bool;
  xmlSecKeyMatch : xmlSecKey -> xmlSecKeyReq -> bool;
  prepare_ok : list xmlSecTransform -> bool;
  xmlSecTransformCreateOutputBuffer_ok : bool;
  (* running the chain on pushed bytes / on its URI source *)
  binaryExecute : list xmlSecTransform -> list byte -> option (list byte);
  execute : list xmlSecTransform -> option string -> option (list byte);
  xmlSecBufferGetData_set : xmlSecBuffer -> bool;
  xmlNodeDump : xmlNode -> list byte;
  xmlNodeGetContent : xmlNode -> option string;
  xmlSecReplaceNode_ok : xmlNode -> xmlNode -> bool;
  xmlSecReplaceContent_ok : xmlNode -> xmlNode -> bool;
  xmlSecReplaceNodeBuffer_ok : xmlNode -> list byte -> bool;
  xmlSecKeyInfoNodeWrite_ok : xmlNode -> xmlSecKey -> bool
}.

(** ** Access to the state *)

Definition get_ctx : M state xmlSecEncCtx :=
  s <- get ;; ret (ctx s).
Definition upd_ctx (f : xmlSecEncCtx -> xmlSecEncCtx) : M state unit :=
  modify (fun s => mkState (f (ctx s)) (transforms s) (log s) (trace s)).
Definition upd_tctx (f : xmlSecTransformCtx -> xmlSecTransformCtx) : M state unit :=
  upd_ctx (fun c => set_encTransformCtx (f (encTransformCtx c)) c).
Definition emit (e : event) : M state unit :=
  modify (fun s => mkState (ctx s) (transforms s) (log s) (trace s ++ [e])).

(** Allocation of a transform object: its pointer is the next free index. *)
Definition alloc (t : xmlSecTransform) : M state xmlSecTransformPtr :=
  s <- get ;;
  modify (fun s => mkState (ctx s) (transforms s ++ [t]) (log s) (trace s)) ;;
  ret (List.length (transforms s)).
(** [ptr->field = v]. *)
Definition upd_transform (p : xmlSecTransformPtr)
    (f : xmlSecTransform -> xmlSecTransform) : M state unit :=
  modify (fun s => mkState (ctx s) (alter f p (transforms s)) (log s) (trace s)).
(** The transform objects of the chain, first to last. *)
Definition chain_transforms (s : state) : list xmlSecTransform :=
  omap (fun p => transforms s !! p) (chain (encTransformCtx (ctx s))).
Definition transform_at (s : state) (p : xmlSecTransformPtr) : option xmlSecTransform :=
  transforms s !! p.

(** ** Names and helpers of the XML layer *)

Definition xmlSecEncNs : string := "http://www.w3.org/2001/04/xmlenc#".
Definition xmlSecDSigNs : string := "http://www.w3.org/2000/09/xmldsig#".
Definition xmlSecTypeEncElement : string := "http://www.w3.org/2001/04/xmlenc#Element".
Definition xmlSecTypeEncContent : string := "http://www.w3.org/2001/04/xmlenc#Content".
Definition xmlSecNodeEncryptionMethod : string := "EncryptionMethod".
Definition xmlSecNodeKeyInfo : string := "KeyInfo".
Definition xmlSecNodeCipherData : string := "CipherData".
Definition xmlSecNodeCipherValue : string := "CipherValue".
Definition xmlSecNodeCipherReference : string := "CipherReference".
Definition xmlSecNodeEncryptionProperties : string := "EncryptionProperties".
Definition xmlSecNodeReferenceList : string := "ReferenceList".
Definition xmlSecNodeCarriedKeyName : string := "CarriedKeyName".
Definition xmlSecNodeTransforms : string := "Transforms".
Definition xmlSecAttrId : string := "Id".
Definition xmlSecAttrType : string := "Type".
Definition xmlSecAttrMimeType : string := "MimeType".
Definition xmlSecAttrEncoding : string := "Encoding".
Definition xmlSecAttrRecipient : string := "Recipient".
Definition xmlSecAttrURI : string := "URI".

(** libxml2's [xmlGetProp]: the value of the attribute, or [NULL]. *)
Fixpoint lookup_prop (props : list (string * string)) (name : string) : option string :=
  match props with
  | [] => None
  | (k, v) :: rest => if String.eqb k name then Some v else lookup_prop rest name
  end.
Definition xmlGetProp (node : xmlNode) (name : string) : option string :=
  lookup_prop (node_properties node) name.

(** libxml2's [xmlStrEqual]: two non-NULL strings with equal contents. *)
Definition xmlStrEqual (a b : option string) : bool :=
  match a, b with
  | Some x, Some y => String.eqb x y
  | _, _ => false
  end.

(** Modelled from the spec: [xmlSecGetNextElementNode] (xmltree.c is not among
    the sources) skips the siblings that are not elements.  A cursor [cur] is
    the list of siblings from the current node on; [NULL] is the empty list
    and [cur->next] its tail. *)
Fixpoint xmlSecGetNextElementNode (cur : list xmlNode) : list xmlNode :=
  match cur with
  | [] => []
  | n :: rest =>
      match node_type n with
      | XML_ELEMENT_NODE => cur
      | _ => xmlSecGetNextElementNode rest
      end
  end.

(** Modelled from the spec: [xmlSecCheckNodeName] (xmltree.c is not among the
    sources) compares the local name and the namespace href of the node. *)
Definition xmlSecCheckNodeName (cur : xmlNode) (name ns : string) : bool :=
  String.eqb (node_name cur) name && xmlStrEqual (node_ns cur) (Some ns).

(** [xmlSecNodeGetName(node)]: the name, [NULL] for a [NULL] node. *)
Definition xmlSecNodeGetName (cur : option xmlNode) : option string :=
  match cur with Some n => Some (node_name n) | None => None end.

Definition mode_eqb (a b : xmlEncCtxMode) : bool :=
  match a, b with
  | xmlEncCtxModeEncryptedData, xmlEncCtxModeEncryptedData => true
  | xmlEncCtxModeEncryptedKey, xmlEncCtxModeEncryptedKey => true
  | _, _ => false
  end.

Section WithEnv.
Variable E : env.

(** ** Collaborators written out as state transformers *)

(** Modelled from the spec: [xmlSecKeyInfoCtxInitialize] (keyinfo.c is not
    among the sources) sets up the key-info context given by its address
    (here: the setter of the field) with the keys manager. *)
Definition xmlSecKeyInfoCtxInitialize
    (field : xmlSecKeyInfoCtx -> xmlSecEncCtx -> xmlSecEncCtx)
    (mngr : option xmlSecKeysMngr) : M state unit :=
  if xmlSecKeyInfoCtxInitialize_ok E
  then upd_ctx (field (mkKeyInfoCtx xmlSecKeyInfoModeRead mngr
                                    (mkKeyReq xmlSecKeyDataTypeUnknown 0)))
  else fail.

(** Modelled from the spec: [xmlSecTransformCtxInitialize] gives an empty
    chain without URI or result. *)
Definition xmlSecTransformCtxInitialize : M state unit :=
  if xmlSecTransformCtxInitialize_ok E
  then upd_tctx (fun _ => mkTransformCtx [] None None)
  else fail.

(** Modelled from the spec: [append(t)] / [prepend(t)] link the transform at
    the tail / at the head of the chain. *)
Definition xmlSecTransformCtxAppend (p : xmlSecTransformPtr) : M state unit :=
  upd_tctx (fun t => mkTransformCtx (chain t ++ [p]) (uri t) (result t)).
Definition xmlSecTransformCtxPrepend (p : xmlSecTransformPtr) : M state unit :=
  upd_tctx (fun t => mkTransformCtx (p :: chain t) (uri t) (result t)).

(** Modelled from the spec: [createAndAppend(klassId)] and
    [createAndPrepend(klassId)] allocate an instance of the klass, initialize
    it and link it; they return [NULL] when the instance cannot be made. *)
Definition xmlSecTransformCtxCreateAndAppend (id : xmlSecTransformId)
  : M state xmlSecTransformPtr :=
  if xmlSecTransformCreate_ok E id then
    p <- alloc (xmlSecTransformCreate id) ;;
    xmlSecTransformCtxAppend p ;;
    ret p
  else fail.
Definition xmlSecTransformCtxCreateAndPrepend (id : xmlSecTransformId)
  : M state xmlSecTransformPtr :=
  if xmlSecTransformCreate_ok E id then
    p <- alloc (xmlSecTransformCreate id) ;;
    xmlSecTransformCtxPrepend p ;;
    ret p
  else fail.

(** Modelled from the spec: [nodeRead(node, usage)] instantiates the
    transform that the registry gives for the node under the usage, and
    links it at the tail of the chain. *)
Definition xmlSecTransformCtxNodeRead (node : xmlNode) (usage : xmlSecTransformUsage)
  : M state xmlSecTransformPtr :=
  match registry E node usage with
  | Some id => xmlSecTransformCtxCreateAndAppend id
  | None => fail
  end.

(** Modelled from the spec: [nodesListRead(node, usage)] reads the sequence
    of element children of the node, each with [nodeRead]. *)
Fixpoint nodesListRead_from (cur : list xmlNode) (usage : xmlSecTransformUsage)
  : M state unit :=
  match cur with
  | [] => ret tt
  | n :: rest =>
      match node_type n with
      | XML_ELEMENT_NODE =>
          xmlSecTransformCtxNodeRead n usage ;;
          nodesListRead_from rest usage
      | _ => nodesListRead_from rest usage
      end
  end.
Definition xmlSecTransformCtxNodesListRead (node : xmlNode)
    (usage : xmlSecTransformUsage) : M state unit :=
  nodesListRead_from (node_children node) usage.

(** Modelled from the spec: [setUri(uri, hintNode)] classifies the URI and
    installs the source transform it needs at the head of the chain, or fails
    when the URI is refused. *)
Definition xmlSecTransformCtxSetUri (u : string) (hint : xmlNode) : M state unit :=
  match uriSource E u hint with
  | Some id =>
      p <- alloc (xmlSecTransformCreate id) ;;
      xmlSecTransformCtxPrepend p ;;
      upd_tctx (fun t => mkTransformCtx (chain t) (Some u) (result t)) ;;
      emit (EvSetUri u hint)
  | None => fail
  end.

(** [xmlSecTransformSetKeyReq(transform, &keyInfoReadCtx.keyReq)]: the klass
    method fills the key requirements of the read context. *)
Definition xmlSecTransformSetKeyReq (p : xmlSecTransformPtr) : M state unit :=
  s <- get ;;
  match transform_at s p with
  | Some t =>
      match setKeyReq E t with
      | Some req =>
          upd_ctx (fun c => set_keyInfoReadCtx
                              (mkKeyInfoCtx (ki_mode (keyInfoReadCtx c))
                                            (keysMngr (keyInfoReadCtx c)) req) c)
      | None => fail
      end
  | None => fail
  end.

Definition xmlSecTransformSetKey (p : xmlSecTransformPtr) (key : xmlSecKey) : M state unit :=
  s <- get ;;
  match transform_at s p with
  | Some t =>
      if setKey_ok E t key then emit (EvSetKey p key) else fail
  | None => fail
  end.

(** Modelled from the spec: [prepare(dataType)] materializes the chain. *)
Definition xmlSecTransformCtxPrepare (dataType : xmlSecTransformDataType) : M state unit :=
  s <- get ;;
  emit EvPrepare ;;
  if prepare_ok E (chain_transforms s) then ret tt else fail.

(** Modelled from the spec: [binaryExecute(data, n)] pushes the bytes into
    the chain and closes it; [execute(doc)] drives the chain from its URI
    source.  Either leaves the final bytes in [result]. *)
Definition xmlSecTransformCtxBinaryExecute (data : list byte) : M state unit :=
  s <- get ;;
  emit (EvBinaryExecute data) ;;
  match binaryExecute E (chain_transforms s) data with
  | Some out => upd_tctx (fun t => mkTransformCtx (chain t) (uri t) (Some out))
  | None => fail
  end.
Definition xmlSecTransformCtxExecute (doc : option xmlDocPtr) : M state unit :=
  s <- get ;;
  emit (EvExecute doc) ;;
  match execute E (chain_transforms s) (uri (encTransformCtx (ctx s))) with
  | Some out => upd_tctx (fun t => mkTransformCtx (chain t) (uri t) (Some out))
  | None => fail
  end.

(** Modelled from the spec: [createOutputBuffer(first)] gives an output
    buffer whose writes are pushed into [first] and whose close ends the
    input.  The bytes written so far are the local value [output]. *)
Definition xmlSecTransformCreateOutputBuffer : M state (list byte) :=
  if xmlSecTransformCreateOutputBuffer_ok E then ret [] else fail.
Definition xmlNodeDumpOutput (output : list byte) (cur : xmlNode) : M state (list byte) :=
  emit (EvOutputWrite (xmlNodeDump E cur)) ;;
  ret (output ++ xmlNodeDump E cur).
(** [xmlOutputBufferClose(output)]; the source ignores its return value. *)
Definition xmlOutputBufferClose (output : list byte) : M state unit :=
  s <- get ;;
  emit EvOutputClose ;;
  match binaryExecute E (chain_transforms s) output with
  | Some out => upd_tctx (fun t => mkTransformCtx (chain t) (uri t) (Some out))
  | None => ret tt
  end.

(** Calls into the XML layer and the key-info writer: each is recorded in
    the trace, with its outcome where the source tests it. *)
Definition xmlSecAddIDs (node : xmlNode) : M state unit := emit (EvAddIDs node).

Definition xmlNodeSetContentLen (node : xmlNode) (data : list byte) : M state unit :=
  emit (EvNodeSetContent node data).

Definition xmlSecKeyInfoNodeWrite (node : xmlNode) (key : xmlSecKey) : M state unit :=
  emit (EvKeyInfoNodeWrite node key (xmlSecKeyInfoNodeWrite_ok E node key)) ;;
  if xmlSecKeyInfoNodeWrite_ok E node key then ret tt else fail.

Definition xmlSecReplaceNode (node tmpl : xmlNode) : M state unit :=
  emit (EvReplaceNode node tmpl (xmlSecReplaceNode_ok E node tmpl)) ;;
  if xmlSecReplaceNode_ok E node tmpl then ret tt else fail.
Definition xmlSecReplaceContent (node tmpl : xmlNode) : M state unit :=
  emit (EvReplaceContent node tmpl (xmlSecReplaceContent_ok E node tmpl)) ;;
  if xmlSecReplaceContent_ok E node tmpl then ret tt else fail.
Definition xmlSecReplaceNodeBuffer (node : xmlNode) (data : list byte) : M state unit :=
  emit (EvReplaceNodeBuffer node data (xmlSecReplaceNodeBuffer_ok E node data)) ;;
  if xmlSecReplaceNodeBuffer_ok E node data then ret tt else fail.

(** ** [xmlSecEncCtxInitialize] *)
Definition xmlSecEncCtxInitialize (mngr : option xmlSecKeysMngr) : M state unit :=
  upd_ctx (fun _ => zero_ctx) ;;
  (* initialize key info *)
  checked (xmlSecKeyInfoCtxInitialize set_keyInfoReadCtx mngr)
          (xmlSecError None (Some "xmlSecKeyInfoCtxInitialize")
                       XMLSEC_ERRORS_R_XMLSEC_FAILED XMLSEC_ERRORS_NO_MESSAGE []) ;;
  upd_ctx (fun c => set_keyInfoReadCtx
                      (mkKeyInfoCtx xmlSecKeyInfoModeRead (keysMngr (keyInfoReadCtx c))
                                    (keyReq (keyInfoReadCtx c))) c) ;;
  checked (xmlSecKeyInfoCtxInitialize set_keyInfoWriteCtx mngr)
          (xmlSecError None (Some "xmlSecKeyInfoCtxInitialize")
                       XMLSEC_ERRORS_R_XMLSEC_FAILED XMLSEC_ERRORS_NO_MESSAGE []) ;;
  upd_ctx (fun c => set_keyInfoWriteCtx
                      (mkKeyInfoCtx xmlSecKeyInfoModeWrite (keysMngr (keyInfoWriteCtx c))
                                    (keyReq (keyInfoWriteCtx c))) c) ;;
  (* it's not wise to write private key :) *)
  upd_ctx (fun c => set_keyInfoWriteCtx
                      (mkKeyInfoCtx (ki_mode (keyInfoWriteCtx c)) (keysMngr (keyInfoWriteCtx c))
                                    (mkKeyReq xmlSecKeyDataTypePublic
                                              (keyBitsSize (keyReq (keyInfoWriteCtx c))))) c) ;;
  (* initializes transforms ctx *)
  checked xmlSecTransformCtxInitialize
          (xmlSecError None (Some "xmlSecTransformCtxInitialize")
                       XMLSEC_ERRORS_R_XMLSEC_FAILED XMLSEC_ERRORS_NO_MESSAGE []) ;;
  ret tt.

(** ** [xmlSecEncCtxFinalize] *)
Definition free_attr (a : option string) : M state unit :=
  match a with
  | Some s => emit (EvFree s)
  | None => ret tt
  end.

Definition xmlSecEncCtxFinalize : M state unit :=
  c <- get_ctx ;;
  emit (EvTransformCtxFinalize (chain (encTransformCtx c))) ;;
  emit (EvKeyInfoCtxFinalize (ki_mode (keyInfoReadCtx c))) ;;
  emit (EvKeyInfoCtxFinalize (ki_mode (keyInfoWriteCtx c))) ;;
  (if dontDestroyEncMethod c && is_Some_b (encMethod c) then
     match encMethod c with
     | Some p => emit (EvTransformDestroy p)
     | None => ret tt
     end
   else ret tt) ;;
  (match encKey c with
   | Some k => emit (EvKeyDestroy k)
   | None => ret tt
   end) ;;
  free_attr (id_ c) ;;
  free_attr (type_ c) ;;
  free_attr (mimeType c) ;;
  free_attr (encoding c) ;;
  free_attr (recipient c) ;;
  free_attr (carriedKeyName c) ;;
  upd_ctx (fun _ => zero_ctx).

(** ** [xmlSecEncCtxCipherReferenceNodeRead] *)
Definition xmlSecEncCtxCipherReferenceNodeRead (node : xmlNode) : M state unit :=
  (* first read the optional uri attr *)
  (match xmlGetProp node xmlSecAttrURI with
   | Some u =>
       checked (xmlSecTransformCtxSetUri u node)
               (xmlSecError None (Some "xmlSecTransformCtxSetUri")
                            XMLSEC_ERRORS_R_XMLSEC_FAILED "uri=%s"
                            [ArgStr (xmlSecErrorsSafeString (Some u))])
   | None => ret tt
   end) ;;
  let cur := xmlSecGetNextElementNode (node_children node) in
  (* the only one node is optional Transforms node *)
  cur <- (match cur with
          | n :: rest =>
              if xmlSecCheckNodeName n xmlSecNodeTransforms xmlSecEncNs then
                c <- get_ctx ;;
                checked (xmlSecTransformCtxNodesListRead n xmlSecTransformUsageDSigTransform)
                        (xmlSecError None (Some "xmlSecTransformCtxNodesListRead")
                                     XMLSEC_ERRORS_R_XMLSEC_FAILED "node=%s"
                                     [ArgStr (xmlSecErrorsSafeString
                                                (xmlSecNodeGetName (encMethodNode c)))]) ;;
                ret (xmlSecGetNextElementNode rest)
              else ret cur
          | [] => ret cur
          end) ;;
  (* if there is something left than it's an error *)
  match cur with
  | n :: _ =>
      xmlSecError (Some (xmlSecErrorsSafeString (xmlSecNodeGetName (Some n)))) None
                  XMLSEC_ERRORS_R_UNEXPECTED_NODE XMLSEC_ERRORS_NO_MESSAGE [] ;;
      fail
  | [] => ret tt
  end.

(** ** [xmlSecEncCtxCipherDataNodeRead] *)
Definition xmlSecEncCtxCipherDataNodeRead (node : xmlNode) : M state unit :=
  let cur := xmlSecGetNextElementNode (node_children node) in
  (* we either have CipherValue or CipherReference node *)
  c <- get_ctx ;;
  xmlSecAssert2 (is_None_b (cipherValueNode c)) "ctx->cipherValueNode == NULL" ;;
  cur <- (match cur with
          | n :: rest =>
              if xmlSecCheckNodeName n xmlSecNodeCipherValue xmlSecEncNs then
                (* don't need data from CipherData node when we are encrypting *)
                (if negb (encrypt c) then
                   (* we need to add base64 decode transform *)
                   checked (xmlSecTransformCtxCreateAndPrepend xmlSecTransformBase64Id)
                           (xmlSecError None (Some "xmlSecTransformCtxCreateAndPrepend")
                                        XMLSEC_ERRORS_R_XMLSEC_FAILED
                                        XMLSEC_ERRORS_NO_MESSAGE []) ;;
                   ret tt
                 else ret tt) ;;
                upd_ctx (set_cipherValueNode (Some n)) ;;
                ret (xmlSecGetNextElementNode rest)
              else if xmlSecCheckNodeName n xmlSecNodeCipherReference xmlSecEncNs then
                (* don't need data from CipherData node when we are encrypting *)
                (if negb (encrypt c) then
                   checked (xmlSecEncCtxCipherReferenceNodeRead n)
                           (xmlSecError None (Some "xmlSecEncCtxCipherReferenceNodeRead")
                                        XMLSEC_ERRORS_R_XMLSEC_FAILED "node=%s"
                                        [ArgStr (xmlSecErrorsSafeString
                                                   (xmlSecNodeGetName (Some n)))])
                 else ret tt) ;;
                ret (xmlSecGetNextElementNode rest)
              else ret cur
          | [] => ret cur
          end) ;;
  match cur with
  | n :: _ =>
      xmlSecError None (Some (xmlSecErrorsSafeString (xmlSecNodeGetName (Some n))))
                  XMLSEC_ERRORS_R_INVALID_NODE XMLSEC_ERRORS_NO_MESSAGE [] ;;
      fail
  | [] => ret tt
  end.

(** ** [xmlSecEncCtxEncDataNodeRead]

    The body of the function, cut at its comment lines into five consecutive
    blocks; the function is their sequence. *)

(** "first read node data": the entry assertions and the attributes. *)
Definition EncDataNodeRead_attributes (node : xmlNode) : M state unit :=
  c <- get_ctx ;;
  xmlSecAssert2 (is_None_b (id_ c)) "ctx->id == NULL" ;;
  xmlSecAssert2 (is_None_b (type_ c)) "ctx->type == NULL" ;;
  xmlSecAssert2 (is_None_b (mimeType c)) "ctx->mimeType == NULL" ;;
  xmlSecAssert2 (is_None_b (encoding c)) "ctx->encoding == NULL" ;;
  xmlSecAssert2 (is_None_b (recipient c)) "ctx->recipient == NULL" ;;
  xmlSecAssert2 (is_None_b (carriedKeyName c)) "ctx->carriedKeyName == NULL" ;;
  upd_ctx (set_id_ (xmlGetProp node xmlSecAttrId)) ;;
  upd_ctx (set_type_ (xmlGetProp node xmlSecAttrType)) ;;
  upd_ctx (set_mimeType (xmlGetProp node xmlSecAttrMimeType)) ;;
  upd_ctx (set_encoding (xmlGetProp node xmlSecAttrEncoding)) ;;
  (if mode_eqb (mode c) xmlEncCtxModeEncryptedKey
   then upd_ctx (set_recipient (xmlGetProp node xmlSecAttrRecipient))
        (* todo: check recipient? *)
   else ret tt).

(** The cursor after an optional child named [name] in namespace [ns]:
    [if((cur != NULL) && xmlSecCheckNodeName(cur, name, ns))
       cur = xmlSecGetNextElementNode(cur->next);]. *)
Definition skip_optional (name ns : string) (cur : list xmlNode) : list xmlNode :=
  match cur with
  | n :: rest =>
      if xmlSecCheckNodeName n name ns then xmlSecGetNextElementNode rest else cur
  | [] => cur
  end.

(** The child sequence: EncryptionMethod?, KeyInfo?, CipherData,
    EncryptionProperties?, and for EncryptedKey ReferenceList?,
    CarriedKeyName?; nothing else. *)
Definition EncDataNodeRead_children (node : xmlNode) : M state unit :=
  let cur := xmlSecGetNextElementNode (node_children node) in
  (* first node is optional EncryptionMethod, we'll read it later *)
  c <- get_ctx ;;
  xmlSecAssert2 (is_None_b (encMethodNode c)) "ctx->encMethodNode == NULL" ;;
  cur <- (match cur with
          | n :: rest =>
              if xmlSecCheckNodeName n xmlSecNodeEncryptionMethod xmlSecEncNs then
                upd_ctx (set_encMethodNode (Some n)) ;;
                ret (xmlSecGetNextElementNode rest)
              else ret cur
          | [] => ret cur
          end) ;;
  (* next node is optional KeyInfo, we'll process it later *)
  xmlSecAssert2 (is_None_b (keyInfoNode c)) "ctx->keyInfoNode == NULL" ;;
  cur <- (match cur with
          | n :: rest =>
              if xmlSecCheckNodeName n xmlSecNodeKeyInfo xmlSecDSigNs then
                upd_ctx (set_keyInfoNode (Some n)) ;;
                ret (xmlSecGetNextElementNode rest)
              else ret cur
          | [] => ret cur
          end) ;;
  (* next is required CipherData node *)
  cur <- (match cur with
          | n :: rest =>
              if xmlSecCheckNodeName n xmlSecNodeCipherData xmlSecEncNs then
                checked (xmlSecEncCtxCipherDataNodeRead n)
                        (xmlSecError None (Some "xmlSecEncCtxCipherDataNodeRead")
                                     XMLSEC_ERRORS_R_XMLSEC_FAILED
                                     XMLSEC_ERRORS_NO_MESSAGE []) ;;
                ret (xmlSecGetNextElementNode rest)
              else
                xmlSecError None
                            (Some (xmlSecErrorsSafeString (xmlSecNodeGetName (Some n))))
                            XMLSEC_ERRORS_R_INVALID_NODE "node=%s"
                            [ArgStr (xmlSecErrorsSafeString (Some xmlSecNodeCipherData))] ;;
                fail
          | [] =>
              xmlSecError None
                          (Some (xmlSecErrorsSafeString (xmlSecNodeGetName None)))
                          XMLSEC_ERRORS_R_INVALID_NODE "node=%s"
                          [ArgStr (xmlSecErrorsSafeString (Some xmlSecNodeCipherData))] ;;
              fail
          end) ;;
  (* next is optional EncryptionProperties node (we simply ignore it) *)
  let cur := skip_optional xmlSecNodeEncryptionProperties xmlSecEncNs cur in
  (* there are more possible nodes for the <EncryptedKey> node *)
  cur <- (if mode_eqb (mode c) xmlEncCtxModeEncryptedKey then
            (* next is optional ReferenceList node (we simply ignore it) *)
            let cur := skip_optional xmlSecNodeReferenceList xmlSecEncNs cur in
            (* next is optional CarriedKeyName node (we simply ignore it) *)
            match cur with
            | n :: rest =>
                if xmlSecCheckNodeName n xmlSecNodeCarriedKeyName xmlSecEncNs then
                  upd_ctx (set_carriedKeyName (xmlNodeGetContent E n)) ;;
                  match xmlNodeGetContent E n with
                  | None =>
                      xmlSecError None
                                  (Some (xmlSecErrorsSafeString (xmlSecNodeGetName (Some n))))
                                  XMLSEC_ERRORS_R_INVALID_NODE_CONTENT "node=%s"
                                  [ArgStr (xmlSecErrorsSafeString (Some xmlSecNodeCipherData))] ;;
                      fail
                  | Some _ =>
                      (* TODO: decode the name? *)
                      ret (xmlSecGetNextElementNode rest)
                  end
                else ret cur
            | [] => ret cur
            end
          else ret cur) ;;
  (* if there is something left than it's an error *)
  match cur with
  | n :: _ =>
      xmlSecError (Some (xmlSecErrorsSafeString (xmlSecNodeGetName (Some n)))) None
                  XMLSEC_ERRORS_R_UNEXPECTED_NODE XMLSEC_ERRORS_NO_MESSAGE [] ;;
      fail
  | [] => ret tt
  end.

(** The name of the transform a pointer leads to. *)
Definition transform_name (s : state) (p : xmlSecTransformPtr) : option string :=
  match transform_at s p with
  | Some t => xmlSecTransformGetName t
  | None => None
  end.

(** "now read the encryption method node", up to the key requirements. *)
Definition EncDataNodeRead_encMethod : M state unit :=
  c <- get_ctx ;;
  (match encMethod c, encMethodNode c with
   | None, Some mnode =>
       p <- checked (xmlSecTransformCtxNodeRead mnode xmlSecTransformUsageEncryptionMethod)
                    (xmlSecError None (Some "xmlSecTransformCtxNodeRead")
                                 XMLSEC_ERRORS_R_XMLSEC_FAILED "node=%s"
                                 [ArgStr (xmlSecErrorsSafeString
                                            (xmlSecNodeGetName (Some mnode)))]) ;;
       upd_ctx (set_encMethod (Some p))
   | Some p, _ =>
       checked (xmlSecTransformCtxAppend p)
               (xmlSecError None (Some "xmlSecTransformCtxAppend")
                            XMLSEC_ERRORS_R_XMLSEC_FAILED XMLSEC_ERRORS_NO_MESSAGE []) ;;
       upd_ctx (set_dontDestroyEncMethod true)
   | None, None =>
       (* TODO: add default global enc method? *)
       xmlSecError None None XMLSEC_ERRORS_R_INVALID_DATA
                   "encryption method not specified" [] ;;
       fail
   end) ;;
  c <- get_ctx ;;
  match encMethod c with
  | None => fail
  | Some p =>
      upd_transform p (set_tr_encode (encrypt c)) ;;
      (* we have encryption method, find key *)
      s <- get ;;
      checked (xmlSecTransformSetKeyReq p)
              (xmlSecError None (Some "xmlSecTransformSetKeyReq")
                           XMLSEC_ERRORS_R_XMLSEC_FAILED "transform=%s"
                           [ArgStr (xmlSecErrorsSafeString (transform_name s p))])
  end.

(** The key: the hook of the keys manager, the match against the
    requirements, and the key set on the transform.  The source reads
    [ctx->keyInfoReadCtx.keysMngr->getKey] without testing [keysMngr]; a
    context without keys manager is taken here as one without hook. *)
Definition EncDataNodeRead_key : M state unit :=
  c <- get_ctx ;;
  (match encKey c, keyInfoNode c, keysMngr (keyInfoReadCtx c) with
   | None, Some kn, Some mngr =>
       match getKey mngr with
       | Some hook =>
           emit (EvGetKey kn (hook kn (keyReq (keyInfoReadCtx c)))) ;;
           upd_ctx (set_encKey (hook kn (keyReq (keyInfoReadCtx c))))
       | None => ret tt
       end
   | _, _, _ => ret tt
   end) ;;
  (* check that we have exactly what we want *)
  c <- get_ctx ;;
  matched <- (match encKey c with
              | None => ret false
              | Some k =>
                  emit (EvKeyMatch k (keyReq (keyInfoReadCtx c))
                                   (xmlSecKeyMatch E k (keyReq (keyInfoReadCtx c)))) ;;
                  ret (xmlSecKeyMatch E k (keyReq (keyInfoReadCtx c)))
              end) ;;
  if negb matched then
    xmlSecError None None XMLSEC_ERRORS_R_KEY_NOT_FOUND XMLSEC_ERRORS_NO_MESSAGE [] ;;
    fail
  else
    (* set the key to the transform *)
    match encMethod c, encKey c with
    | Some p, Some k =>
        s <- get ;;
        checked (xmlSecTransformSetKey p k)
                (xmlSecError None (Some "xmlSecTransformSetKey")
                             XMLSEC_ERRORS_R_XMLSEC_FAILED "transform=%s"
                             [ArgStr (xmlSecErrorsSafeString (transform_name s p))])
    | _, _ => fail
    end.

(** "if we need to write result to xml node then we need base64 encode it". *)
Definition EncDataNodeRead_base64 : M state unit :=
  c <- get_ctx ;;
  if encrypt c && is_Some_b (cipherValueNode c) then
    (* we need to add base64 encode transform *)
    base64Encode <- checked (xmlSecTransformCtxCreateAndAppend xmlSecTransformBase64Id)
                            (xmlSecError None (Some "xmlSecTransformCtxCreateAndAppend")
                                         XMLSEC_ERRORS_R_XMLSEC_FAILED
                                         XMLSEC_ERRORS_NO_MESSAGE []) ;;
    upd_transform base64Encode (set_tr_encode true) ;;
    upd_ctx (set_resultBase64Encoded true)
  else ret tt.

Definition xmlSecEncCtxEncDataNodeRead (node : xmlNode) : M state unit :=
  EncDataNodeRead_attributes node ;;
  EncDataNodeRead_children node ;;
  EncDataNodeRead_encMethod ;;
  EncDataNodeRead_key ;;
  EncDataNodeRead_base64 ;;
  ret tt.

(** ** [xmlSecEncCtxCipherDataNodeWrite] *)
Definition xmlSecEncCtxCipherDataNodeWrite : M state unit :=
  c <- get_ctx ;;
  xmlSecAssert2 (is_Some_b (encResult c)) "ctx->encResult != NULL" ;;
  xmlSecAssert2 (is_Some_b (encKey c)) "ctx->encKey != NULL" ;;
  match encResult c, encKey c with
  | Some res, Some key =>
      (* write encrypted data to xml (if requested) *)
      (match cipherValueNode c with
       | Some cv =>
           xmlSecAssert2 (xmlSecBufferGetData_set E res)
                         "xmlSecBufferGetData(ctx->encResult) != NULL" ;;
           xmlNodeSetContentLen cv res ;;
           upd_ctx (set_replaced true)
       | None => ret tt
       end) ;;
      (* update <dsig:KeyInfo/> node *)
      (match keyInfoNode c with
       | Some kn =>
           checked (xmlSecKeyInfoNodeWrite kn key)
                   (xmlSecError None (Some "xmlSecKeyInfoNodeWrite")
                                XMLSEC_ERRORS_R_XMLSEC_FAILED XMLSEC_ERRORS_NO_MESSAGE [])
       | None => ret tt
       end) ;;
      ret tt
  | _, _ => fail
  end.

(** [ctx->encResult = ctx->encTransformCtx.result;
     xmlSecAssert2(ctx->encResult != NULL, ...);] *)
Definition take_result : M state xmlSecBuffer :=
  upd_ctx (fun c => set_encResult (result (encTransformCtx c)) c) ;;
  c <- get_ctx ;;
  xmlSecAssert2 (is_Some_b (encResult c)) "ctx->encResult != NULL" ;;
  match encResult c with
  | Some b => ret b
  | None => fail
  end.

(** ** [xmlSecEncCtxBinaryEncrypt] *)
Definition xmlSecEncCtxBinaryEncrypt (tmpl : xmlNode) (data : list byte) : M state unit :=
  c <- get_ctx ;;
  xmlSecAssert2 (is_None_b (encResult c)) "ctx->encResult == NULL" ;;
  (* initialize context and add ID atributes to the list of known ids *)
  upd_ctx (set_encrypt true) ;;
  xmlSecAddIDs tmpl ;;
  (* read the template and set encryption method, key, etc. *)
  checked (xmlSecEncCtxEncDataNodeRead tmpl)
          (xmlSecError None (Some "xmlSecEncCtxEncDataNodeRead")
                       XMLSEC_ERRORS_R_XMLSEC_FAILED XMLSEC_ERRORS_NO_MESSAGE []) ;;
  checked (xmlSecTransformCtxBinaryExecute data)
          (xmlSecError None (Some "xmlSecTransformCtxBinaryExecute")
                       XMLSEC_ERRORS_R_XMLSEC_FAILED "dataSize=%d"
                       [ArgInt (Z.of_nat (List.length data))]) ;;
  take_result ;;
  checked xmlSecEncCtxCipherDataNodeWrite
          (xmlSecError None (Some "xmlSecEncCtxCipherDataNodeWrite")
                       XMLSEC_ERRORS_R_XMLSEC_FAILED XMLSEC_ERRORS_NO_MESSAGE []) ;;
  ret tt.

(** The children of [node] dumped one after the other:
    [for(cur = node->children; cur != NULL; cur = cur->next)]. *)
Fixpoint dump_children (output : list byte) (cur : list xmlNode) : M state (list byte) :=
  match cur with
  | [] => ret output
  | n :: rest =>
      output <- xmlNodeDumpOutput output n ;;
      dump_children output rest
  end.

(** ** [xmlSecEncCtxXmlEncrypt] *)
Definition xmlSecEncCtxXmlEncrypt (tmpl node : xmlNode) : M state unit :=
  c <- get_ctx ;;
  xmlSecAssert2 (is_None_b (encResult c)) "ctx->encResult == NULL" ;;
  xmlSecAssert2 (is_Some_b (node_doc node)) "node->doc != NULL" ;;
  (* initialize context and add ID atributes to the list of known ids *)
  upd_ctx (set_encrypt true) ;;
  xmlSecAddIDs tmpl ;;
  (* read the template and set encryption method, key, etc. *)
  checked (xmlSecEncCtxEncDataNodeRead tmpl)
          (xmlSecError None (Some "xmlSecEncCtxEncDataNodeRead")
                       XMLSEC_ERRORS_R_XMLSEC_FAILED XMLSEC_ERRORS_NO_MESSAGE []) ;;
  checked (xmlSecTransformCtxPrepare xmlSecTransformDataTypeBin)
          (xmlSecError None (Some "xmlSecTransformCtxPrepare")
                       XMLSEC_ERRORS_R_XMLSEC_FAILED "type=bin" []) ;;
  s <- get ;;
  xmlSecAssert2 (is_Some_b (first (encTransformCtx (ctx s))))
                "ctx->encTransformCtx.first != NULL" ;;
  output <- checked xmlSecTransformCreateOutputBuffer
                    (xmlSecError
                       (Some (xmlSecErrorsSafeString
                                (match first (encTransformCtx (ctx s)) with
                                 | Some p => transform_name s p
                                 | None => None
                                 end)))
                       (Some "xmlSecTransformCreateOutputBuffer")
                       XMLSEC_ERRORS_R_XMLSEC_FAILED XMLSEC_ERRORS_NO_MESSAGE []) ;;
  (* push data thru *)
  c <- get_ctx ;;
  output <- (if is_Some_b (type_ c) && xmlStrEqual (type_ c) (Some xmlSecTypeEncElement) then
               (* get the content of the node *)
               xmlNodeDumpOutput output node
             else if is_Some_b (type_ c) && xmlStrEqual (type_ c) (Some xmlSecTypeEncContent) then
               (* get the content of the nodes childs *)
               dump_children output (node_children node)
             else
               xmlSecError None None XMLSEC_ERRORS_R_INVALID_TYPE type_msg
                           [ArgStr (xmlSecErrorsSafeString (type_ c))] ;;
               xmlOutputBufferClose output ;;
               fail) ;;
  (* close the buffer and flush everything *)
  xmlOutputBufferClose output ;;
  take_result ;;
  checked xmlSecEncCtxCipherDataNodeWrite
          (xmlSecError None (Some "xmlSecEncCtxCipherDataNodeWrite")
                       XMLSEC_ERRORS_R_XMLSEC_FAILED XMLSEC_ERRORS_NO_MESSAGE []) ;;
  (* now we need to update our original document *)
  c <- get_ctx ;;
  (if is_Some_b (type_ c) && xmlStrEqual (type_ c) (Some xmlSecTypeEncElement) then
     checked (xmlSecReplaceNode node tmpl)
             (xmlSecError None (Some "xmlSecReplaceNode")
                          XMLSEC_ERRORS_R_XMLSEC_FAILED "node=%s"
                          [ArgStr (xmlSecErrorsSafeString (xmlSecNodeGetName (Some node)))]) ;;
     upd_ctx (set_replaced true)
   else if xmlStrEqual (type_ c) (Some xmlSecTypeEncContent) then
     checked (xmlSecReplaceContent node tmpl)
             (xmlSecError None (Some "xmlSecReplaceContent")
                          XMLSEC_ERRORS_R_XMLSEC_FAILED "node=%s"
                          [ArgStr (xmlSecErrorsSafeString (xmlSecNodeGetName (Some node)))]) ;;
     upd_ctx (set_replaced true)
   else
     (* we should've catached this error before *)
     xmlSecError None None XMLSEC_ERRORS_R_INVALID_TYPE type_msg
                 [ArgStr (xmlSecErrorsSafeString (type_ c))] ;;
     fail) ;;
  ret tt.

(** ** [xmlSecEncCtxUriEncrypt] *)
Definition xmlSecEncCtxUriEncrypt (tmpl : xmlNode) (u : string) : M state unit :=
  c <- get_ctx ;;
  xmlSecAssert2 (is_None_b (encResult c)) "ctx->encResult == NULL" ;;
  (* initialize context and add ID atributes to the list of known ids *)
  upd_ctx (set_encrypt true) ;;
  xmlSecAddIDs tmpl ;;
  (* we need to add input uri transform first *)
  checked (xmlSecTransformCtxSetUri u tmpl)
          (xmlSecError None (Some "xmlSecTransformCtxSetUri")
                       XMLSEC_ERRORS_R_XMLSEC_FAILED "uri=%s" [ArgStr u]) ;;
  (* read the template and set encryption method, key, etc. *)
  checked (xmlSecEncCtxEncDataNodeRead tmpl)
          (xmlSecError None (Some "xmlSecEncCtxEncDataNodeRead")
                       XMLSEC_ERRORS_R_XMLSEC_FAILED XMLSEC_ERRORS_NO_MESSAGE []) ;;
  (* encrypt the data *)
  checked (xmlSecTransformCtxExecute (node_doc tmpl))
          (xmlSecError None (Some "xmlSecTransformCtxExecute")
                       XMLSEC_ERRORS_R_XMLSEC_FAILED XMLSEC_ERRORS_NO_MESSAGE []) ;;
  take_result ;;
  checked xmlSecEncCtxCipherDataNodeWrite
          (xmlSecError None (Some "xmlSecEncCtxCipherDataNodeWrite")
                       XMLSEC_ERRORS_R_XMLSEC_FAILED XMLSEC_ERRORS_NO_MESSAGE []) ;;
  ret tt.

(** ** [xmlSecEncCtxDecryptToBuffer] *)
Definition xmlSecEncCtxDecryptToBuffer (node : xmlNode) : M state xmlSecBuffer :=
  c <- get_ctx ;;
  xmlSecAssert2 (is_None_b (encResult c)) "ctx->encResult == NULL" ;;
  (* initialize context and add ID atributes to the list of known ids *)
  upd_ctx (set_encrypt false) ;;
  xmlSecAddIDs node ;;
  checked (xmlSecEncCtxEncDataNodeRead node)
          (xmlSecError None (Some "xmlSecEncCtxEncDataNodeRead")
                       XMLSEC_ERRORS_R_XMLSEC_FAILED XMLSEC_ERRORS_NO_MESSAGE []) ;;
  (* decrypt the data *)
  c <- get_ctx ;;
  (match cipherValueNode c with
   | Some cv =>
       match xmlNodeGetContent E cv with
       | None =>
           xmlSecError None (Some "xmlNodeGetContent")
                       XMLSEC_ERRORS_R_INVALID_NODE_CONTENT "node=%s"
                       [ArgStr (xmlSecErrorsSafeString (xmlSecNodeGetName (Some cv)))] ;;
           fail
       | Some data =>
           checked (xmlSecTransformCtxBinaryExecute (list_byte_of_string data))
                   (xmlSecError None (Some "xmlSecTransformCtxBinaryExecute")
                                XMLSEC_ERRORS_R_XMLSEC_FAILED XMLSEC_ERRORS_NO_MESSAGE [])
       end
   | None =>
       checked (xmlSecTransformCtxExecute (node_doc node))
               (xmlSecError None (Some "xmlSecTransformCtxBinaryExecute")
                            XMLSEC_ERRORS_R_XMLSEC_FAILED XMLSEC_ERRORS_NO_MESSAGE [])
   end) ;;
  take_result.

(** ** [xmlSecEncCtxDecrypt] *)
Definition xmlSecEncCtxDecrypt (node : xmlNode) : M state unit :=
  (* decrypt *)
  buffer <- checked (xmlSecEncCtxDecryptToBuffer node)
                    (xmlSecError None (Some "xmlSecEncCtxDecryptToBuffer")
                                 XMLSEC_ERRORS_R_XMLSEC_FAILED XMLSEC_ERRORS_NO_MESSAGE []) ;;
  (* replace original node if requested *)
  c <- get_ctx ;;
  (if is_Some_b (type_ c) && xmlStrEqual (type_ c) (Some xmlSecTypeEncElement) then
     checked (xmlSecReplaceNodeBuffer node buffer)
             (xmlSecError None (Some "xmlSecReplaceNodeBuffer")
                          XMLSEC_ERRORS_R_XMLSEC_FAILED "node=%s"
                          [ArgStr (xmlSecErrorsSafeString (xmlSecNodeGetName (Some node)))]) ;;
     upd_ctx (set_replaced true)
   else if is_Some_b (type_ c) && xmlStrEqual (type_ c) (Some xmlSecTypeEncContent) then
     (* replace the node with the buffer *)
     checked (xmlSecReplaceNodeBuffer node buffer)
             (xmlSecError None (Some "xmlSecReplaceNodeBuffer")
                          XMLSEC_ERRORS_R_XMLSEC_FAILED "node=%s"
                          [ArgStr (xmlSecErrorsSafeString (xmlSecNodeGetName (Some node)))]) ;;
     upd_ctx (set_replaced true)
   else ret tt) ;;
  ret tt.

(** ** The five top-level operations *)
Inductive operation :=
| BinaryEncrypt (tmpl : xmlNode) (data : list byte)
| XmlEncrypt (tmpl node : xmlNode)
| UriEncrypt (tmpl : xmlNode) (uri : string)
| Decrypt (node : xmlNode)
| DecryptToBuffer (node : xmlNode).

Definition run_op (op : operation) : M state unit :=
  match op with
  | BinaryEncrypt tmpl data => xmlSecEncCtxBinaryEncrypt tmpl data
  | XmlEncrypt tmpl node => xmlSecEncCtxXmlEncrypt tmpl node
  | UriEncrypt tmpl u => xmlSecEncCtxUriEncrypt tmpl u
  | Decrypt node => xmlSecEncCtxDecrypt node
  | DecryptToBuffer node => xmlSecEncCtxDecryptToBuffer node ;; ret tt
  end.

(** The EncryptedData / EncryptedKey element an operation reads. *)
Definition template_of (op : operation) : xmlNode :=
  match op with
  | BinaryEncrypt tmpl _ => tmpl
  | XmlEncrypt tmpl _ => tmpl
  | UriEncrypt tmpl _ => tmpl
  | Decrypt node => node
  | DecryptToBuffer node => node
  end.

End WithEnv.
End XmlEnc.

(* ================================================================== *)
(** * Vocabulary of the statements about the encryption context *)
(* ================================================================== *)

Module EncLogic.
Import XmlEnc.

(** [preserves R m]: whatever [m] returns, the state it leaves is related by
    [R] to the state it started from. *)
Definition preserves {A} (R : state -> state -> Prop) (m : M state A) : Prop :=
  forall s, R s (snd (m s)).

(** [spec Q m]: the start state, the result and the end state of every run
    of [m] are related by [Q]. *)
Definition spec {A} (Q : state -> res A -> state -> Prop) (m : M state A) : Prop :=
  forall s, Q s (fst (m s)) (snd (m s)).

Definition failed {A} (r : res A) : bool :=
  match r with Fail => true | Ok _ => false end.

(** The context field [f] is left as it was. *)
Definition same {A} (f : xmlSecEncCtx -> A) : state -> state -> Prop :=
  fun s s' => f (ctx s') = f (ctx s).

(** The trace only grows, by events that all satisfy [allowed]. *)
Definition extends (allowed : event -> bool) : state -> state -> Prop :=
  fun s s' => exists evs, trace s' = trace s ++ evs /\ forallb allowed evs = true.

(** The log only grows. *)
Definition log_grows : state -> state -> Prop :=
  fun s s' => exists lg, log s' = log s ++ lg.

(** Kinds of events. *)
Definition is_exec (e : event) : bool :=
  match e with
  | EvBinaryExecute _ | EvExecute _ | EvOutputWrite _ | EvOutputClose => true
  | _ => false
  end.

Definition not_destroy (e : event) : bool :=
  match e with
  | EvTransformDestroy _ => false
  | _ => true
  end.

(** The key manager's hook returned NULL, or the key did not match. *)
Definition key_failure (e : event) : bool :=
  match e with
  | EvGetKey _ None => true
  | EvKeyMatch _ _ false => true
  | _ => false
  end.

Definition is_setUri (e : event) : bool :=
  match e with
  | EvSetUri _ _ => true
  | _ => false
  end.

(** A splice of the host document that succeeded. *)
Definition is_splice (e : event) : bool :=
  match e with
  | EvReplaceNode _ _ true | EvReplaceContent _ _ true
  | EvReplaceNodeBuffer _ _ true => true
  | _ => false
  end.

(** Any attempt to write into a document. *)
Definition is_dom_write (e : event) : bool :=
  match e with
  | EvNodeSetContent _ _ | EvKeyInfoNodeWrite _ _ _
  | EvReplaceNode _ _ _ | EvReplaceContent _ _ _
  | EvReplaceNodeBuffer _ _ _ => true
  | _ => false
  end.

Definition is_setContent (e : event) : bool :=
  match e with
  | EvNodeSetContent _ _ => true
  | _ => false
  end.

(** [replaced] is only set when the run made an event that satisfies
    [just]. *)
Definition replaced_justified (just : event -> bool) : state -> state -> Prop :=
  fun s s' => exists evs, trace s' = trace s ++ evs /\
    (replaced (ctx s') = true -> replaced (ctx s) = true \/ existsb just evs = true).

(** [replaced] is never cleared. *)
Definition replaced_kept : state -> state -> Prop :=
  fun s s' => replaced (ctx s) = true -> replaced (ctx s') = true.

(** A run that fails has made no successful splice. *)
Definition splice_guard {A} : state -> res A -> state -> Prop :=
  fun s r s' => exists evs, trace s' = trace s ++ evs /\
    (failed r = true -> existsb is_splice evs = false).

(** A run in which the key hook returned NULL or the key did not match
    fails, reports KEY_NOT_FOUND, and has not run the chain. *)
Definition key_guard {A} : state -> res A -> state -> Prop :=
  fun s r s' => exists evs lg, trace s' = trace s ++ evs /\ log s' = log s ++ lg /\
    (existsb key_failure evs = true ->
     failed r = true /\ reported XMLSEC_ERRORS_R_KEY_NOT_FOUND lg /\
     forallb (fun e => negb (is_exec e)) evs = true).

(** Events before the key is looked for: no key failure, no run of the chain. *)
Definition quiet (e : event) : bool := negb (key_failure e) && negb (is_exec e).

Definition no_splice (e : event) : bool := negb (is_splice e).

(** Events that writing CipherData or splicing justifies [replaced] with. *)
Definition is_write_or_splice (e : event) : bool := is_setContent e || is_splice e.

(** The events and log entries a run added. *)
Definition new_events (s s' : state) : list event :=
  skipn (List.length (trace s)) (trace s').
Definition new_log (s s' : state) : xmlSecLog :=
  skipn (List.length (log s)) (log s').

(** The cursor at which [xmlSecEncCtxEncDataNodeRead] expects CipherData:
    the element children after the optional EncryptionMethod and KeyInfo. *)
Definition cipherData_cursor (node : xmlNode) : list xmlNode :=
  skip_optional xmlSecNodeKeyInfo xmlSecDSigNs
    (skip_optional xmlSecNodeEncryptionMethod xmlSecEncNs
       (xmlSecGetNextElementNode (node_children node))).

(** The template has no CipherData element at that position. *)
Definition lacks_CipherData (node : xmlNode) : bool :=
  match cipherData_cursor node with
  | n :: _ => negb (xmlSecCheckNodeName n xmlSecNodeCipherData xmlSecEncNs)
  | [] => true
  end.

(** The first element child of the template's CipherData, if there is one. *)
Definition cipherData_child (node : xmlNode) : option xmlNode :=
  match cipherData_cursor node with
  | cd :: _ =>
      if xmlSecCheckNodeName cd xmlSecNodeCipherData xmlSecEncNs
      then List.hd_error (xmlSecGetNextElementNode (node_children cd))
      else None
  | [] => None
  end.

(** The template's CipherData holds a CipherValue / a CipherReference. *)
Definition holds_CipherValue (node : xmlNode) : bool :=
  match cipherData_child node with
  | Some n => xmlSecCheckNodeName n xmlSecNodeCipherValue xmlSecEncNs
  | None => false
  end.

Definition holds_CipherReference (node : xmlNode) : bool :=
  match cipherData_child node with
  | Some n => negb (xmlSecCheckNodeName n xmlSecNodeCipherValue xmlSecEncNs)
              && xmlSecCheckNodeName n xmlSecNodeCipherReference xmlSecEncNs
  | None => false
  end.

(** No event at all. *)
Definition silent (e : event) : bool := false.

(** The child of CipherData that [xmlSecEncCtxCipherDataNodeRead] looks at. *)
Definition first_child (cd : xmlNode) : option xmlNode :=
  List.hd_error (xmlSecGetNextElementNode (node_children cd)).

Definition is_CipherValue (child : option xmlNode) : bool :=
  match child with
  | Some n => xmlSecCheckNodeName n xmlSecNodeCipherValue xmlSecEncNs
  | None => false
  end.

Definition is_CipherReference (child : option xmlNode) : bool :=
  match child with
  | Some n => negb (xmlSecCheckNodeName n xmlSecNodeCipherValue xmlSecEncNs)
              && xmlSecCheckNodeName n xmlSecNodeCipherReference xmlSecEncNs
  | None => false
  end.

(** The chain of the context, first to last. *)
Definition chain_of (c : xmlSecEncCtx) : list xmlSecTransformPtr :=
  chain (encTransformCtx c).

(** The state of a context right after a successful
    [xmlSecEncCtxInitialize]: nothing read from a template yet. *)
Definition unread (c : xmlSecEncCtx) : Prop :=
  id_ c = None /\ type_ c = None /\ mimeType c = None /\ encoding c = None /\
  recipient c = None /\ carriedKeyName c = None /\
  encMethodNode c = None /\ keyInfoNode c = None /\ cipherValueNode c = None.

End EncLogic.

(* ================================================================== *)
(** * Concrete inputs used by the examples *)
(* ================================================================== *)

Module XsltSamples.
Import Xslt.

(** An environment in which every collaborator succeeds: documents and
    stylesheets are numbered by the length of the bytes they come from. *)
Definition env_ok : env :=
  mkEnv true (fun n => list_byte_of_string (node_name n))
        (fun b => Some (List.length b)) (fun d => Some d)
        (fun _ d => Some d) true
        (fun d _ => Some (List.repeat x2a d)) (fun _ => true).

(** The same environment with a parser that rejects every input. *)
Definition env_parse_fails : env :=
  mkEnv true (fun n => list_byte_of_string (node_name n))
        (fun _ => None) (fun d => Some d)
        (fun _ d => Some d) true
        (fun d _ => Some (List.repeat x2a d)) (fun _ => true).

(** The transform right after creation and [xmlSecXsltInitialize]. *)
Definition fresh : xmlSecTransform := xmlSecTransformCreate xmlSecTransformXsltId.

(** A transform whose stylesheet has been read. *)
Definition configured : xmlSecTransform :=
  set_tr_xsltCtx (mkXsltCtx (Some 7)) fresh.

(** A finished transform that still has one byte of input. *)
Definition finished_with_input : xmlSecTransform :=
  set_tr_inBuf [x3c] (set_tr_status xmlSecTransformStatusFinished configured).

Definition stylesheet_node : xmlNode :=
  mkNode XML_ELEMENT_NODE "Transform" None [] (Some 0)
         [mkNode XML_ELEMENT_NODE "stylesheet" None [] (Some 0) []].

End XsltSamples.

Module EncSamples.
Import XmlEnc EncLogic.

Definition elem (name ns : string) (props : list (string * string))
    (children : list xmlNode) : xmlNode :=
  mkNode XML_ELEMENT_NODE name (Some ns) props (Some 1) children.

Definition text_node : xmlNode :=
  mkNode XML_TEXT_NODE "text" None [] (Some 1) [].

Definition aes128 : string := "http://www.w3.org/2001/04/xmlenc#aes128-cbc".

Definition EncryptionMethod_node : xmlNode :=
  elem "EncryptionMethod" xmlSecEncNs [("Algorithm", aes128)] [].
Definition KeyInfo_node : xmlNode := elem "KeyInfo" xmlSecDSigNs [] [].
Definition CipherValue_node : xmlNode := elem "CipherValue" xmlSecEncNs [] [].
Definition CipherReference_no_uri : xmlNode :=
  elem "CipherReference" xmlSecEncNs [] [].

(** EncryptedData templates. *)
Definition template (props : list (string * string)) (cipherData : list xmlNode) : xmlNode :=
  elem "EncryptedData" xmlSecEncNs props
       [text_node; EncryptionMethod_node; KeyInfo_node;
        elem "CipherData" xmlSecEncNs [] cipherData].

(** With a CipherValue, Type = Element. *)
Definition tmpl_value : xmlNode :=
  template [("Type", xmlSecTypeEncElement)] [CipherValue_node].
(** With a CipherValue and no Type attribute. *)
Definition tmpl_value_untyped : xmlNode := template [] [CipherValue_node].
Definition tmpl_reference_no_uri : xmlNode := template [] [CipherReference_no_uri].
(** Without CipherData. *)
Definition tmpl_no_cipherData : xmlNode :=
  elem "EncryptedData" xmlSecEncNs [] [EncryptionMethod_node; KeyInfo_node].

(** The element to encrypt. *)
Definition secret : xmlNode :=
  mkNode XML_ELEMENT_NODE "secret" None [] (Some 1) [text_node].

Definition key_type_eqb (a b : xmlSecKeyDataType) : bool :=
  match a, b with
  | xmlSecKeyDataTypeUnknown, xmlSecKeyDataTypeUnknown
  | xmlSecKeyDataTypePublic, xmlSecKeyDataTypePublic
  | xmlSecKeyDataTypePrivate, xmlSecKeyDataTypePrivate
  | xmlSecKeyDataTypeSymmetric, xmlSecKeyDataTypeSymmetric => true
  | _, _ => false
  end.

Definition aes_key : xmlSecKey := mkKey "k1" xmlSecKeyDataTypeSymmetric 128.
Definition rsa_key : xmlSecKey := mkKey "k2" xmlSecKeyDataTypePublic 1024.

(** An environment in which every collaborator succeeds: ciphers ask for a
    128-bit symmetric key, and running the chain gives back its input. *)
Definition env_ok : env :=
  mkEnv true true
        (fun _ _ => Some (xmlSecTransformHrefId "input-uri"))
        (fun n _ => match xmlGetProp n "Algorithm" with
                    | Some a => Some (xmlSecTransformHrefId a)
                    | None => None
                    end)
        (fun _ => true)
        (fun _ => Some (mkKeyReq xmlSecKeyDataTypeSymmetric 128))
        (fun _ _ => true)
        (fun k r => key_type_eqb (key_type k) (keyType r)
                    && Nat.eqb (key_bits k) (keyBitsSize r))
        (fun _ => true) true
        (fun _ d => Some (x2a :: d))
        (fun _ _ => Some [x2a])
        (fun _ => true)
        (fun n => list_byte_of_string (node_name n))
        (fun _ => Some "QUJD")
        (fun _ _ => true) (fun _ _ => true) (fun _ _ => true)
        (fun _ _ => true).

(** The same, but the key-info writer fails. *)
Definition env_keyInfoWrite_fails : env :=
  mkEnv true true
        (fun _ _ => Some (xmlSecTransformHrefId "input-uri"))
        (fun n _ => match xmlGetProp n "Algorithm" with
                    | Some a => Some (xmlSecTransformHrefId a)
                    | None => None
                    end)
        (fun _ => true)
        (fun _ => Some (mkKeyReq xmlSecKeyDataTypeSymmetric 128))
        (fun _ _ => true)
        (fun k r => key_type_eqb (key_type k) (keyType r)
                    && Nat.eqb (key_bits k) (keyBitsSize r))
        (fun _ => true) true
        (fun _ d => Some (x2a :: d))
        (fun _ _ => Some [x2a])
        (fun _ => true)
        (fun n => list_byte_of_string (node_name n))
        (fun _ => Some "QUJD")
        (fun _ _ => true) (fun _ _ => true) (fun _ _ => true)
        (fun _ _ => false).

(** Keys managers: one that finds the AES key, one that finds nothing, one
    that finds a key of the wrong type. *)
Definition mngr_aes : xmlSecKeysMngr := mkKeysMngr (Some (fun _ _ => Some aes_key)).
Definition mngr_empty : xmlSecKeysMngr := mkKeysMngr (Some (fun _ _ => None)).
Definition mngr_rsa : xmlSecKeysMngr := mkKeysMngr (Some (fun _ _ => Some rsa_key)).

Definition blank : state := mkState zero_ctx [] [] [].

(** The state after [xmlSecEncCtxInitialize(ctx, mngr)]. *)
Definition initialized (mngr : xmlSecKeysMngr) : state :=
  snd (xmlSecEncCtxInitialize env_ok (Some mngr) blank).

(** A context whose encryption method was supplied by the caller: the
    caller made transform 0 and stored its pointer in [ctx->encMethod]. *)
Definition with_caller_encMethod (s : state) : state :=
  mkState (set_encMethod (Some (List.length (transforms s))) (ctx s))
          (transforms s ++ [xmlSecTransformCreate (xmlSecTransformHrefId aes128)])
          (log s) (trace s).

Definition data_hello : list byte := list_byte_of_string "Hello".

(** A context in encrypt mode, as the encrypt operations make it before
    they read the template. *)
Definition encrypting (s : state) : state :=
  mkState (set_encrypt true (ctx s)) (transforms s) (log s) (trace s).

(** The contexts left by a binary encryption with a caller-supplied and with
    a context-made encryption method. *)
Definition after_encrypt_caller_method : state :=
  snd (xmlSecEncCtxBinaryEncrypt env_ok tmpl_value data_hello
         (with_caller_encMethod (initialized mngr_aes))).
Definition after_encrypt_own_method : state :=
  snd (xmlSecEncCtxBinaryEncrypt env_ok tmpl_value data_hello (initialized mngr_aes)).

End EncSamples.

(* ================================================================== *)
(** * Further vocabulary *)
(* ================================================================== *)

Module EncMoreDefs.
Import XmlEnc EncLogic.

(** The EncryptionMethod and KeyInfo children that the template reader
    records: the first element child if it is an EncryptionMethod, and the
    element after it (or the first) if it is a KeyInfo. *)
Definition expected_encMethodNode (node : xmlNode) : option xmlNode :=
  match xmlSecGetNextElementNode (node_children node) with
  | n :: _ =>
      if xmlSecCheckNodeName n xmlSecNodeEncryptionMethod xmlSecEncNs
      then Some n else None
  | [] => None
  end.

Definition expected_keyInfoNode (node : xmlNode) : option xmlNode :=
  match skip_optional xmlSecNodeEncryptionMethod xmlSecEncNs
          (xmlSecGetNextElementNode (node_children node)) with
  | n :: _ =>
      if xmlSecCheckNodeName n xmlSecNodeKeyInfo xmlSecDSigNs
      then Some n else None
  | [] => None
  end.

(** The element children left after CipherData and the optional
    EncryptionProperties (EncryptedData), and for EncryptedKey also after the
    optional ReferenceList and CarriedKeyName. *)
Definition after_cipherData (node : xmlNode) : list xmlNode :=
  skip_optional xmlSecNodeEncryptionProperties xmlSecEncNs
    (xmlSecGetNextElementNode (List.tl (cipherData_cursor node))).

Definition trailing (md : xmlEncCtxMode) (node : xmlNode) : list xmlNode :=
  match md with
  | xmlEncCtxModeEncryptedData => after_cipherData node
  | xmlEncCtxModeEncryptedKey =>
      skip_optional xmlSecNodeCarriedKeyName xmlSecEncNs
        (skip_optional xmlSecNodeReferenceList xmlSecEncNs (after_cipherData node))
  end.

Definition is_getKey (e : event) : bool :=
  match e with
  | EvGetKey _ _ => true
  | _ => false
  end.

Definition is_binaryExecute (e : event) : bool :=
  match e with
  | EvBinaryExecute _ => true
  | _ => false
  end.

Definition is_execute (e : event) : bool :=
  match e with
  | EvExecute _ => true
  | _ => false
  end.

Definition is_outputWrite (e : event) : bool :=
  match e with
  | EvOutputWrite _ => true
  | _ => false
  end.

Definition is_encrypt_op (op : operation) : bool :=
  match op with
  | BinaryEncrypt _ _ | XmlEncrypt _ _ | UriEncrypt _ _ => true
  | Decrypt _ | DecryptToBuffer _ => false
  end.

(** The state in which an operation starts to read its template: the
    direction is set and the ID attributes of the template are registered. *)
Definition entered (enc : bool) (tmpl : xmlNode) (s : state) : state :=
  mkState (set_encrypt enc (ctx s)) (transforms s) (log s)
          (trace s ++ [EvAddIDs tmpl]).

(** The events of writing a result into the template: the content of
    CipherValue, then KeyInfo. *)
Definition template_writes (c : xmlSecEncCtx) (res : xmlSecBuffer) (k : xmlSecKey)
  : list event :=
  match cipherValueNode c with
  | Some cv => [EvNodeSetContent cv res]
  | None => []
  end ++
  match keyInfoNode c with
  | Some kn => [EvKeyInfoNodeWrite kn k true]
  | None => []
  end.

(** What [xmlSecEncCtxXmlEncrypt] serializes for the Type of the template:
    the node itself (Element), its children (Content), nothing otherwise;
    and the splice it ends with. *)
Definition xml_input (ty : option string) (node : xmlNode) : option (list xmlNode) :=
  if is_Some_b ty && xmlStrEqual ty (Some xmlSecTypeEncElement) then Some [node]
  else if is_Some_b ty && xmlStrEqual ty (Some xmlSecTypeEncContent)
       then Some (node_children node)
       else None.

Definition xml_splice (ty : option string) (node tmpl : xmlNode) : event :=
  if is_Some_b ty && xmlStrEqual ty (Some xmlSecTypeEncElement)
  then EvReplaceNode node tmpl true
  else EvReplaceContent node tmpl true.

(** No write into a document and nothing pushed into the chain; a run that
    leaves documents, chain input and the [replaced] flag alone. *)
Definition no_write (e : event) : bool :=
  negb (is_dom_write e) && negb (is_outputWrite e).

Definition untouched : state -> state -> Prop :=
  fun s s' => extends no_write s s' /\ replaced (ctx s') = replaced (ctx s).

(** The Type attribute is Element or Content, as the operations test it. *)
Definition is_element_or_content (ty : option string) : bool :=
  (is_Some_b ty && xmlStrEqual ty (Some xmlSecTypeEncElement))
  || (is_Some_b ty && xmlStrEqual ty (Some xmlSecTypeEncContent)).

(** The element children of the Transforms child of a CipherReference, in
    document order: the transforms that [xmlSecEncCtxCipherReferenceNodeRead]
    reads. *)
Definition is_element (n : xmlNode) : bool :=
  match node_type n with
  | XML_ELEMENT_NODE => true
  | _ => false
  end.

Definition reference_transforms (node : xmlNode) : list xmlNode :=
  match xmlSecGetNextElementNode (node_children node) with
  | n :: _ =>
      if xmlSecCheckNodeName n xmlSecNodeTransforms xmlSecEncNs
      then List.filter is_element (node_children n)
      else []
  | [] => []
  end.

(** A preset key is kept and the keys manager is not asked. *)
Definition key_kept : state -> state -> Prop :=
  fun s s' =>
    encKey (ctx s) <> None ->
    encKey (ctx s') = encKey (ctx s) /\
    exists evs, trace s' = trace s ++ evs /\
                forallb (fun e => negb (is_getKey e)) evs = true.


(** ** The inputs of the key step

    What the operations do before they read the template, and the key that
    the read then looks at. *)




End EncMoreDefs.

(* ================================================================== *)
(** * Further concrete inputs *)
(* ================================================================== *)

Module MoreSamples.
Import XmlEnc EncLogic EncSamples.

(** [env_ok] with a key-info context that cannot be initialized. *)
Definition env_init_fails : env :=
  mkEnv false (xmlSecTransformCtxInitialize_ok env_ok) (uriSource env_ok)
        (registry env_ok) (xmlSecTransformCreate_ok env_ok) (setKeyReq env_ok)
        (setKey_ok env_ok) (xmlSecKeyMatch env_ok) (prepare_ok env_ok)
        (xmlSecTransformCreateOutputBuffer_ok env_ok) (binaryExecute env_ok)
        (execute env_ok) (xmlSecBufferGetData_set env_ok) (XmlEnc.xmlNodeDump env_ok)
        (xmlNodeGetContent env_ok) (xmlSecReplaceNode_ok env_ok)
        (xmlSecReplaceContent_ok env_ok) (xmlSecReplaceNodeBuffer_ok env_ok)
        (xmlSecKeyInfoNodeWrite_ok env_ok).

(** [env_ok] with a chain that fails on every input. *)
Definition env_chain_fails : env :=
  mkEnv (xmlSecKeyInfoCtxInitialize_ok env_ok) (xmlSecTransformCtxInitialize_ok env_ok)
        (uriSource env_ok) (registry env_ok) (xmlSecTransformCreate_ok env_ok)
        (setKeyReq env_ok) (setKey_ok env_ok) (xmlSecKeyMatch env_ok) (prepare_ok env_ok)
        (xmlSecTransformCreateOutputBuffer_ok env_ok) (fun _ _ => None)
        (execute env_ok) (xmlSecBufferGetData_set env_ok) (XmlEnc.xmlNodeDump env_ok)
        (xmlNodeGetContent env_ok) (xmlSecReplaceNode_ok env_ok)
        (xmlSecReplaceContent_ok env_ok) (xmlSecReplaceNodeBuffer_ok env_ok)
        (xmlSecKeyInfoNodeWrite_ok env_ok).

(** [env_ok] with nodes whose content cannot be got. *)
Definition env_no_content : env :=
  mkEnv (xmlSecKeyInfoCtxInitialize_ok env_ok) (xmlSecTransformCtxInitialize_ok env_ok)
        (uriSource env_ok) (registry env_ok) (xmlSecTransformCreate_ok env_ok)
        (setKeyReq env_ok) (setKey_ok env_ok) (xmlSecKeyMatch env_ok) (prepare_ok env_ok)
        (xmlSecTransformCreateOutputBuffer_ok env_ok) (binaryExecute env_ok)
        (execute env_ok) (xmlSecBufferGetData_set env_ok) (XmlEnc.xmlNodeDump env_ok)
        (fun _ => None) (xmlSecReplaceNode_ok env_ok)
        (xmlSecReplaceContent_ok env_ok) (xmlSecReplaceNodeBuffer_ok env_ok)
        (xmlSecKeyInfoNodeWrite_ok env_ok).

(** A template with an element after CipherData that does not belong
    there. *)
Definition tmpl_trailing : xmlNode :=
  elem "EncryptedData" xmlSecEncNs []
       [EncryptionMethod_node; KeyInfo_node;
        elem "CipherData" xmlSecEncNs [] [CipherValue_node];
        elem "Extra" xmlSecEncNs [] []].

(** A template without EncryptionMethod. *)
Definition tmpl_no_method : xmlNode :=
  elem "EncryptedData" xmlSecEncNs []
       [KeyInfo_node; elem "CipherData" xmlSecEncNs [] [CipherValue_node]].

(** A template of Type Content. *)
Definition tmpl_content : xmlNode :=
  template [("Type", xmlSecTypeEncContent)] [CipherValue_node].

(** An element with two element children and a text node between them. *)
Definition secret_pair : xmlNode :=
  mkNode XML_ELEMENT_NODE "secrets" None [] (Some 1)
         [elem "a" xmlSecEncNs [] []; text_node; elem "b" xmlSecEncNs [] []].

(** A CipherReference with a URI and two transforms. *)
Definition CipherReference_transforms : xmlNode :=
  elem "CipherReference" xmlSecEncNs [("URI", "http://example.org/cipher.bin")]
       [elem "Transforms" xmlSecEncNs []
             [text_node;
              elem "Transform" xmlSecDSigNs [("Algorithm", "urn:first")] [];
              elem "Transform" xmlSecDSigNs [("Algorithm", "urn:second")] []]].

(** A context into which the caller has put a key. *)
Definition with_key (k : xmlSecKey) (s : state) : state :=
  mkState (set_encKey (Some k) (ctx s)) (transforms s) (log s) (trace s).

(** An XSLT transform that has finished and holds no input. *)
Definition finished : xmlSecTransform :=
  set_tr_status xmlSecTransformStatusFinished XsltSamples.configured.

End MoreSamples.

(* ================================================================== *)
(** * Runs of the state-and-failure monad *)
(* ================================================================== *)

Module MonadFacts.

Lemma bind_inv {S A B} (m : M S A) (k : A -> M S B) s r s' :
  bind m k s = (r, s') ->
  (exists a s1, m s = (Ok a, s1) /\ k a s1 = (r, s')) \/
  (r = Fail /\ m s = (Fail, s')).
Proof.
  unfold bind. destruct (m s) as [[a|] s1]; intros H.
  - left. eauto.
  - right. inversion H; subst. auto.
Qed.

Lemma bind_Ok {S A B} (m : M S A) (k : A -> M S B) s a s1 :
  m s = (Ok a, s1) -> bind m k s = k a s1.
Proof. intros H. unfold bind. now rewrite H. Qed.

Lemma bind_Fail {S A B} (m : M S A) (k : A -> M S B) s s1 :
  m s = (Fail, s1) -> bind m k s = (Fail, s1).
Proof. intros H. unfold bind. now rewrite H. Qed.

Lemma checked_inv {S A} (m : M S A) (h : M S unit) s r s' :
  checked m h s = (r, s') ->
  (exists a, r = Ok a /\ m s = (Ok a, s')) \/
  (r = Fail /\ exists s1, m s = (Fail, s1) /\ snd (h s1) = s').
Proof.
  unfold checked, bind, fail. destruct (m s) as [[a|] s1]; intros H.
  - left. exists a. inversion H; subst. auto.
  - right. destruct (h s1) as [[u|] s2] eqn:Hh; inversion H; subst;
      split; auto; exists s1; rewrite Hh; auto.
Qed.

(** A computation whose continuation always fails, fails. *)
Lemma fails_bind_r {S A B} (m : M S A) (k : A -> M S B) s :
  (forall a s1, fst (k a s1) = Fail) -> fst (bind m k s) = Fail.
Proof. intros H. unfold bind. destruct (m s) as [[a|] s1]; cbn; auto. Qed.

Lemma fails_bind_l {S A B} (m : M S A) (k : A -> M S B) s :
  fst (m s) = Fail -> fst (bind m k s) = Fail.
Proof. unfold bind. destruct (m s) as [[a|] s1]; cbn; congruence. Qed.

Lemma fails_checked {S A} (m : M S A) (h : M S unit) s :
  fst (m s) = Fail -> fst (checked m h s) = Fail.
Proof.
  unfold checked, bind, fail. destruct (m s) as [[a|] s1]; cbn; [congruence|].
  intros _. destruct (h s1) as [[u|] s2]; reflexivity.
Qed.

End MonadFacts.

(* ================================================================== *)
(** * Properties of the XSLT transform *)
(* ================================================================== *)

Module XsltFacts.
Import Xslt XsltSamples MonadFacts.

Section WithEnv.
Variable E : env.

(** [xmlSecXslProcess] on a configured stage whose collaborators all
    succeed stores the serialized result in [outBuf] and touches nothing
    else. *)
Lemma xmlSecXslProcess_ok t lg sheet docIn docOut out :
  xmlSecParseMemory E (tr_inBuf t) = Some docIn ->
  xsltApplyStylesheet E sheet docIn = Some docOut ->
  xmlAllocOutputBuffer_ok E = true ->
  xsltSaveResultTo E docOut sheet = Some out ->
  xmlSecBufferSetData_ok E out = true ->
  xmlSecXslProcess E (Some sheet) (mkState t lg)
  = (Ok tt, mkState (set_tr_outBuf out t) lg).
Proof.
  intros Hp Ha Hb Hs Hd.
  unfold xmlSecXslProcess, bind, get, xmlSecAssert2, ret, update, modify; cbn.
  rewrite Hp, Ha, Hb; cbn. rewrite Hs, Hd; cbn. reflexivity.
Qed.

(** One [execute(last=0)] on a stage that is in status None or Working with
    an empty [outBuf] leaves it Working and changes nothing else. *)
Lemma xmlSecXsltExecute_last0 t lg sheet :
  tr_id t = xmlSecTransformXsltId ->
  xslt (tr_xsltCtx t) = Some sheet ->
  tr_outBuf t = [] ->
  tr_status t = xmlSecTransformStatusNone \/ tr_status t = xmlSecTransformStatusWorking ->
  xmlSecXsltExecute E 0 true (mkState t lg)
  = (Ok tt, mkState (set_tr_status xmlSecTransformStatusWorking t) lg).
Proof.
  intros Hid Hx Ho Hst. destruct t as [i st e ib ob [x]]; cbn in *; subst.
  destruct Hst as [-> | ->]; reflexivity.
Qed.

(** The closing [execute(last=1)] on such a stage, when the processing of
    the buffered input succeeds. *)
Lemma xmlSecXsltExecute_last1 t lg sheet docIn docOut out :
  tr_id t = xmlSecTransformXsltId ->
  xslt (tr_xsltCtx t) = Some sheet ->
  tr_outBuf t = [] ->
  tr_status t = xmlSecTransformStatusNone \/ tr_status t = xmlSecTransformStatusWorking ->
  xmlSecParseMemory E (tr_inBuf t) = Some docIn ->
  xsltApplyStylesheet E sheet docIn = Some docOut ->
  xmlAllocOutputBuffer_ok E = true ->
  xsltSaveResultTo E docOut sheet = Some out ->
  xmlSecBufferSetData_ok E out = true ->
  xmlSecXsltExecute E 1 true (mkState t lg)
  = (Ok tt, mkState (mkTransform xmlSecTransformXsltId xmlSecTransformStatusFinished
                                 (tr_encode t) [] out (tr_xsltCtx t)) lg).
Proof.
  intros Hid Hx Ho Hst Hp Ha Hb Hs Hd.
  destruct t as [i st e ib ob [x]]; cbn in *; subst.
  destruct Hst as [-> | ->];
    unfold xmlSecXsltExecute, xmlSecXslProcess, bind, get, ret, update, modify, checked;
    cbn; rewrite Hp, Ha, Hb; cbn; rewrite Hs, Hd; cbn;
    unfold xmlSecBufferRemoveHead, xmlSecBufferGetSize;
    rewrite skipn_all; reflexivity.
Qed.

Lemma run_from_working chunks : forall t lg sheet docIn docOut out,
  tr_id t = xmlSecTransformXsltId ->
  xslt (tr_xsltCtx t) = Some sheet ->
  tr_outBuf t = [] ->
  tr_status t = xmlSecTransformStatusNone \/ tr_status t = xmlSecTransformStatusWorking ->
  xmlSecParseMemory E (tr_inBuf t ++ List.concat chunks) = Some docIn ->
  xsltApplyStylesheet E sheet docIn = Some docOut ->
  xmlAllocOutputBuffer_ok E = true ->
  xsltSaveResultTo E docOut sheet = Some out ->
  xmlSecBufferSetData_ok E out = true ->
  run E chunks (mkState t lg)
  = (Ok tt, mkState (mkTransform xmlSecTransformXsltId xmlSecTransformStatusFinished
                                 (tr_encode t) [] out (tr_xsltCtx t)) lg).
Proof.
  induction chunks as [|c cs IH]; intros t lg sheet docIn docOut out Hid Hx Ho Hst Hp Ha Hb Hs Hd.
  - cbn [run]. cbn [List.concat] in Hp. rewrite app_nil_r in Hp.
    now apply (xmlSecXsltExecute_last1 t lg sheet docIn docOut out).
  - cbn [run].
    set (t1 := set_tr_inBuf (tr_inBuf t ++ c) t).
    assert (H1 : xmlSecBufferAppend c (mkState t lg) = (Ok tt, mkState t1 lg)) by reflexivity.
    rewrite (bind_Ok _ _ _ _ _ H1).
    assert (H2 : xmlSecXsltExecute E 0 true (mkState t1 lg)
                 = (Ok tt, mkState (set_tr_status xmlSecTransformStatusWorking t1) lg)).
    { apply (xmlSecXsltExecute_last0 t1 lg sheet); subst t1; cbn; auto. }
    rewrite (bind_Ok _ _ _ _ _ H2).
    rewrite (IH _ lg sheet docIn docOut out); subst t1; cbn; auto.
    cbn [List.concat] in Hp. now rewrite <- app_assoc.
Qed.

(** C6 (amended): on a just-created XSLT stage whose stylesheet has been read
    by [readNode], any number of [execute(last=0)] calls (one per buffered
    chunk) followed by one [execute(last=1)] succeeds whenever the XSLT
    processing of the buffered input succeeds (the input parses, the
    stylesheet applies, the result serializes and is stored); the stage then
    is in status Finished, its [inBuf] is empty and its [outBuf] holds the
    serialized result of applying the stylesheet to the whole input. *)
Theorem C6_run_ends_finished (t : xmlSecTransform) (lg : xmlSecLog)
    (chunks : list (list byte)) sheet docIn docOut out :
  tr_id t = xmlSecTransformXsltId ->
  tr_status t = xmlSecTransformStatusNone ->
  tr_inBuf t = [] ->
  tr_outBuf t = [] ->
  xslt (tr_xsltCtx t) = Some sheet ->
  xmlSecParseMemory E (List.concat chunks) = Some docIn ->
  xsltApplyStylesheet E sheet docIn = Some docOut ->
  xmlAllocOutputBuffer_ok E = true ->
  xsltSaveResultTo E docOut sheet = Some out ->
  xmlSecBufferSetData_ok E out = true ->
  exists t',
    run E chunks (mkState t lg) = (Ok tt, mkState t' lg) /\
    tr_status t' = xmlSecTransformStatusFinished /\
    tr_inBuf t' = [] /\
    tr_outBuf t' = out.
Proof.
  intros Hid Hst Hi Ho Hx Hp Ha Hb Hs Hd.
  eexists. split.
  - apply (run_from_working chunks t lg sheet docIn docOut out); auto.
    now rewrite Hi.
  - cbn. auto.
Qed.

(** C7 (amended): [execute] on a stage whose status is Finished while its
    [inBuf] is not empty fails on the assertion [inSize == 0]: the stage is
    left as it was and the log gains that assertion entry only, no
    [xmlSecError] report (so no INVALID_STATUS report either). *)
Theorem C7_finished_with_input_fails_assertion (t : xmlSecTransform)
    (lg : xmlSecLog) (last : Z) sheet :
  tr_id t = xmlSecTransformXsltId ->
  xslt (tr_xsltCtx t) = Some sheet ->
  tr_status t = xmlSecTransformStatusFinished ->
  tr_inBuf t <> [] ->
  xmlSecXsltExecute E last true (mkState t lg)
  = (Fail, mkState t (lg ++ [AssertFailed "inSize == 0"])) /\
  (reported XMLSEC_ERRORS_R_INVALID_STATUS (lg ++ [AssertFailed "inSize == 0"]) ->
   reported XMLSEC_ERRORS_R_INVALID_STATUS lg).
Proof.
  intros Hid Hx Hst Hin. split.
  - destruct t as [i st e ib ob [x]]; cbn in *; subst.
    destruct ib as [|b ib]; [congruence|].
    unfold xmlSecXsltExecute, bind, get, ret, update, modify, checked; cbn.
    destruct (last =? 0)%Z; reflexivity.
  - unfold reported, reportedb. rewrite existsb_app. cbn.
    now rewrite orb_false_r.
Qed.

(** The INVALID_STATUS report of [execute] belongs to the remaining case: a
    stage whose status is none of None, Working and Finished. *)
Lemma xmlSecXsltExecute_status_fail (t : xmlSecTransform) (lg : xmlSecLog)
    (last : Z) sheet :
  tr_id t = xmlSecTransformXsltId ->
  xslt (tr_xsltCtx t) = Some sheet ->
  tr_status t = xmlSecTransformStatusFail ->
  exists lg',
    xmlSecXsltExecute E last true (mkState t lg) = (Fail, mkState t lg') /\
    reported XMLSEC_ERRORS_R_INVALID_STATUS lg'.
Proof.
  intros Hid Hx Hst. destruct t as [i st e ib ob [x]]; cbn in *; subst.
  eexists. split.
  - unfold xmlSecXsltExecute, bind, get, ret, update, modify, checked; cbn. reflexivity.
  - unfold reported, reportedb. rewrite existsb_app. cbn. now rewrite orb_true_r.
Qed.

(** C8 (amended): in [readNode] of the XSLT stage, when the serialization
    buffer was created: if parsing the serialized stylesheet bytes fails,
    [readNode] fails and its report carries XMLSEC_FAILED (subject
    [xmlSecParseMemory]); if the parsed document does not compile into a
    stylesheet, [readNode] fails and its report carries XSLT_FAILED. *)
Theorem C8_readNode_error_kinds (t : xmlSecTransform) (lg : xmlSecLog) (node : xmlNode) :
  tr_id t = xmlSecTransformXsltId ->
  xslt (tr_xsltCtx t) = None ->
  xmlBufferCreate_ok E = true ->
  let buffer := List.concat (List.map (xmlNodeDump E) (node_children node)) in
  (xmlSecParseMemory E buffer = None ->
   exists e,
     xmlSecXsltReadNode E node (mkState t lg) = (Fail, mkState t (lg ++ [Report e])) /\
     errorReason e = XMLSEC_ERRORS_R_XMLSEC_FAILED /\
     errorSubject e = Some "xmlSecParseMemory") /\
  (forall doc, xmlSecParseMemory E buffer = Some doc ->
   xsltParseStylesheetDoc E doc = None ->
   exists e,
     xmlSecXsltReadNode E node (mkState t lg) = (Fail, mkState t (lg ++ [Report e])) /\
     errorReason e = XMLSEC_ERRORS_R_XSLT_FAILED /\
     errorSubject e = Some "xsltParseStylesheetDoc").
Proof.
  intros Hid Hx Hb buffer. destruct t as [i st e ib ob [x]]; cbn in *; subst.
  split.
  - intros Hp. eexists. split; [|split].
    + unfold xmlSecXsltReadNode, bind, get, ret, update, modify; cbn.
      rewrite Hb; cbn. fold buffer. rewrite Hp. cbn. reflexivity.
    + reflexivity.
    + reflexivity.
  - intros doc Hp Hc. eexists. split; [|split].
    + unfold xmlSecXsltReadNode, bind, get, ret, update, modify; cbn.
      rewrite Hb; cbn. fold buffer. rewrite Hp. cbn. rewrite Hc. cbn. reflexivity.
    + reflexivity.
    + reflexivity.
Qed.

End WithEnv.

(** C6, as stated, fails: a stage that was only initialized has no
    stylesheet, and its closing [execute(last=1)] fails on the assertion
    [ctx->xslt != NULL]; and a configured stage whose buffered input does not
    parse fails as well and stays Working with its input still buffered. *)
Lemma C6_counterexample :
  xmlSecXsltInitialize (mkState fresh []) = (Ok tt, mkState fresh []) /\
  run env_ok [] (mkState fresh [])
  = (Fail, mkState fresh [AssertFailed "ctx->xslt != NULL"]) /\
  (let r := run env_parse_fails [[x3c]] (mkState configured []) in
   fst r = Fail /\
   tr_status (transform (snd r)) = xmlSecTransformStatusWorking /\
   tr_inBuf (transform (snd r)) = [x3c]).
Proof. repeat split; reflexivity. Qed.

Lemma C6_witness :
  exists t',
    run env_ok [[x3c]; [x61; x2f; x3e]] (mkState configured [])
    = (Ok tt, mkState t' []) /\
    tr_status t' = xmlSecTransformStatusFinished /\
    tr_inBuf t' = [] /\
    tr_outBuf t' = [x2a; x2a; x2a; x2a].
Proof.
  apply (C6_run_ends_finished env_ok configured [] [[x3c]; [x61; x2f; x3e]] 7 4 4);
    reflexivity.
Defined.

(** C7, as stated, fails: the failure is the assertion, and the log holds
    no INVALID_STATUS report. *)
Lemma C7_counterexample :
  xmlSecXsltExecute env_ok 1 true (mkState finished_with_input [])
  = (Fail, mkState finished_with_input [AssertFailed "inSize == 0"]) /\
  ~ reported XMLSEC_ERRORS_R_INVALID_STATUS [AssertFailed "inSize == 0"].
Proof. split; [reflexivity | unfold reported; cbn; discriminate]. Qed.

Lemma C7_witness :
  xmlSecXsltExecute env_ok 1 true (mkState finished_with_input [])
  = (Fail, mkState finished_with_input ([] ++ [AssertFailed "inSize == 0"])) /\
  (reported XMLSEC_ERRORS_R_INVALID_STATUS ([] ++ [AssertFailed "inSize == 0"]) ->
   reported XMLSEC_ERRORS_R_INVALID_STATUS []).
Proof.
  apply (C7_finished_with_input_fails_assertion env_ok finished_with_input [] 1 7);
    [reflexivity | reflexivity | reflexivity | discriminate].
Defined.

(** C8, as stated, fails in its first half: a parse failure of the
    serialized stylesheet is reported as XMLSEC_FAILED, and no XML_FAILED
    report is made. *)
Lemma C8_counterexample :
  let r := xmlSecXsltReadNode env_parse_fails stylesheet_node (mkState fresh []) in
  fst r = Fail /\
  log (snd r) = [Report (mkError (Some "xslt") (Some "xmlSecParseMemory")
                                 XMLSEC_ERRORS_R_XMLSEC_FAILED
                                 XMLSEC_ERRORS_NO_MESSAGE [])] /\
  ~ reported XMLSEC_ERRORS_R_XML_FAILED (log (snd r)).
Proof. repeat split; try reflexivity. unfold reported; cbn; discriminate. Qed.

Lemma C8_witness :
  let buffer := List.concat (List.map (xmlNodeDump env_parse_fails)
                                      (node_children stylesheet_node)) in
  (xmlSecParseMemory env_parse_fails buffer = None ->
   exists e,
     xmlSecXsltReadNode env_parse_fails stylesheet_node (mkState fresh [])
     = (Fail, mkState fresh ([] ++ [Report e])) /\
     errorReason e = XMLSEC_ERRORS_R_XMLSEC_FAILED /\
     errorSubject e = Some "xmlSecParseMemory") /\
  (forall doc, xmlSecParseMemory env_parse_fails buffer = Some doc ->
   xsltParseStylesheetDoc env_parse_fails doc = None ->
   exists e,
     xmlSecXsltReadNode env_parse_fails stylesheet_node (mkState fresh [])
     = (Fail, mkState fresh ([] ++ [Report e])) /\
     errorReason e = XMLSEC_ERRORS_R_XSLT_FAILED /\
     errorSubject e = Some "xsltParseStylesheetDoc").
Proof.
  apply (C8_readNode_error_kinds env_parse_fails fresh [] stylesheet_node);
    reflexivity.
Defined.

End XsltFacts.

(* ================================================================== *)
(** * Properties of the encryption context *)
(* ================================================================== *)

Module EncFacts.
Import XmlEnc EncLogic MonadFacts.

(** ** Relations between the state before and after *)

Section Preserves.
Variable R : state -> state -> Prop.
Hypothesis R_refl : forall s, R s s.
Hypothesis R_trans : forall a b c, R a b -> R b c -> R a c.

Lemma preserves_ret {A} (a : A) : preserves R (ret a).
Proof. intros s. apply R_refl. Qed.

Lemma preserves_fail {A} : preserves R (@fail state A).
Proof. intros s. apply R_refl. Qed.

Lemma preserves_get : preserves R get.
Proof. intros s. apply R_refl. Qed.

Lemma preserves_modify f : (forall s, R s (f s)) -> preserves R (modify f).
Proof. intros H s. apply H. Qed.

Lemma preserves_bind {A B} (m : M state A) (k : A -> M state B) :
  preserves R m -> (forall a, preserves R (k a)) -> preserves R (bind m k).
Proof.
  intros Hm Hk s. unfold bind. specialize (Hm s).
  destruct (m s) as [[a|] s1]; cbn in *; auto.
  eapply R_trans; [exact Hm | apply Hk].
Qed.

Lemma preserves_checked {A} (m : M state A) (h : M state unit) :
  preserves R m -> preserves R h -> preserves R (checked m h).
Proof.
  intros Hm Hh s. unfold checked. specialize (Hm s).
  destruct (m s) as [[a|] s1]; cbn in *; auto.
  eapply R_trans; [exact Hm|].
  apply (preserves_bind h (fun _ => fail) Hh (fun _ => preserves_fail)).
Qed.

End Preserves.

Lemma same_refl {A} (f : xmlSecEncCtx -> A) s : same f s s.
Proof. reflexivity. Qed.
Lemma same_trans {A} (f : xmlSecEncCtx -> A) a b c :
  same f a b -> same f b c -> same f a c.
Proof. unfold same. congruence. Qed.

Lemma extends_refl allowed s : extends allowed s s.
Proof. exists []. split; [now rewrite app_nil_r | reflexivity]. Qed.
Lemma extends_trans allowed a b c :
  extends allowed a b -> extends allowed b c -> extends allowed a c.
Proof.
  intros [e1 [H1 F1]] [e2 [H2 F2]]. exists (e1 ++ e2). split.
  - rewrite H2, H1. now rewrite app_assoc.
  - rewrite forallb_app, F1, F2. reflexivity.
Qed.

Lemma log_grows_refl s : log_grows s s.
Proof. exists []. now rewrite app_nil_r. Qed.
Lemma log_grows_trans a b c : log_grows a b -> log_grows b c -> log_grows a c.
Proof.
  intros [l1 H1] [l2 H2]. exists (l1 ++ l2). rewrite H2, H1. now rewrite app_assoc.
Qed.

Lemma new_events_app s s' evs : trace s' = trace s ++ evs -> new_events s s' = evs.
Proof.
  intros H. unfold new_events. rewrite H.
  rewrite skipn_app, skipn_all, Nat.sub_diag. reflexivity.
Qed.

Lemma new_log_app s s' lg : log s' = log s ++ lg -> new_log s s' = lg.
Proof.
  intros H. unfold new_log. rewrite H.
  rewrite skipn_app, skipn_all, Nat.sub_diag. reflexivity.
Qed.

(** The two loops. *)
Lemma preserves_nodesListRead (R : state -> state -> Prop) E :
  (forall s, R s s) -> (forall a b c, R a b -> R b c -> R a c) ->
  (forall n u, preserves R (xmlSecTransformCtxNodeRead E n u)) ->
  forall cur u, preserves R (nodesListRead_from E cur u).
Proof.
  intros Hr Ht Hn cur u. induction cur as [|n rest IH]; cbn [nodesListRead_from].
  - apply (preserves_ret _ Hr).
  - destruct (node_type n); auto.
    apply (preserves_bind _ Ht); auto.
Qed.

Lemma preserves_dump_children (R : state -> state -> Prop) E :
  (forall s, R s s) -> (forall a b c, R a b -> R b c -> R a c) ->
  (forall out n, preserves R (xmlNodeDumpOutput E out n)) ->
  forall cur out, preserves R (dump_children E out cur).
Proof.
  intros Hr Ht Hn cur. induction cur as [|n rest IH]; intros out; cbn [dump_children].
  - apply (preserves_ret _ Hr).
  - apply (preserves_bind _ Ht); auto.
Qed.

(** The primitives of the embedding, to be unfolded by [pres]. *)
Ltac unfold_prims :=
  unfold xmlSecError, xmlSecAssert2, get_ctx, upd_tctx, upd_ctx, emit, alloc,
    upd_transform, free_attr, take_result,
    xmlSecAddIDs, xmlNodeSetContentLen, xmlSecKeyInfoNodeWrite,
    xmlSecReplaceNode, xmlSecReplaceContent, xmlSecReplaceNodeBuffer,
    xmlSecTransformCtxAppend, xmlSecTransformCtxPrepend,
    xmlSecTransformCtxCreateAndAppend, xmlSecTransformCtxCreateAndPrepend,
    xmlSecTransformCtxNodeRead, xmlSecTransformCtxSetUri,
    xmlSecTransformSetKeyReq, xmlSecTransformSetKey,
    xmlSecTransformCtxPrepare, xmlSecTransformCtxBinaryExecute,
    xmlSecTransformCtxExecute, xmlSecTransformCreateOutputBuffer,
    xmlNodeDumpOutput, xmlOutputBufferClose,
    xmlSecKeyInfoCtxInitialize, xmlSecTransformCtxInitialize in *.

(** Walk down a computation, leaving one goal [R s (f s)] for each
    primitive update [modify f]; [leaf] closes those. *)
Ltac pres_with Hrefl Htrans leaf :=
  repeat first
    [ apply (preserves_ret _ Hrefl)
    | apply (preserves_fail _ Hrefl)
    | apply (preserves_get _ Hrefl)
    | match goal with H : _ |- preserves _ _ => apply H end
    | apply (preserves_bind _ Htrans); [ | intros ? ]
    | apply (preserves_checked _ Hrefl Htrans)
    | apply preserves_modify; intros ?; solve [leaf]
    | unfold xmlSecTransformCtxNodesListRead;
      apply (preserves_nodesListRead _ _ Hrefl Htrans); intros ? ?
    | apply (preserves_dump_children _ _ Hrefl Htrans); intros ? ?
    | match goal with
      | |- preserves _ (match ?x with _ => _ end) => destruct x
      | |- preserves _ (let _ := _ in _) => cbv zeta
      end
    | progress unfold_prims ].

Ltac leaf_same := unfold same; cbn; reflexivity.
Ltac leaf_extends :=
  first [ exists []; split; [cbn; now rewrite app_nil_r | reflexivity]
        | eexists [_]; split; [cbn; reflexivity | cbn; reflexivity] ].
Ltac leaf_log :=
  first [ exists []; cbn; now rewrite app_nil_r
        | eexists [_]; cbn; reflexivity ].


Ltac unfold_funs :=
  unfold xmlSecEncCtxBinaryEncrypt, xmlSecEncCtxXmlEncrypt, xmlSecEncCtxUriEncrypt,
    xmlSecEncCtxDecrypt, xmlSecEncCtxDecryptToBuffer,
    xmlSecEncCtxCipherDataNodeWrite,
    xmlSecEncCtxEncDataNodeRead, EncDataNodeRead_attributes,
    EncDataNodeRead_children, EncDataNodeRead_encMethod, EncDataNodeRead_key,
    EncDataNodeRead_base64, xmlSecEncCtxCipherDataNodeRead,
    xmlSecEncCtxCipherReferenceNodeRead.

Ltac pres_same f := unfold_funs; pres_with (same_refl f) (same_trans f) leaf_same.
Ltac pres_extends p := unfold_funs; pres_with (extends_refl p) (extends_trans p) leaf_extends.
Ltac pres_log := unfold_funs; pres_with log_grows_refl log_grows_trans leaf_log.

Section WithEnv.
Variable E : env.

(** *** What decryption to a buffer leaves alone *)

Lemma DecryptToBuffer_replaced node :
  preserves (same replaced) (xmlSecEncCtxDecryptToBuffer E node).
Proof. pres_same replaced. Qed.

Lemma DecryptToBuffer_events node :
  preserves (extends (fun e => negb (is_dom_write e))) (xmlSecEncCtxDecryptToBuffer E node).
Proof. pres_extends (fun e => negb (is_dom_write e)). Qed.

(** *** Context finalization *)

(** [xmlSecEncCtxFinalize] calls [xmlSecTransformDestroy] on a transform
    exactly when [dontDestroyEncMethod] is set and that transform is the
    encryption method of the context. *)
Lemma Finalize_destroys_iff (s : state) (p : xmlSecTransformPtr) :
  In (EvTransformDestroy p) (new_events s (snd (xmlSecEncCtxFinalize s))) <->
  dontDestroyEncMethod (ctx s) = true /\ encMethod (ctx s) = Some p.
Proof.
  unfold xmlSecEncCtxFinalize.
  rewrite (bind_Ok get_ctx _ s (ctx s) s eq_refl).
  do 3 (erewrite (bind_Ok (emit _)) by reflexivity).
  match goal with
  | |- context [bind ?m ?k ?s3] =>
      assert (Hrest : preserves (extends not_destroy) (k tt))
  end.
  { pres_with (extends_refl not_destroy) (extends_trans not_destroy) leaf_extends. }
  destruct (dontDestroyEncMethod (ctx s)) eqn:Hd, (encMethod (ctx s)) as [q|] eqn:Hm;
    cbn [andb is_Some_b];
    (erewrite bind_Ok by reflexivity);
    match goal with
    | |- context [snd (?k ?s4)] =>
        pose proof (Hrest s4) as Hx;
        remember (snd (k s4)) as s' eqn:Hs'; clear Hs';
        destruct Hx as [evs [Ht Hf]]; cbn [trace] in Ht;
        rewrite <- ?app_assoc in Ht;
        rewrite (new_events_app s _ _ Ht)
    end;
    rewrite forallb_forall in Hf;
    cbn [app In]; rewrite ?in_app_iff; cbn [In];
    (split;
     [ intros H;
       repeat match goal with
              | H : _ \/ _ |- _ => destruct H as [H|H]
              end; try discriminate; try contradiction;
       try (apply Hf in H; discriminate);
       try (inversion H; subst; auto)
     | intros [H1 H2]; try discriminate; inversion H2; subst; auto 10 ]).
Qed.

(** *** A template without CipherData *)

Lemma children_lacks_fails node s :
  lacks_CipherData node = true ->
  fst (EncDataNodeRead_children E node s) = Fail.
Proof.
  unfold lacks_CipherData, cipherData_cursor, skip_optional. intros H.
  destruct s as [c ts lg tr].
  unfold EncDataNodeRead_children, xmlSecAssert2, xmlSecError, get_ctx, upd_ctx,
    bind, get, modify, ret, fail; cbn.
  destruct (is_None_b (encMethodNode c)); [|reflexivity].
  destruct (xmlSecGetNextElementNode (node_children node)) as [|n rest]; cbn in *.
  - destruct (is_None_b (keyInfoNode c)); reflexivity.
  - destruct (xmlSecCheckNodeName n xmlSecNodeEncryptionMethod xmlSecEncNs); cbn.
    + destruct (is_None_b (keyInfoNode c)); [|reflexivity]; cbn.
      destruct (xmlSecGetNextElementNode rest) as [|n2 rest2]; cbn in *; [reflexivity|].
      destruct (xmlSecCheckNodeName n2 xmlSecNodeKeyInfo xmlSecDSigNs); cbn.
      * destruct (xmlSecGetNextElementNode rest2) as [|n3 rest3]; cbn in *; [reflexivity|].
        apply negb_true_iff in H. rewrite H. reflexivity.
      * apply negb_true_iff in H. rewrite H. reflexivity.
    + destruct (is_None_b (keyInfoNode c)); [|reflexivity]; cbn.
      destruct (xmlSecCheckNodeName n xmlSecNodeKeyInfo xmlSecDSigNs); cbn.
      * destruct (xmlSecGetNextElementNode rest) as [|n3 rest3]; cbn in *; [reflexivity|].
        apply negb_true_iff in H. rewrite H. reflexivity.
      * apply negb_true_iff in H. rewrite H. reflexivity.
Qed.

Lemma EncDataNodeRead_lacks_fails node s :
  lacks_CipherData node = true ->
  fst (xmlSecEncCtxEncDataNodeRead E node s) = Fail.
Proof.
  intros H. unfold xmlSecEncCtxEncDataNodeRead.
  apply fails_bind_r. intros _ s1. apply fails_bind_l.
  now apply children_lacks_fails.
Qed.

(** Every top-level operation reads its template with
    [xmlSecEncCtxEncDataNodeRead] before anything else can succeed. *)
Lemma run_op_lacks_fails op s :
  lacks_CipherData (template_of op) = true ->
  fst (run_op E op s) = Fail.
Proof.
  intros H.
  assert (Hc : forall h s1,
    fst (checked (xmlSecEncCtxEncDataNodeRead E (template_of op)) h s1) = Fail).
  { intros h s1. apply fails_checked. now apply EncDataNodeRead_lacks_fails. }
  destruct op; cbn [run_op template_of] in *.
  - unfold xmlSecEncCtxBinaryEncrypt.
    do 4 (apply fails_bind_r; intros ? ?). apply fails_bind_l. apply Hc.
  - unfold xmlSecEncCtxXmlEncrypt.
    do 5 (apply fails_bind_r; intros ? ?). apply fails_bind_l. apply Hc.
  - unfold xmlSecEncCtxUriEncrypt.
    do 5 (apply fails_bind_r; intros ? ?). apply fails_bind_l. apply Hc.
  - unfold xmlSecEncCtxDecrypt. apply fails_bind_l. apply fails_checked.
    unfold xmlSecEncCtxDecryptToBuffer.
    do 4 (apply fails_bind_r; intros ? ?). apply fails_bind_l. apply Hc.
  - apply fails_bind_l. unfold xmlSecEncCtxDecryptToBuffer.
    do 4 (apply fails_bind_r; intros ? ?). apply fails_bind_l. apply Hc.
Qed.

Lemma attributes_unread node s :
  unread (ctx s) ->
  exists s1,
    EncDataNodeRead_attributes node s = (Ok tt, s1) /\
    log s1 = log s /\ trace s1 = trace s /\
    encMethodNode (ctx s1) = None /\ keyInfoNode (ctx s1) = None /\
    type_ (ctx s1) = xmlGetProp node xmlSecAttrType.
Proof.
  intros (H1 & H2 & H3 & H4 & H5 & H6 & H7 & H8 & H9).
  destruct s as [c ts lg tr].
  destruct c as [md en i ty mt enc rc ckn emn kin cvn em dd ek kr kw tc er rp rb].
  cbn in *. subst.
  unfold EncDataNodeRead_attributes, xmlSecAssert2, get_ctx, upd_ctx,
    bind, get, modify, ret; cbn.
  destruct (mode_eqb md xmlEncCtxModeEncryptedKey); cbn; eexists; repeat split.
Qed.

Lemma children_lacks_report node s :
  lacks_CipherData node = true ->
  encMethodNode (ctx s) = None -> keyInfoNode (ctx s) = None ->
  exists s' subject,
    EncDataNodeRead_children E node s = (Fail, s') /\
    log s' = log s ++ [Report (mkError None subject XMLSEC_ERRORS_R_INVALID_NODE
                                       "node=%s" [ArgStr "CipherData"])].
Proof.
  unfold lacks_CipherData, cipherData_cursor, skip_optional. intros H He Hk.
  destruct s as [c ts lg tr]. cbn in He, Hk.
  unfold EncDataNodeRead_children, xmlSecAssert2, xmlSecError, get_ctx, upd_ctx,
    bind, get, modify, ret, fail; cbn.
  rewrite He, Hk; cbn.
  destruct (xmlSecGetNextElementNode (node_children node)) as [|n rest]; cbn in *.
  - eexists _, _. split; reflexivity.
  - destruct (xmlSecCheckNodeName n xmlSecNodeEncryptionMethod xmlSecEncNs); cbn.
    + destruct (xmlSecGetNextElementNode rest) as [|n2 rest2]; cbn in *.
      { eexists _, _. split; reflexivity. }
      destruct (xmlSecCheckNodeName n2 xmlSecNodeKeyInfo xmlSecDSigNs); cbn.
      * destruct (xmlSecGetNextElementNode rest2) as [|n3 rest3]; cbn in *.
        { eexists _, _. split; reflexivity. }
        apply negb_true_iff in H. rewrite H. eexists _, _. split; reflexivity.
      * apply negb_true_iff in H. rewrite H. eexists _, _. split; reflexivity.
    + destruct (xmlSecCheckNodeName n xmlSecNodeKeyInfo xmlSecDSigNs); cbn.
      * destruct (xmlSecGetNextElementNode rest) as [|n3 rest3]; cbn in *.
        { eexists _, _. split; reflexivity. }
        apply negb_true_iff in H. rewrite H. eexists _, _. split; reflexivity.
      * apply negb_true_iff in H. rewrite H. eexists _, _. split; reflexivity.
Qed.

(** C9: when the element children of an EncryptedData / EncryptedKey
    template lack the CipherData element at its place (after the optional
    EncryptionMethod and KeyInfo), [encDataNodeRead] on a context that has
    read no template yet fails with an INVALID_NODE report whose message
    names CipherData, and every top-level operation on that template fails
    (from any state of the context). *)
Theorem C9_missing_CipherData (node : xmlNode) (s : state) :
  lacks_CipherData node = true ->
  (unread (ctx s) ->
   exists s' subject,
     xmlSecEncCtxEncDataNodeRead E node s = (Fail, s') /\
     log s' = log s ++ [Report (mkError None subject XMLSEC_ERRORS_R_INVALID_NODE
                                        "node=%s" [ArgStr xmlSecNodeCipherData])]) /\
  (forall op s0, template_of op = node -> fst (run_op E op s0) = Fail).
Proof.
  intros H. split.
  - intros Hu.
    destruct (attributes_unread node s Hu) as (s1 & Ha & Hl & _ & He & Hk & _).
    destruct (children_lacks_report node s1 H He Hk) as (s' & subj & Hc & Hlog).
    exists s', subj. split.
    + unfold xmlSecEncCtxEncDataNodeRead.
      rewrite (bind_Ok _ _ _ _ _ Ha). now rewrite (bind_Fail _ _ _ _ Hc).
    + now rewrite Hlog, Hl.
  - intros op s0 <-. now apply run_op_lacks_fails.
Qed.

(** *** Runs that succeed, taken apart *)

Lemma assert_Ok_inv (p : bool) (expr : string) (s s' : state) (u : unit) :
  xmlSecAssert2 p expr s = (Ok u, s') -> p = true /\ s' = s.
Proof.
  unfold xmlSecAssert2. destruct p; cbn; intros H; inversion H; auto.
Qed.

Lemma modify_inv (f : state -> state) (s s' : state) (r : res unit) :
  modify f s = (r, s') -> r = Ok tt /\ s' = f s.
Proof. unfold modify. intros H; inversion H; auto. Qed.

Lemma get_ctx_inv (s s' : state) (r : res xmlSecEncCtx) :
  get_ctx s = (r, s') -> r = Ok (ctx s) /\ s' = s.
Proof. unfold get_ctx, bind, get, ret. intros H; inversion H; auto. Qed.

Lemma get_inv (s s' : state) (r : res state) :
  get s = (r, s') -> r = Ok s /\ s' = s.
Proof. unfold get. intros H; inversion H; auto. Qed.

Lemma ret_inv {A} (a : A) (s s' : state) (r : res A) :
  ret a s = (r, s') -> r = Ok a /\ s' = s.
Proof. unfold ret. intros H; inversion H; auto. Qed.

Lemma checked_Ok_inv {A} (m : M state A) (h : M state unit) s a s' :
  checked m h s = (Ok a, s') -> m s = (Ok a, s').
Proof.
  intros H. apply checked_inv in H.
  destruct H as [(a' & Ha & Hm) | (Hf & _)]; [|discriminate].
  inversion Ha; subst. exact Hm.
Qed.

Lemma checked_Ok {A} (m : M state A) (h : M state unit) s a s' :
  m s = (Ok a, s') -> checked m h s = (Ok a, s').
Proof. intros H. unfold checked. now rewrite H. Qed.

(** One step of a successful run [bind m k s = (Ok _, _)]. *)
Ltac step_ok H :=
  let a := fresh "a" in
  let s := fresh "s" in
  let Hm := fresh "Hm" in
  let Hf := fresh "Hf" in
  apply bind_inv in H;
  destruct H as [(a & s & Hm & H) | (Hf & _)]; [ | discriminate Hf ];
  first
    [ apply get_ctx_inv in Hm; destruct Hm as [Hm ->]; inversion Hm; subst a; clear Hm
    | apply get_inv in Hm; destruct Hm as [Hm ->]; inversion Hm; subst a; clear Hm
    | apply assert_Ok_inv in Hm; destruct Hm as [Hm ->]
    | apply modify_inv in Hm; destruct Hm as [_ ->]
    | apply checked_Ok_inv in Hm
    | idtac ];
  try match type of a with unit => destruct a end.

Lemma attributes_Ok_type node s s1 :
  EncDataNodeRead_attributes node s = (Ok tt, s1) ->
  type_ (ctx s1) = xmlGetProp node xmlSecAttrType /\
  trace s1 = trace s /\ log s1 = log s /\ transforms s1 = transforms s /\
  encrypt (ctx s1) = encrypt (ctx s) /\
  cipherValueNode (ctx s1) = cipherValueNode (ctx s) /\
  encMethod (ctx s1) = encMethod (ctx s) /\
  encTransformCtx (ctx s1) = encTransformCtx (ctx s) /\
  resultBase64Encoded (ctx s1) = resultBase64Encoded (ctx s).
Proof.
  unfold EncDataNodeRead_attributes. intros H.
  do 7 step_ok H. unfold upd_ctx in H. do 4 step_ok H.
  destruct (mode_eqb (mode (ctx s)) xmlEncCtxModeEncryptedKey).
  - apply modify_inv in H. destruct H as [_ ->]. cbn. repeat split.
  - apply ret_inv in H. destruct H as [_ ->]. cbn. repeat split.
Qed.

Lemma EncDataNodeRead_Ok_type node s s' :
  xmlSecEncCtxEncDataNodeRead E node s = (Ok tt, s') ->
  type_ (ctx s') = xmlGetProp node xmlSecAttrType.
Proof.
  unfold xmlSecEncCtxEncDataNodeRead. intros H. step_ok H.
  apply attributes_Ok_type in Hm. destruct Hm as (Ht & _).
  match type of H with
  | ?k ?s0 = _ => assert (Hp : preserves (same type_) k) by (pres_same type_);
                  specialize (Hp s0); rewrite H in Hp
  end.
  unfold same in Hp. cbn in Hp. congruence.
Qed.

Lemma take_result_Ok_inv s buf s' :
  take_result s = (Ok buf, s') ->
  encResult (ctx s') = Some buf /\
  type_ (ctx s') = type_ (ctx s) /\ replaced (ctx s') = replaced (ctx s) /\
  trace s' = trace s.
Proof.
  unfold take_result, upd_ctx. intros H. do 3 step_ok H.
  cbn in H, Hm.
  destruct (result (encTransformCtx (ctx s))) as [b|] eqn:Hr; [|discriminate].
  apply ret_inv in H. destruct H as [H ->]. inversion H; subst.
  cbn. auto.
Qed.

Lemma DecryptToBuffer_Ok node s buf s' :
  xmlSecEncCtxDecryptToBuffer E node s = (Ok buf, s') ->
  type_ (ctx s') = xmlGetProp node xmlSecAttrType /\
  encResult (ctx s') = Some buf.
Proof.
  unfold xmlSecEncCtxDecryptToBuffer. intros H.
  do 2 step_ok H. unfold upd_ctx, xmlSecAddIDs, emit in H. do 2 step_ok H.
  step_ok H. apply EncDataNodeRead_Ok_type in Hm0.
  step_ok H. step_ok H.
  apply take_result_Ok_inv in H. destruct H as (Hr & Ht & _).
  split; [|exact Hr]. rewrite Ht, <- Hm0.
  match type of Hm1 with
  | ?m ?s0 = _ => assert (Hp : preserves (same type_) m) by (pres_same type_);
                  specialize (Hp s0); rewrite Hm1 in Hp
  end.
  exact Hp.
Qed.

(** C10: when the Type attribute of the node is absent, or is neither the
    Element nor the Content type URI, and the DecryptToBuffer step
    succeeds, Decrypt returns success in the state DecryptToBuffer left:
    no attempt to write into a document was made, the [replaced] flag is as
    it was before the call, and the plaintext is in [encResult]. *)
Theorem C10_decrypt_other_type_leaves_document (node : xmlNode) (s s1 : state)
    (buffer : xmlSecBuffer) :
  xmlSecEncCtxDecryptToBuffer E node s = (Ok buffer, s1) ->
  (xmlGetProp node xmlSecAttrType = None \/
   exists t, xmlGetProp node xmlSecAttrType = Some t /\
             t <> xmlSecTypeEncElement /\ t <> xmlSecTypeEncContent) ->
  xmlSecEncCtxDecrypt E node s = (Ok tt, s1) /\
  replaced (ctx s1) = replaced (ctx s) /\
  forallb (fun e => negb (is_dom_write e)) (new_events s s1) = true /\
  encResult (ctx s1) = Some buffer.
Proof.
  intros H Hty.
  destruct (DecryptToBuffer_Ok node s buffer s1 H) as [Ht Hr].
  repeat split.
  - unfold xmlSecEncCtxDecrypt.
    rewrite (bind_Ok _ _ _ _ _ (checked_Ok _ _ _ _ _ H)).
    rewrite (bind_Ok get_ctx _ s1 (ctx s1) s1 eq_refl).
    rewrite Ht.
    assert (He : xmlStrEqual (xmlGetProp node xmlSecAttrType)
                             (Some xmlSecTypeEncElement) = false).
    { destruct Hty as [-> | (t & -> & Hn & _)]; [reflexivity|].
      cbn. now apply String.eqb_neq. }
    assert (Hc : xmlStrEqual (xmlGetProp node xmlSecAttrType)
                             (Some xmlSecTypeEncContent) = false).
    { destruct Hty as [-> | (t & -> & _ & Hn)]; [reflexivity|].
      cbn. now apply String.eqb_neq. }
    rewrite He, Hc, !andb_false_r. reflexivity.
  - pose proof (DecryptToBuffer_replaced node s) as Hp. rewrite H in Hp. exact Hp.
  - pose proof (DecryptToBuffer_events node s) as Hp. rewrite H in Hp.
    destruct Hp as [evs [Hev Hf]]. cbn in Hev.
    now rewrite (new_events_app _ _ _ Hev).
  - exact Hr.
Qed.

(** *** The [replaced] flag and the splice of the host document *)

Lemma replaced_justified_refl just s : replaced_justified just s s.
Proof. exists []. split; [now rewrite app_nil_r | auto]. Qed.

Lemma replaced_justified_trans just a b c :
  replaced_justified just a b -> replaced_justified just b c ->
  replaced_justified just a c.
Proof.
  intros [e1 [H1 J1]] [e2 [H2 J2]]. exists (e1 ++ e2). split.
  - rewrite H2, H1. now rewrite app_assoc.
  - intros Hc. rewrite existsb_app.
    destruct (J2 Hc) as [Hb | He]; [|right; rewrite He; apply orb_true_r].
    destruct (J1 Hb) as [Ha | He]; [now left | right; now rewrite He].
Qed.

Lemma replaced_kept_refl s : replaced_kept s s.
Proof. unfold replaced_kept. auto. Qed.

Lemma replaced_kept_trans a b c :
  replaced_kept a b -> replaced_kept b c -> replaced_kept a c.
Proof. unfold replaced_kept. auto. Qed.

Ltac leaf_justified :=
  first [ exists []; split; [cbn; now rewrite app_nil_r | cbn; intros Hr; left; exact Hr]
        | eexists [_]; split; [cbn; reflexivity | cbn; intros Hr; left; exact Hr] ].
Ltac leaf_kept := unfold replaced_kept; cbn; auto.

(** The two places where [replaced] is set. *)
Lemma setContent_then_replaced just cv res :
  just (EvNodeSetContent cv res) = true ->
  preserves (replaced_justified just)
            (xmlNodeSetContentLen cv res ;; upd_ctx (set_replaced true)).
Proof.
  intros Hj s. exists [EvNodeSetContent cv res]. split; [reflexivity|].
  intros _. right. cbn. now rewrite Hj.
Qed.

Lemma splice_then_replaced just (splice : M state unit) ev (ok : bool)
    (h : M state unit) :
  (forall s, splice s
             = (if ok then Ok tt else Fail,
                mkState (ctx s) (transforms s) (log s) (trace s ++ [ev]))) ->
  (ok = true -> just ev = true) ->
  (forall s, exists s', h s = (Ok tt, s') /\ trace s' = trace s /\
                        replaced (ctx s') = replaced (ctx s)) ->
  preserves (replaced_justified just)
            (checked splice h ;; upd_ctx (set_replaced true)).
Proof.
  intros Hs Hj Hh s. unfold bind, checked. rewrite Hs.
  destruct ok; cbn.
  - exists [ev]. split; [reflexivity|]. intros _. right. cbn. now rewrite Hj.
  - destruct (Hh (mkState (ctx s) (transforms s) (log s) (trace s ++ [ev])))
      as (s' & Hhs & Ht & Hr).
    unfold bind. rewrite Hhs. cbn. exists [ev]. split; [exact Ht|].
    rewrite Hr. cbn. auto.
Qed.

Lemma xmlSecError_total o su r m a (s : state) :
  exists s', xmlSecError o su r m a s = (Ok tt, s') /\ trace s' = trace s /\
             replaced (ctx s') = replaced (ctx s).
Proof. eexists. split; [reflexivity|]. split; reflexivity. Qed.

Lemma ReplaceNode_then_replaced just node tmpl o su r m a :
  just (EvReplaceNode node tmpl true) = true ->
  preserves (replaced_justified just)
            (checked (xmlSecReplaceNode E node tmpl) (xmlSecError o su r m a) ;;
             upd_ctx (set_replaced true)).
Proof.
  intros Hj.
  apply (splice_then_replaced just _
           (EvReplaceNode node tmpl (xmlSecReplaceNode_ok E node tmpl))
           (xmlSecReplaceNode_ok E node tmpl)).
  - intros s. unfold xmlSecReplaceNode, emit, bind, modify, ret, fail.
    destruct (xmlSecReplaceNode_ok E node tmpl); reflexivity.
  - intros ->. exact Hj.
  - intros s. apply xmlSecError_total.
Qed.

Lemma ReplaceContent_then_replaced just node tmpl o su r m a :
  just (EvReplaceContent node tmpl true) = true ->
  preserves (replaced_justified just)
            (checked (xmlSecReplaceContent E node tmpl) (xmlSecError o su r m a) ;;
             upd_ctx (set_replaced true)).
Proof.
  intros Hj.
  apply (splice_then_replaced just _
           (EvReplaceContent node tmpl (xmlSecReplaceContent_ok E node tmpl))
           (xmlSecReplaceContent_ok E node tmpl)).
  - intros s. unfold xmlSecReplaceContent, emit, bind, modify, ret, fail.
    destruct (xmlSecReplaceContent_ok E node tmpl); reflexivity.
  - intros ->. exact Hj.
  - intros s. apply xmlSecError_total.
Qed.

Lemma ReplaceNodeBuffer_then_replaced just node data o su r m a :
  just (EvReplaceNodeBuffer node data true) = true ->
  preserves (replaced_justified just)
            (checked (xmlSecReplaceNodeBuffer E node data) (xmlSecError o su r m a) ;;
             upd_ctx (set_replaced true)).
Proof.
  intros Hj.
  apply (splice_then_replaced just _
           (EvReplaceNodeBuffer node data (xmlSecReplaceNodeBuffer_ok E node data))
           (xmlSecReplaceNodeBuffer_ok E node data)).
  - intros s. unfold xmlSecReplaceNodeBuffer, emit, bind, modify, ret, fail.
    destruct (xmlSecReplaceNodeBuffer_ok E node data); reflexivity.
  - intros ->. exact Hj.
  - intros s. apply xmlSecError_total.
Qed.

Ltac pres_justified just :=
  let H1 := fresh in let H2 := fresh in let H3 := fresh in let H4 := fresh in
  try pose proof (fun cv res => setContent_then_replaced just cv res eq_refl) as H1;
  pose proof (fun node tmpl o su r m a =>
                ReplaceNode_then_replaced just node tmpl o su r m a eq_refl) as H2;
  pose proof (fun node tmpl o su r m a =>
                ReplaceContent_then_replaced just node tmpl o su r m a eq_refl) as H3;
  pose proof (fun node d o su r m a =>
                ReplaceNodeBuffer_then_replaced just node d o su r m a eq_refl) as H4;
  unfold_funs;
  pres_with (replaced_justified_refl just) (replaced_justified_trans just) leaf_justified.

Lemma XmlEncrypt_justified tmpl node :
  preserves (replaced_justified is_write_or_splice) (xmlSecEncCtxXmlEncrypt E tmpl node).
Proof. pres_justified is_write_or_splice. Qed.

Lemma Decrypt_justified node :
  preserves (replaced_justified is_splice) (xmlSecEncCtxDecrypt E node).
Proof. pres_justified is_splice. Qed.

Lemma Decrypt_kept node : preserves replaced_kept (xmlSecEncCtxDecrypt E node).
Proof. unfold_funs. pres_with replaced_kept_refl replaced_kept_trans leaf_kept. Qed.

(** Steps that make no splice, before the guarded part. *)
Lemma splice_guard_pre {A B} (m : M state A) (k : A -> M state B) :
  preserves (extends no_splice) m ->
  (forall a, spec splice_guard (k a)) ->
  spec splice_guard (bind m k).
Proof.
  intros Hm Hk s. unfold bind. specialize (Hm s).
  destruct (m s) as [[a|] s1]; cbn in *.
  - destruct Hm as [e1 [H1 F1]]. destruct (Hk a s1) as [e2 [H2 F2]].
    exists (e1 ++ e2). split.
    + rewrite H2, H1. now rewrite app_assoc.
    + intros Hf. rewrite existsb_app, (F2 Hf), orb_false_r.
      apply not_true_is_false. intros Hx. apply existsb_exists in Hx.
      destruct Hx as [e [Hin He]]. rewrite forallb_forall in F1.
      specialize (F1 e Hin). unfold no_splice in F1. rewrite He in F1. discriminate.
  - destruct Hm as [e1 [H1 F1]]. exists e1. split; auto.
    intros _. apply not_true_is_false. intros Hx. apply existsb_exists in Hx.
    destruct Hx as [e [Hin He]]. rewrite forallb_forall in F1.
    specialize (F1 e Hin). unfold no_splice in F1. rewrite He in F1. discriminate.
Qed.

Lemma splice_guard_of_extends {A} (m : M state A) :
  preserves (extends no_splice) m -> spec (@splice_guard A) m.
Proof.
  intros Hm s. destruct (Hm s) as [e1 [H1 F1]]. exists e1. split; auto.
  intros _. apply not_true_is_false. intros Hx. apply existsb_exists in Hx.
  destruct Hx as [e [Hin He]]. rewrite forallb_forall in F1.
  specialize (F1 e Hin). unfold no_splice in F1. rewrite He in F1. discriminate.
Qed.

(** Steps that cannot fail and make no event, after the guarded part. *)
Lemma splice_guard_post {A B} (m : M state A) (k : A -> M state B) :
  spec splice_guard m ->
  (forall a s, failed (fst (k a s)) = false /\ trace (snd (k a s)) = trace s) ->
  spec splice_guard (bind m k).
Proof.
  intros Hm Hk s. unfold bind. specialize (Hm s).
  destruct (m s) as [[a|] s1]; cbn in *.
  - destruct Hm as [e1 [H1 F1]]. destruct (Hk a s1) as [Hf Ht].
    exists e1. split; [congruence|]. intros Hx. congruence.
  - exact Hm.
Qed.

(** A splice whose failure is reported. *)
Lemma splice_guard_checked (splice : M state unit) ev (ok : bool) (h : M state unit) :
  (forall s, splice s
             = (if ok then Ok tt else Fail,
                mkState (ctx s) (transforms s) (log s) (trace s ++ [ev]))) ->
  (ok = false -> is_splice ev = false) ->
  (forall s, trace (snd (h s)) = trace s) ->
  spec splice_guard (checked splice h).
Proof.
  intros Hs Hj Hh s. unfold checked. rewrite Hs. destruct ok; cbn.
  - exists [ev]. split; [reflexivity|]. discriminate.
  - exists [ev]. split.
    + unfold bind. specialize (Hh (mkState (ctx s) (transforms s) (log s) (trace s ++ [ev]))).
      destruct (h _) as [[u|] s2]; cbn in *; exact Hh.
    + intros _. cbn. now rewrite Hj.
Qed.

Lemma set_replaced_total (s : state) :
  failed (fst (upd_ctx (set_replaced true) s)) = false /\
  trace (snd (upd_ctx (set_replaced true) s)) = trace s.
Proof. split; reflexivity. Qed.

Lemma ret_total {A} (a : A) (s : state) :
  failed (fst (ret a s)) = false /\ trace (snd (ret a s)) = trace s.
Proof. split; reflexivity. Qed.

Ltac splice_pre :=
  repeat (apply splice_guard_pre;
          [ solve [pres_extends no_splice] | intros ? ]).

Lemma XmlEncrypt_splice_guard tmpl node :
  spec splice_guard (xmlSecEncCtxXmlEncrypt E tmpl node).
Proof.
  unfold xmlSecEncCtxXmlEncrypt. splice_pre.
  apply splice_guard_post; [| intros; apply ret_total].
  match goal with |- spec _ (if ?c then _ else _) => destruct c end.
  - apply splice_guard_post; [| intros; apply set_replaced_total].
    apply (splice_guard_checked _
             (EvReplaceNode node tmpl (xmlSecReplaceNode_ok E node tmpl))
             (xmlSecReplaceNode_ok E node tmpl)).
    + intros s. unfold xmlSecReplaceNode, emit, bind, modify, ret, fail.
      destruct (xmlSecReplaceNode_ok E node tmpl); reflexivity.
    + intros ->. reflexivity.
    + reflexivity.
  - match goal with |- spec _ (if ?c then _ else _) => destruct c end.
    + apply splice_guard_post; [| intros; apply set_replaced_total].
      apply (splice_guard_checked _
               (EvReplaceContent node tmpl (xmlSecReplaceContent_ok E node tmpl))
               (xmlSecReplaceContent_ok E node tmpl)).
      * intros s. unfold xmlSecReplaceContent, emit, bind, modify, ret, fail.
        destruct (xmlSecReplaceContent_ok E node tmpl); reflexivity.
      * intros ->. reflexivity.
      * reflexivity.
    + apply splice_guard_of_extends. pres_extends no_splice.
Qed.

Lemma Decrypt_splice_guard node :
  spec splice_guard (xmlSecEncCtxDecrypt E node).
Proof.
  unfold xmlSecEncCtxDecrypt. splice_pre.
  apply splice_guard_post; [| intros; apply ret_total].
  match goal with |- spec _ (if ?c then _ else _) => destruct c end;
    [ | match goal with |- spec _ (if ?c then _ else _) => destruct c end ].
  3: { apply splice_guard_of_extends. pres_extends no_splice. }
  all: apply splice_guard_post; [| intros; apply set_replaced_total];
    match goal with
    | |- spec _ (checked (xmlSecReplaceNodeBuffer _ ?n ?d) _) =>
        apply (splice_guard_checked _
                 (EvReplaceNodeBuffer n d (xmlSecReplaceNodeBuffer_ok E n d))
                 (xmlSecReplaceNodeBuffer_ok E n d));
        [ intros s; unfold xmlSecReplaceNodeBuffer, emit, bind, modify, ret, fail;
          destruct (xmlSecReplaceNodeBuffer_ok E n d); reflexivity
        | intros ->; reflexivity
        | reflexivity ]
    end.
Qed.

(** C2 (amended).  XmlEncrypt: a run that fails has made no successful splice
    of the host document, and [replaced] is set only by a run that wrote the
    ciphertext into the CipherValue node (in [cipherDataNodeWrite], before the
    splice) or made a successful splice.  Decrypt: a run that fails has made
    no successful splice and leaves [replaced] as it was, and [replaced] is
    set only by a run that made a successful splice. *)
Theorem C2_replaced_and_splice (tmpl node : xmlNode) (s : state) :
  (let r := xmlSecEncCtxXmlEncrypt E tmpl node s in
   (failed (fst r) = true -> existsb is_splice (new_events s (snd r)) = false) /\
   (replaced (ctx (snd r)) = true ->
    replaced (ctx s) = true \/
    existsb is_setContent (new_events s (snd r)) = true \/
    existsb is_splice (new_events s (snd r)) = true)) /\
  (let r := xmlSecEncCtxDecrypt E node s in
   (failed (fst r) = true ->
    existsb is_splice (new_events s (snd r)) = false /\
    replaced (ctx (snd r)) = replaced (ctx s)) /\
   (replaced (ctx (snd r)) = true ->
    replaced (ctx s) = true \/ existsb is_splice (new_events s (snd r)) = true)).
Proof.
  split; cbv zeta.
  - split.
    + destruct (XmlEncrypt_splice_guard tmpl node s) as [evs [Ht Hg]].
      rewrite (new_events_app _ _ _ Ht). exact Hg.
    + destruct (XmlEncrypt_justified tmpl node s) as [evs [Ht Hj]].
      rewrite (new_events_app _ _ _ Ht). intros Hr.
      destruct (Hj Hr) as [Hs | He]; [now left | right].
      apply existsb_exists in He. destruct He as [e [Hin He]].
      unfold is_write_or_splice in He. apply orb_true_iff in He.
      destruct He as [He | He]; [left | right]; apply existsb_exists; eauto.
  - destruct (Decrypt_splice_guard node s) as [evs [Ht Hg]].
    destruct (Decrypt_justified node s) as [evs' [Ht' Hj]].
    assert (evs' = evs) by (rewrite Ht in Ht'; now apply app_inv_head in Ht').
    subst evs'. rewrite (new_events_app _ _ _ Ht).
    pose proof (Decrypt_kept node s) as Hk. unfold replaced_kept in Hk.
    split.
    + intros Hf. split; [auto|].
      destruct (replaced (ctx (snd (xmlSecEncCtxDecrypt E node s)))) eqn:Hr.
      * destruct (Hj eq_refl) as [Hs | He]; [now rewrite Hs|].
        rewrite (Hg Hf) in He. discriminate.
      * destruct (replaced (ctx s)); [|reflexivity]. apply Hk. reflexivity.
    + exact Hj.
Qed.

(** *** What a successful template read has established *)

(** [frame_as N H R tac] adds, for a run [H : m s0 = (r, s1)], the fact
    [N : R s0 s1], where [tac] proves that [m] preserves [R]. *)
Ltac frame_as N H R tac :=
  match type of H with
  | ?m ?s0 = (_, ?s1) =>
      assert (N : preserves R m) by tac;
      specialize (N s0); rewrite H in N; cbn [snd] in N
  end.

Ltac frame_of H R tac := let Hp := fresh "Hp" in frame_as Hp H R tac.

Lemma extends_silent s s' : extends silent s s' -> trace s' = trace s.
Proof.
  intros [evs [Ht Hf]]. destruct evs as [|e evs]; [|discriminate].
  now rewrite app_nil_r in Ht.
Qed.

Lemma forallb_not_existsb {A} (p : A -> bool) l :
  forallb (fun e => negb (p e)) l = true -> existsb p l = false.
Proof.
  induction l as [|x l IH]; cbn; [reflexivity|].
  intros H. apply andb_true_iff in H. destruct H as [Hx Hl].
  apply negb_true_iff in Hx. rewrite Hx. now apply IH.
Qed.

Lemma CipherDataNodeRead_Ok cd s s' :
  xmlSecEncCtxCipherDataNodeRead E cd s = (Ok tt, s') ->
  is_Some_b (cipherValueNode (ctx s')) = is_CipherValue (first_child cd) /\
  exists evs, trace s' = trace s ++ evs /\
    (existsb is_setUri evs = true ->
     encrypt (ctx s) = false /\ is_CipherReference (first_child cd) = true).
Proof.
  unfold xmlSecEncCtxCipherDataNodeRead, first_child. intros H.
  do 3 step_ok H.
  assert (Hcv : cipherValueNode (ctx s) = None).
  { destruct (cipherValueNode (ctx s)); [discriminate | reflexivity]. }
  destruct a as [|x xs].
  2: { unfold xmlSecError, bind, modify, fail in H. cbn in H. discriminate. }
  apply ret_inv in H. destruct H as [_ ->].
  destruct (xmlSecGetNextElementNode (node_children cd)) as [|n rest] eqn:Hcur.
  - apply ret_inv in Hm0. destruct Hm0 as [_ ->]. cbn. rewrite Hcv. split; [reflexivity|].
    exists []. split; [now rewrite app_nil_r | discriminate].
  - cbn [hd_error is_CipherValue is_CipherReference].
    destruct (xmlSecCheckNodeName n xmlSecNodeCipherValue xmlSecEncNs) eqn:Hv.
    + step_ok Hm0. step_ok Hm0. apply ret_inv in Hm0. destruct Hm0 as [_ ->].
      unfold upd_ctx. cbn. split; [reflexivity|].
      frame_of Hm1 (extends silent) ltac:(pres_extends silent).
      apply extends_silent in Hp. exists []. split; [now rewrite app_nil_r | discriminate].
    + destruct (xmlSecCheckNodeName n xmlSecNodeCipherReference xmlSecEncNs) eqn:Hr.
      * step_ok Hm0. apply ret_inv in Hm0. destruct Hm0 as [_ ->].
        split.
        { frame_of Hm1 (same cipherValueNode) ltac:(pres_same cipherValueNode).
          unfold same in Hp. now rewrite Hp, Hcv. }
        destruct (encrypt (ctx s)) eqn:He; cbn [negb] in Hm1.
        { apply ret_inv in Hm1. destruct Hm1 as [_ ->].
          exists []. split; [now rewrite app_nil_r | discriminate]. }
        frame_of Hm1 (extends (fun _ : event => true))
                 ltac:(pres_extends (fun _ : event => true)).
        destruct Hp as [evs [Ht _]]. exists evs. split; [exact Ht|]. auto.
      * apply ret_inv in Hm0. destruct Hm0 as [Hx _]. discriminate.
Qed.

Lemma optional_child_inv (name ns : string)
    (field : option xmlNode -> xmlSecEncCtx -> xmlSecEncCtx)
    (cur : list xmlNode) (s s' : state) (a : list xmlNode) :
  (forall v c, cipherValueNode (field v c) = cipherValueNode c) ->
  (forall v c, encrypt (field v c) = encrypt c) ->
  (match cur with
   | n :: rest =>
       if xmlSecCheckNodeName n name ns then
         upd_ctx (field (Some n)) ;; ret (xmlSecGetNextElementNode rest)
       else ret cur
   | [] => ret cur
   end) s = (Ok a, s') ->
  a = skip_optional name ns cur /\ trace s' = trace s /\
  cipherValueNode (ctx s') = cipherValueNode (ctx s) /\
  encrypt (ctx s') = encrypt (ctx s).
Proof.
  intros Hfield Hfield' H. unfold skip_optional. destruct cur as [|n rest].
  - apply ret_inv in H. destruct H as [H ->]. inversion H. auto.
  - destruct (xmlSecCheckNodeName n name ns).
    + unfold upd_ctx in H. step_ok H. apply ret_inv in H. destruct H as [H ->].
      inversion H. cbn. auto.
    + apply ret_inv in H. destruct H as [H ->]. inversion H. auto.
Qed.

Lemma children_Ok node s s' :
  EncDataNodeRead_children E node s = (Ok tt, s') ->
  is_Some_b (cipherValueNode (ctx s')) = holds_CipherValue node /\
  exists evs, trace s' = trace s ++ evs /\
    (existsb is_setUri evs = true ->
     encrypt (ctx s) = false /\ holds_CipherReference node = true).
Proof.
  unfold EncDataNodeRead_children. intros H.
  do 2 step_ok H. step_ok H.
  apply (optional_child_inv _ _ set_encMethodNode) in Hm0; [|reflexivity|reflexivity].
  destruct Hm0 as (-> & Ht1 & Hc1 & He1).
  step_ok H. step_ok H.
  apply (optional_child_inv _ _ set_keyInfoNode) in Hm1; [|reflexivity|reflexivity].
  destruct Hm1 as (-> & Ht2 & Hc2 & He2).
  fold (cipherData_cursor node) in H.
  step_ok H.
  frame_of H (extends silent) ltac:(pres_extends silent).
  apply extends_silent in Hp.
  frame_of H (same cipherValueNode) ltac:(pres_same cipherValueNode).
  unfold same in Hp0.
  unfold holds_CipherValue, holds_CipherReference, cipherData_child.
  destruct (cipherData_cursor node) as [|cd rest] eqn:Hcur.
  { unfold xmlSecError, bind, modify, fail in Hm1. cbn in Hm1. discriminate. }
  destruct (xmlSecCheckNodeName cd xmlSecNodeCipherData xmlSecEncNs) eqn:Hcd.
  2: { unfold xmlSecError, bind, modify, fail in Hm1. cbn in Hm1. discriminate. }
  step_ok Hm1. apply ret_inv in Hm1. destruct Hm1 as [_ ->].
  apply CipherDataNodeRead_Ok in Hm2.
  destruct Hm2 as (Hcv & evs & Ht & Hev).
  fold (first_child cd). fold (is_CipherValue (first_child cd)).
  fold (is_CipherReference (first_child cd)).
  split; [now rewrite Hp0|].
  exists evs. split; [now rewrite Hp, Ht, Ht2, Ht1|].
  intros Hx. destruct (Hev Hx) as [He Hr]. split; [|exact Hr].
  congruence.
Qed.

(** *** The chain after the template is read *)

Lemma CreateAndAppend_Ok id s p s' :
  xmlSecTransformCtxCreateAndAppend E id s = (Ok p, s') ->
  p = List.length (transforms s) /\
  transforms s' = transforms s ++ [xmlSecTransformCreate id] /\
  chain (encTransformCtx (ctx s')) = chain (encTransformCtx (ctx s)) ++ [p] /\
  encMethod (ctx s') = encMethod (ctx s) /\
  resultBase64Encoded (ctx s') = resultBase64Encoded (ctx s).
Proof.
  unfold xmlSecTransformCtxCreateAndAppend. intros H.
  destruct (xmlSecTransformCreate_ok E id); [|discriminate].
  unfold alloc, xmlSecTransformCtxAppend, upd_tctx, upd_ctx, bind, get, modify, ret in H.
  cbn in H. inversion H; subst. cbn. auto.
Qed.

Lemma encMethod_Ok s s' :
  EncDataNodeRead_encMethod E s = (Ok tt, s') ->
  exists p, encMethod (ctx s') = Some p /\
            chain_of (ctx s') = chain_of (ctx s) ++ [p].
Proof.
  unfold EncDataNodeRead_encMethod. intros H.
  step_ok H. step_ok H.
  frame_of H (same encMethod) ltac:(pres_same encMethod).
  frame_of H (same chain_of) ltac:(pres_same chain_of).
  unfold same in *. rewrite Hp, Hp0. clear H Hp Hp0.
  destruct (encMethod (ctx s)) as [p|] eqn:Hem.
  - step_ok Hm. unfold upd_ctx in Hm. apply modify_inv in Hm. destruct Hm as [_ ->].
    exists p. cbn. rewrite Hem. auto.
  - destruct (encMethodNode (ctx s)) as [mnode|].
    + step_ok Hm. unfold upd_ctx in Hm. apply modify_inv in Hm. destruct Hm as [_ ->].
      unfold xmlSecTransformCtxNodeRead in Hm0.
      destruct (registry E mnode xmlSecTransformUsageEncryptionMethod); [|discriminate].
      apply CreateAndAppend_Ok in Hm0. destruct Hm0 as (_ & _ & Hc & _).
      eexists. cbn. split; [reflexivity | exact Hc].
    + unfold xmlSecError, bind, modify, fail in Hm. cbn in Hm. discriminate.
Qed.

Lemma base64_Ok s s' :
  EncDataNodeRead_base64 E s = (Ok tt, s') ->
  if encrypt (ctx s) && is_Some_b (cipherValueNode (ctx s)) then
    exists q t,
      chain_of (ctx s') = chain_of (ctx s) ++ [q] /\
      transform_at s' q = Some t /\
      tr_id t = xmlSecTransformBase64Id /\ tr_encode t = true /\
      resultBase64Encoded (ctx s') = true
  else s' = s.
Proof.
  unfold EncDataNodeRead_base64. intros H. step_ok H.
  destruct (encrypt (ctx s) && is_Some_b (cipherValueNode (ctx s))).
  - step_ok H. unfold upd_transform, upd_ctx in H. step_ok H.
    apply modify_inv in H. destruct H as [_ ->].
    apply CreateAndAppend_Ok in Hm. destruct Hm as (-> & Htr & Hc & _).
    eexists _, _. cbn. repeat split.
    + exact Hc.
    + unfold transform_at. cbn. rewrite Htr.
      rewrite list_lookup_alter, decide_True by reflexivity.
      rewrite (list_lookup_middle (transforms s) [] _ _ eq_refl). reflexivity.
    + reflexivity.
    + reflexivity.
  - apply ret_inv in H. destruct H as [_ ->]. reflexivity.
Qed.

(** C4: after [encDataNodeRead] succeeds on an encrypt-mode context: if the
    template's CipherData holds a CipherValue, the last transform of the
    chain is a base64 encoder with [encode] = 1 and [resultBase64Encoded] is
    set; if it holds no CipherValue (a CipherReference, the result going to
    a URI consumer), nothing is appended after the encryption method: the
    chain ends with [ctx->encMethod] and [resultBase64Encoded] is as it
    was. *)
Theorem C4_base64_encoder_appended (node : xmlNode) (s s' : state) :
  xmlSecEncCtxEncDataNodeRead E node s = (Ok tt, s') ->
  encrypt (ctx s) = true ->
  (holds_CipherValue node = true ->
   exists q t,
     last (chain (encTransformCtx (ctx s'))) = Some q /\
     transform_at s' q = Some t /\
     tr_id t = xmlSecTransformBase64Id /\ tr_encode t = true /\
     resultBase64Encoded (ctx s') = true) /\
  (holds_CipherValue node = false ->
   (exists p, encMethod (ctx s') = Some p /\
              last (chain (encTransformCtx (ctx s'))) = Some p) /\
   resultBase64Encoded (ctx s') = resultBase64Encoded (ctx s)).
Proof.
  unfold xmlSecEncCtxEncDataNodeRead. intros H Henc.
  apply bind_inv in H. destruct H as [(u1 & s1 & H1 & H) | (Hf & _)]; [|discriminate].
  apply bind_inv in H. destruct H as [(u2 & s2 & H2 & H) | (Hf & _)]; [|discriminate].
  apply bind_inv in H. destruct H as [(u3 & s3 & H3 & H) | (Hf & _)]; [|discriminate].
  apply bind_inv in H. destruct H as [(u4 & s4 & H4 & H) | (Hf & _)]; [|discriminate].
  apply bind_inv in H. destruct H as [(u5 & s5 & H5 & H) | (Hf & _)]; [|discriminate].
  apply ret_inv in H. destruct H as [_ ->].
  destruct u1, u2, u3, u4, u5.
  apply attributes_Ok_type in H1.
  destruct H1 as (_ & _ & _ & _ & He1 & _ & _ & _ & Hb1).
  pose proof (children_Ok _ _ _ H2) as (Hcv & _).
  frame_as He2 H2 (same encrypt) ltac:(pres_same encrypt).
  frame_as Hb2 H2 (same resultBase64Encoded) ltac:(pres_same resultBase64Encoded).
  pose proof (encMethod_Ok _ _ H3) as (p & Hem & Hch).
  frame_as He3 H3 (same encrypt) ltac:(pres_same encrypt).
  frame_as Hb3 H3 (same resultBase64Encoded) ltac:(pres_same resultBase64Encoded).
  frame_as Hc3 H3 (same cipherValueNode) ltac:(pres_same cipherValueNode).
  frame_as He4 H4 (same encrypt) ltac:(pres_same encrypt).
  frame_as Hb4 H4 (same resultBase64Encoded) ltac:(pres_same resultBase64Encoded).
  frame_as Hc4 H4 (same cipherValueNode) ltac:(pres_same cipherValueNode).
  frame_as Hm4 H4 (same encMethod) ltac:(pres_same encMethod).
  frame_as Hh4 H4 (same chain_of) ltac:(pres_same chain_of).
  unfold same in *.
  apply base64_Ok in H5.
  assert (Hen : encrypt (ctx s4) = true) by congruence.
  assert (Hcv4 : is_Some_b (cipherValueNode (ctx s4)) = holds_CipherValue node)
    by congruence.
  rewrite Hen, Hcv4 in H5. cbn [andb] in H5.
  split; intros Hh; rewrite Hh in H5.
  - destruct H5 as (q & t & Hq & Ht & Hid & Henc' & Hrb).
    exists q, t. unfold chain_of in Hq. rewrite Hq, last_snoc. auto.
  - subst s5. split.
    + exists p. split; [congruence|].
      unfold chain_of in *. rewrite Hh4, Hch, last_snoc. reflexivity.
    + congruence.
Qed.


(** *** The key *)

Lemma reported_app_l r l1 l2 : reported r l1 -> reported r (l1 ++ l2).
Proof. unfold reported, reportedb. rewrite existsb_app. now intros ->. Qed.

Lemma reported_app_r r l1 l2 : reported r l2 -> reported r (l1 ++ l2).
Proof. unfold reported, reportedb. rewrite existsb_app. intros ->. apply orb_true_r. Qed.

Lemma quiet_no_failure evs :
  forallb quiet evs = true ->
  existsb key_failure evs = false /\ forallb (fun e => negb (is_exec e)) evs = true.
Proof.
  induction evs as [|e evs IH]; cbn; [auto|].
  intros H. apply andb_true_iff in H. destruct H as [He Hl].
  unfold quiet in He. apply andb_true_iff in He. destruct He as [Hk Hx].
  apply negb_true_iff in Hk. destruct (IH Hl) as [H1 H2].
  now rewrite Hk, Hx, H1, H2.
Qed.

(** Steps before the key is looked for. *)
Lemma key_guard_pre {A B} (m : M state A) (k : A -> M state B) :
  preserves (extends quiet) m -> preserves log_grows m ->
  (forall a, spec key_guard (k a)) ->
  spec key_guard (bind m k).
Proof.
  intros Hm Hl Hk s. unfold bind. specialize (Hm s). specialize (Hl s).
  destruct (m s) as [[a|] s1]; cbn in *;
    destruct Hm as [e1 [H1 F1]]; destruct Hl as [l1 L1];
    destruct (quiet_no_failure _ F1) as [Q1 Q2].
  - destruct (Hk a s1) as (e2 & l2 & H2 & L2 & G).
    exists (e1 ++ e2), (l1 ++ l2). split; [|split].
    + rewrite H2, H1. now rewrite app_assoc.
    + rewrite L2, L1. now rewrite app_assoc.
    + rewrite existsb_app, Q1. cbn. intros Hx. destruct (G Hx) as (Gf & Gr & Ge).
      split; [exact Gf|]. split; [now apply reported_app_r|].
      now rewrite forallb_app, Q2, Ge.
  - exists e1, l1. split; [exact H1|]. split; [exact L1|].
    rewrite Q1. discriminate.
Qed.

(** Steps after the key has been found. *)
Lemma key_guard_post {A B} (m : M state A) (k : A -> M state B) :
  spec key_guard m ->
  (forall a, preserves (extends (fun e => negb (key_failure e))) (k a)) ->
  (forall a, preserves log_grows (k a)) ->
  spec key_guard (bind m k).
Proof.
  intros Hm Hk Hl s. unfold bind. specialize (Hm s).
  destruct (m s) as [[a|] s1]; cbn in *; [|exact Hm].
  destruct Hm as (e1 & l1 & H1 & L1 & G).
  destruct (Hk a s1) as [e2 [H2 F2]]. destruct (Hl a s1) as [l2 L2].
  apply forallb_not_existsb in F2.
  exists (e1 ++ e2), (l1 ++ l2). split; [|split].
  - rewrite H2, H1. now rewrite app_assoc.
  - rewrite L2, L1. now rewrite app_assoc.
  - rewrite existsb_app, F2, orb_false_r. intros Hx.
    destruct (G Hx) as (Gf & _). discriminate.
Qed.

(** A failure that is reported on the way out. *)
Lemma key_guard_checked {A} (m : M state A) o su r msg a :
  spec key_guard m ->
  spec key_guard (checked m (xmlSecError o su r msg a)).
Proof.
  intros Hm s. unfold checked. specialize (Hm s).
  destruct (m s) as [[x|] s1]; cbn in *; [exact Hm|].
  destruct Hm as (e1 & l1 & H1 & L1 & G).
  exists e1, (l1 ++ [Report (mkError o su r msg a)]). split; [exact H1|]. split.
  - cbn. rewrite L1. now rewrite app_assoc.
  - intros Hx. destruct (G Hx) as (Gf & Gr & Ge).
    split; [reflexivity|]. split; [now apply reported_app_l | exact Ge].
Qed.

Ltac close_guard :=
  eexists _, _;
  split; [ first [ rewrite <- ?app_assoc; reflexivity | symmetry; apply app_nil_r ] | ];
  split; [ first [ rewrite <- ?app_assoc; reflexivity | symmetry; apply app_nil_r ] | ];
  cbn; first [ discriminate | intros _; repeat split; reflexivity ].

Lemma key_block_guard : spec key_guard (EncDataNodeRead_key E).
Proof.
  intros s. unfold key_guard.
  unfold EncDataNodeRead_key, xmlSecTransformSetKey, transform_name, transform_at,
    checked, xmlSecError, get_ctx, upd_ctx, emit, bind, get, modify, ret, fail.
  cbn.
  destruct (encKey (ctx s)) as [k0|] eqn:Hk.
  - cbn. rewrite Hk. cbn.
    destruct (xmlSecKeyMatch E k0 (keyReq (keyInfoReadCtx (ctx s)))); cbn;
      [|close_guard].
    destruct (encMethod (ctx s)) as [p|]; cbn; [|close_guard].
    destruct (transforms s !! p) as [t|]; cbn; [|close_guard].
    destruct (setKey_ok E t k0); cbn; close_guard.
  - destruct (keyInfoNode (ctx s)) as [kn|]; cbn; [|rewrite Hk; cbn; close_guard].
    destruct (keysMngr (keyInfoReadCtx (ctx s))) as [mngr|]; cbn;
      [|rewrite Hk; cbn; close_guard].
    destruct (getKey mngr) as [hook|]; cbn; [|rewrite Hk; cbn; close_guard].
    destruct (hook kn (keyReq (keyInfoReadCtx (ctx s)))) as [k1|]; cbn;
      [|close_guard].
    destruct (xmlSecKeyMatch E k1 (keyReq (keyInfoReadCtx (ctx s)))); cbn;
      [|close_guard].
    destruct (encMethod (ctx s)) as [p|]; cbn; [|close_guard].
    destruct (transforms s !! p) as [t|]; cbn; [|close_guard].
    destruct (setKey_ok E t k1); cbn; close_guard.
Qed.

Ltac guard_post :=
  apply key_guard_post;
  [ | intros ?; pres_extends (fun e => negb (key_failure e)) | intros ?; pres_log ].

Lemma EncDataNodeRead_key_guard node :
  spec key_guard (xmlSecEncCtxEncDataNodeRead E node).
Proof.
  unfold xmlSecEncCtxEncDataNodeRead.
  apply key_guard_pre; [ pres_extends quiet | pres_log | intros ? ].
  apply key_guard_pre; [ pres_extends quiet | pres_log | intros ? ].
  apply key_guard_pre; [ pres_extends quiet | pres_log | intros ? ].
  guard_post. apply key_block_guard.
Qed.

Lemma DecryptToBuffer_key_guard node :
  spec key_guard (xmlSecEncCtxDecryptToBuffer E node).
Proof.
  unfold xmlSecEncCtxDecryptToBuffer.
  do 4 (apply key_guard_pre; [ pres_extends quiet | pres_log | intros ? ]).
  guard_post. apply key_guard_checked. apply EncDataNodeRead_key_guard.
Qed.

Lemma run_op_key_guard op : spec key_guard (run_op E op).
Proof.
  destruct op; cbn [run_op].
  - unfold xmlSecEncCtxBinaryEncrypt.
    do 4 (apply key_guard_pre; [ pres_extends quiet | pres_log | intros ? ]).
    guard_post. apply key_guard_checked. apply EncDataNodeRead_key_guard.
  - unfold xmlSecEncCtxXmlEncrypt.
    do 5 (apply key_guard_pre; [ pres_extends quiet | pres_log | intros ? ]).
    guard_post. apply key_guard_checked. apply EncDataNodeRead_key_guard.
  - unfold xmlSecEncCtxUriEncrypt.
    do 5 (apply key_guard_pre; [ pres_extends quiet | pres_log | intros ? ]).
    guard_post. apply key_guard_checked. apply EncDataNodeRead_key_guard.
  - unfold xmlSecEncCtxDecrypt.
    guard_post. apply key_guard_checked. apply DecryptToBuffer_key_guard.
  - guard_post. apply DecryptToBuffer_key_guard.
Qed.

(** On the trace of a run: if the [getKey] hook returned NULL or
    [xmlSecKeyMatch] failed during the run of an operation, the operation
    fails, KEY_NOT_FOUND is among the errors it reported, and the chain was
    never run. *)
Lemma key_failure_event_fails (op : operation) (s : state) :
  existsb key_failure (new_events s (snd (run_op E op s))) = true ->
  failed (fst (run_op E op s)) = true /\
  reported XMLSEC_ERRORS_R_KEY_NOT_FOUND (new_log s (snd (run_op E op s))) /\
  forallb (fun e => negb (is_exec e)) (new_events s (snd (run_op E op s))) = true.
Proof.
  destruct (run_op_key_guard op s) as (evs & lg & Ht & Hl & G).
  rewrite (new_events_app _ _ _ Ht), (new_log_app _ _ _ Hl). exact G.
Qed.

End WithEnv.

(** ** The statements at concrete inputs *)

Import EncSamples.

(** C1 (the code at the failing input): after an encryption with a
    caller-supplied encryption method, [dontDestroyEncMethod] is set and
    [xmlSecEncCtxFinalize] nevertheless calls [xmlSecTransformDestroy] on
    that method; after an encryption whose method the context made itself,
    the flag is clear and [xmlSecEncCtxFinalize] makes no such call. *)
Lemma C1_finalize_destroys_caller_method :
  (dontDestroyEncMethod (ctx after_encrypt_caller_method) = true /\
   encMethod (ctx after_encrypt_caller_method) = Some 0 /\
   In (EvTransformDestroy 0)
      (new_events after_encrypt_caller_method
                  (snd (xmlSecEncCtxFinalize after_encrypt_caller_method)))) /\
  (dontDestroyEncMethod (ctx after_encrypt_own_method) = false /\
   encMethod (ctx after_encrypt_own_method) = Some 0 /\
   ~ In (EvTransformDestroy 0)
        (new_events after_encrypt_own_method
                    (snd (xmlSecEncCtxFinalize after_encrypt_own_method)))).
Proof.
  split.
  - split; [reflexivity|]. split; [reflexivity|].
    apply Finalize_destroys_iff. split; reflexivity.
  - split; [reflexivity|]. split; [reflexivity|].
    rewrite Finalize_destroys_iff. intros [H _]. discriminate H.
Qed.

(** C2, as stated, fails: when the key-info writer fails, XmlEncrypt fails
    after the ciphertext was written into the template's CipherValue, with
    [replaced] already set and no splice made. *)
Lemma C2_counterexample :
  let s := initialized mngr_aes in
  let r := xmlSecEncCtxXmlEncrypt env_keyInfoWrite_fails tmpl_value secret s in
  fst r = Fail /\
  replaced (ctx s) = false /\
  replaced (ctx (snd r)) = true /\
  existsb is_setContent (new_events s (snd r)) = true /\
  existsb is_splice (new_events s (snd r)) = false.
Proof. vm_compute. repeat split; reflexivity. Qed.

Lemma C2_witness :
  let s := initialized mngr_aes in
  (let r := xmlSecEncCtxXmlEncrypt env_keyInfoWrite_fails tmpl_value secret s in
   (failed (fst r) = true -> existsb is_splice (new_events s (snd r)) = false) /\
   (replaced (ctx (snd r)) = true ->
    replaced (ctx s) = true \/
    existsb is_setContent (new_events s (snd r)) = true \/
    existsb is_splice (new_events s (snd r)) = true)) /\
  (let r := xmlSecEncCtxDecrypt env_keyInfoWrite_fails secret s in
   (failed (fst r) = true ->
    existsb is_splice (new_events s (snd r)) = false /\
    replaced (ctx (snd r)) = replaced (ctx s)) /\
   (replaced (ctx (snd r)) = true ->
    replaced (ctx s) = true \/ existsb is_splice (new_events s (snd r)) = true)).
Proof.
  exact (C2_replaced_and_splice env_keyInfoWrite_fails tmpl_value secret
                                (initialized mngr_aes)).
Defined.


Lemma C4_witness :
  let s := encrypting (initialized mngr_aes) in
  let s' := snd (xmlSecEncCtxEncDataNodeRead env_ok tmpl_value s) in
  xmlSecEncCtxEncDataNodeRead env_ok tmpl_value s = (Ok tt, s') /\
  encrypt (ctx s) = true /\
  holds_CipherValue tmpl_value = true /\
  (holds_CipherValue tmpl_value = true ->
   exists q t,
     last (chain (encTransformCtx (ctx s'))) = Some q /\
     transform_at s' q = Some t /\
     tr_id t = xmlSecTransformBase64Id /\ tr_encode t = true /\
     resultBase64Encoded (ctx s') = true) /\
  (holds_CipherValue tmpl_value = false ->
   (exists p, encMethod (ctx s') = Some p /\
              last (chain (encTransformCtx (ctx s'))) = Some p) /\
   resultBase64Encoded (ctx s') = resultBase64Encoded (ctx s)).
Proof.
  cbv zeta. split; [vm_compute; reflexivity|]. split; [reflexivity|].
  split; [reflexivity|].
  apply (C4_base64_encoder_appended env_ok tmpl_value
           (encrypting (initialized mngr_aes))).
  - vm_compute. reflexivity.
  - reflexivity.
Defined.

Lemma C9_witness :
  let s := initialized mngr_aes in
  lacks_CipherData tmpl_no_cipherData = true /\
  (unread (ctx s) ->
   exists s' subject,
     xmlSecEncCtxEncDataNodeRead env_ok tmpl_no_cipherData s = (Fail, s') /\
     log s' = log s ++ [Report (mkError None subject XMLSEC_ERRORS_R_INVALID_NODE
                                        "node=%s" [ArgStr xmlSecNodeCipherData])]) /\
  (forall op s0, template_of op = tmpl_no_cipherData ->
                 fst (run_op env_ok op s0) = Fail).
Proof.
  cbv zeta. split; [reflexivity|].
  apply (C9_missing_CipherData env_ok tmpl_no_cipherData (initialized mngr_aes)).
  reflexivity.
Defined.

Lemma C10_witness :
  let s := initialized mngr_aes in
  let r := xmlSecEncCtxDecryptToBuffer env_ok tmpl_value_untyped s in
  let buffer := x2a :: list_byte_of_string "QUJD" in
  r = (Ok buffer, snd r) /\
  xmlGetProp tmpl_value_untyped xmlSecAttrType = None /\
  xmlSecEncCtxDecrypt env_ok tmpl_value_untyped s = (Ok tt, snd r) /\
  replaced (ctx (snd r)) = replaced (ctx s) /\
  forallb (fun e => negb (is_dom_write e)) (new_events s (snd r)) = true /\
  encResult (ctx (snd r)) = Some buffer.
Proof.
  cbv zeta. split; [vm_compute; reflexivity|]. split; [reflexivity|].
  apply (C10_decrypt_other_type_leaves_document env_ok tmpl_value_untyped
           (initialized mngr_aes)).
  - vm_compute. reflexivity.
  - left. reflexivity.
Defined.

End EncFacts.

(* ================================================================== *)
(** * Life cycle of the encryption context *)
(* ================================================================== *)

Module EncLifecycle.
Import XmlEnc EncLogic EncMoreDefs MonadFacts EncFacts.

Ltac step_ok H :=
  let a := fresh "a" in
  let s := fresh "s" in
  let Hm := fresh "Hm" in
  let Hf := fresh "Hf" in
  apply bind_inv in H;
  destruct H as [(a & s & Hm & H) | (Hf & _)]; [ | discriminate Hf ];
  first
    [ apply get_ctx_inv in Hm; destruct Hm as [Hm ->]; inversion Hm; subst a; clear Hm
    | apply get_inv in Hm; destruct Hm as [Hm ->]; inversion Hm; subst a; clear Hm
    | apply assert_Ok_inv in Hm; destruct Hm as [Hm ->]
    | apply modify_inv in Hm; destruct Hm as [_ ->]
    | apply checked_Ok_inv in Hm
    | idtac ];
  try match type of a with unit => destruct a end.

(** One bind of a successful run, with the names of the result, the state
    and the two runs given. *)
Ltac bind_ok H a s Hm :=
  let Hf := fresh "Hf" in
  apply bind_inv in H;
  destruct H as [(a & s & Hm & H) | (Hf & _)]; [ | discriminate Hf ].

Ltac frame_as N H R tac :=
  match type of H with
  | ?m ?s0 = (_, ?s1) =>
      assert (N : preserves R m) by tac;
      specialize (N s0); rewrite H in N; cbn [snd] in N
  end.

Section WithEnv.
Variable E : env.

(** *** One result per context *)

(** X1: a top-level operation on a context that already holds a result
    fails on its entry assertion: the context, the transform store and the
    trace are left as they were. *)
Theorem single_use (op : operation) (s : state) :
  encResult (ctx s) <> None ->
  fst (run_op E op s) = Fail /\
  ctx (snd (run_op E op s)) = ctx s /\
  transforms (snd (run_op E op s)) = transforms s /\
  trace (snd (run_op E op s)) = trace s /\
  In (AssertFailed "ctx->encResult == NULL") (new_log s (snd (run_op E op s))).
Proof.
  intros H. destruct (encResult (ctx s)) as [b|] eqn:Hr; [clear H | congruence].
  destruct op; cbn [run_op];
    unfold xmlSecEncCtxDecrypt, xmlSecEncCtxDecryptToBuffer, xmlSecEncCtxBinaryEncrypt,
      xmlSecEncCtxXmlEncrypt, xmlSecEncCtxUriEncrypt, checked, xmlSecError,
      xmlSecAssert2, get_ctx, bind, get, modify, ret, fail, new_log;
    cbn; rewrite Hr; cbn;
    (repeat split).
  all: rewrite <- ?app_assoc, skipn_app, skipn_all, Nat.sub_diag; cbn; auto.
Qed.


(** *** Set-up and tear-down *)

(** X2: a successful [xmlSecEncCtxInitialize] leaves a context in which
    nothing has been read from a template, without key, method or result,
    with an empty chain, whose read context asks the given keys manager in
    read mode and whose write context is in write mode and only lets public
    keys be written; no outside call is made. *)
Theorem Initialize_Ok (mngr : option xmlSecKeysMngr) (s s' : state) :
  xmlSecEncCtxInitialize E mngr s = (Ok tt, s') ->
  unread (ctx s') /\
  encMethod (ctx s') = None /\ encKey (ctx s') = None /\ encResult (ctx s') = None /\
  replaced (ctx s') = false /\ resultBase64Encoded (ctx s') = false /\
  dontDestroyEncMethod (ctx s') = false /\
  chain_of (ctx s') = [] /\ result (encTransformCtx (ctx s')) = None /\
  ki_mode (keyInfoReadCtx (ctx s')) = xmlSecKeyInfoModeRead /\
  keysMngr (keyInfoReadCtx (ctx s')) = mngr /\
  ki_mode (keyInfoWriteCtx (ctx s')) = xmlSecKeyInfoModeWrite /\
  keysMngr (keyInfoWriteCtx (ctx s')) = mngr /\
  keyType (keyReq (keyInfoWriteCtx (ctx s'))) = xmlSecKeyDataTypePublic /\
  transforms s' = transforms s /\ log s' = log s /\ trace s' = trace s.
Proof.
  unfold xmlSecEncCtxInitialize, xmlSecKeyInfoCtxInitialize,
    xmlSecTransformCtxInitialize, checked, xmlSecError, upd_ctx, upd_tctx,
    bind, modify, ret, fail, unread.
  destruct (xmlSecKeyInfoCtxInitialize_ok E), (xmlSecTransformCtxInitialize_ok E);
    cbn; intros H; inversion H; subst; cbn; repeat split; reflexivity.
Qed.

(** X3: a failed [xmlSecEncCtxInitialize] logs exactly one report,
    XMLSEC_FAILED, whose subject is the collaborator that failed:
    [xmlSecKeyInfoCtxInitialize] when the key-info contexts cannot be
    initialized, and [xmlSecTransformCtxInitialize] when they can and the
    transform context cannot.  It makes no outside call. *)
Theorem Initialize_Fail (mngr : option xmlSecKeysMngr) (s : state) :
  fst (xmlSecEncCtxInitialize E mngr s) = Fail ->
  ((xmlSecKeyInfoCtxInitialize_ok E = false /\
    new_log s (snd (xmlSecEncCtxInitialize E mngr s)) =
      [Report (mkError None (Some "xmlSecKeyInfoCtxInitialize")
                       XMLSEC_ERRORS_R_XMLSEC_FAILED XMLSEC_ERRORS_NO_MESSAGE [])])
   \/
   (xmlSecKeyInfoCtxInitialize_ok E = true /\
    xmlSecTransformCtxInitialize_ok E = false /\
    new_log s (snd (xmlSecEncCtxInitialize E mngr s)) =
      [Report (mkError None (Some "xmlSecTransformCtxInitialize")
                       XMLSEC_ERRORS_R_XMLSEC_FAILED XMLSEC_ERRORS_NO_MESSAGE [])])) /\
  trace (snd (xmlSecEncCtxInitialize E mngr s)) = trace s.
Proof.
  unfold xmlSecEncCtxInitialize, xmlSecKeyInfoCtxInitialize,
    xmlSecTransformCtxInitialize, checked, xmlSecError, upd_ctx, upd_tctx,
    bind, modify, ret, fail, new_log.
  destruct (xmlSecKeyInfoCtxInitialize_ok E), (xmlSecTransformCtxInitialize_ok E);
    cbn; intros H; try discriminate H.
  - split; [right|reflexivity].
    split; [reflexivity|]. split; [reflexivity|].
    rewrite skipn_app, skipn_all, Nat.sub_diag. reflexivity.
  - split; [left|reflexivity].
    split; [reflexivity|].
    rewrite skipn_app, skipn_all, Nat.sub_diag. reflexivity.
  - split; [left|reflexivity].
    split; [reflexivity|].
    rewrite skipn_app, skipn_all, Nat.sub_diag. reflexivity.
Qed.

Lemma Finalize_zero (s : state) :
  exists evs,
    xmlSecEncCtxFinalize s =
      (Ok tt, mkState zero_ctx (transforms s) (log s) (trace s ++ evs)).
Proof.
  destruct s as [c ts lg tr].
  destruct c as [md en i ty mt enc rc ckn emn kin cvn em dd ek kr kw tc er rp rb].
  unfold xmlSecEncCtxFinalize, free_attr, get_ctx, upd_ctx, emit, bind, get, modify, ret.
  destruct i, ty, mt, enc, rc, ckn, em, dd, ek; cbn;
    eexists; rewrite <- ?app_assoc; cbn; reflexivity.
Qed.

(** X4: [xmlSecEncCtxFinalize] always succeeds and leaves the all-zero
    context, the transform store and the log untouched; finalizing the same
    context again destroys no transform, no key and frees no string: only
    the embedded transform and key-info contexts are finalized once more. *)
Theorem Finalize_twice (s : state) :
  let s1 := snd (xmlSecEncCtxFinalize s) in
  fst (xmlSecEncCtxFinalize s) = Ok tt /\
  ctx s1 = zero_ctx /\ transforms s1 = transforms s /\ log s1 = log s /\
  fst (xmlSecEncCtxFinalize s1) = Ok tt /\
  new_events s1 (snd (xmlSecEncCtxFinalize s1)) =
    [EvTransformCtxFinalize []; EvKeyInfoCtxFinalize xmlSecKeyInfoModeRead;
     EvKeyInfoCtxFinalize xmlSecKeyInfoModeRead].
Proof.
  destruct (Finalize_zero s) as [evs H]. cbv zeta. rewrite H. cbn.
  repeat split.
  generalize (trace s ++ evs). intros l.
  rewrite <- !app_assoc, skipn_app, skipn_all, Nat.sub_diag. reflexivity.
Qed.

End WithEnv.

Import EncSamples MoreSamples.

Lemma single_use_witness :
  let op := Decrypt tmpl_value in
  let s := after_encrypt_own_method in
  encResult (ctx s) <> None /\
  (fst (run_op env_ok op s) = Fail /\
   ctx (snd (run_op env_ok op s)) = ctx s /\
   transforms (snd (run_op env_ok op s)) = transforms s /\
   trace (snd (run_op env_ok op s)) = trace s /\
   In (AssertFailed "ctx->encResult == NULL") (new_log s (snd (run_op env_ok op s)))).
Proof.
  cbv zeta.
  assert (H : encResult (ctx after_encrypt_own_method) <> None).
  { vm_compute. discriminate. }
  split; [exact H|].
  exact (single_use env_ok (Decrypt tmpl_value) after_encrypt_own_method H).
Defined.

Lemma Initialize_Ok_witness :
  let s' := initialized mngr_aes in
  xmlSecEncCtxInitialize env_ok (Some mngr_aes) blank = (Ok tt, s') /\
  (unread (ctx s') /\
   encMethod (ctx s') = None /\ encKey (ctx s') = None /\ encResult (ctx s') = None /\
   replaced (ctx s') = false /\ resultBase64Encoded (ctx s') = false /\
   dontDestroyEncMethod (ctx s') = false /\
   chain_of (ctx s') = [] /\ result (encTransformCtx (ctx s')) = None /\
   ki_mode (keyInfoReadCtx (ctx s')) = xmlSecKeyInfoModeRead /\
   keysMngr (keyInfoReadCtx (ctx s')) = Some mngr_aes /\
   ki_mode (keyInfoWriteCtx (ctx s')) = xmlSecKeyInfoModeWrite /\
   keysMngr (keyInfoWriteCtx (ctx s')) = Some mngr_aes /\
   keyType (keyReq (keyInfoWriteCtx (ctx s'))) = xmlSecKeyDataTypePublic /\
   transforms s' = transforms blank /\ log s' = log blank /\ trace s' = trace blank).
Proof.
  cbv zeta.
  assert (H : xmlSecEncCtxInitialize env_ok (Some mngr_aes) blank
              = (Ok tt, initialized mngr_aes)) by reflexivity.
  split; [exact H|].
  exact (Initialize_Ok env_ok (Some mngr_aes) blank (initialized mngr_aes) H).
Defined.

Lemma Initialize_Fail_witness :
  let r := xmlSecEncCtxInitialize env_init_fails (Some mngr_aes) blank in
  fst r = Fail /\
  ((xmlSecKeyInfoCtxInitialize_ok env_init_fails = false /\
    new_log blank (snd r) =
      [Report (mkError None (Some "xmlSecKeyInfoCtxInitialize")
                       XMLSEC_ERRORS_R_XMLSEC_FAILED XMLSEC_ERRORS_NO_MESSAGE [])])
   \/
   (xmlSecKeyInfoCtxInitialize_ok env_init_fails = true /\
    xmlSecTransformCtxInitialize_ok env_init_fails = false /\
    new_log blank (snd r) =
      [Report (mkError None (Some "xmlSecTransformCtxInitialize")
                       XMLSEC_ERRORS_R_XMLSEC_FAILED XMLSEC_ERRORS_NO_MESSAGE [])])) /\
  trace (snd r) = trace blank.
Proof.
  cbv zeta.
  assert (H : fst (xmlSecEncCtxInitialize env_init_fails (Some mngr_aes) blank) = Fail)
    by reflexivity.
  split; [exact H|].
  exact (Initialize_Fail env_init_fails (Some mngr_aes) blank H).
Defined.

End EncLifecycle.

(* ================================================================== *)
(** * What reading a template records *)
(* ================================================================== *)

Module EncTemplate.
Import XmlEnc EncLogic EncMoreDefs MonadFacts EncFacts EncLifecycle.

Lemma is_None_b_true {A} (o : option A) : is_None_b o = true -> o = None.
Proof. destruct o; [discriminate | reflexivity]. Qed.

Section WithEnv.
Variable E : env.

Lemma attributes_Ok_full node s s1 :
  EncDataNodeRead_attributes node s = (Ok tt, s1) ->
  (id_ (ctx s) = None /\ type_ (ctx s) = None /\ mimeType (ctx s) = None /\
   encoding (ctx s) = None /\ recipient (ctx s) = None /\
   carriedKeyName (ctx s) = None) /\
  s1 = mkState
         ((if mode_eqb (mode (ctx s)) xmlEncCtxModeEncryptedKey
           then set_recipient (xmlGetProp node xmlSecAttrRecipient)
           else fun c => c)
            (set_encoding (xmlGetProp node xmlSecAttrEncoding)
               (set_mimeType (xmlGetProp node xmlSecAttrMimeType)
                  (set_type_ (xmlGetProp node xmlSecAttrType)
                     (set_id_ (xmlGetProp node xmlSecAttrId) (ctx s))))))
         (transforms s) (log s) (trace s).
Proof.
  unfold EncDataNodeRead_attributes. intros H.
  step_ok H.
  step_ok H. apply is_None_b_true in Hm.
  step_ok H. apply is_None_b_true in Hm0.
  step_ok H. apply is_None_b_true in Hm1.
  step_ok H. apply is_None_b_true in Hm2.
  step_ok H. apply is_None_b_true in Hm3.
  step_ok H. apply is_None_b_true in Hm4.
  split; [auto 10|].
  unfold upd_ctx in H. do 4 step_ok H.
  destruct (mode_eqb (mode (ctx s)) xmlEncCtxModeEncryptedKey).
  - apply modify_inv in H. destruct H as [_ ->]. reflexivity.
  - apply ret_inv in H. destruct H as [_ ->]. destruct s; reflexivity.
Qed.

Lemma optional_child_state (name ns : string)
    (field : option xmlNode -> xmlSecEncCtx -> xmlSecEncCtx)
    (cur : list xmlNode) (s s' : state) (a : list xmlNode) :
  (match cur with
   | n :: rest =>
       if xmlSecCheckNodeName n name ns then
         upd_ctx (field (Some n)) ;; ret (xmlSecGetNextElementNode rest)
       else ret cur
   | [] => ret cur
   end) s = (Ok a, s') ->
  a = skip_optional name ns cur /\
  s' = match cur with
       | n :: _ =>
           if xmlSecCheckNodeName n name ns
           then mkState (field (Some n) (ctx s)) (transforms s) (log s) (trace s)
           else s
       | [] => s
       end.
Proof.
  intros H. unfold skip_optional. destruct cur as [|n rest].
  - apply ret_inv in H. destruct H as [H ->]. inversion H. auto.
  - destruct (xmlSecCheckNodeName n name ns).
    + unfold upd_ctx in H. step_ok H. apply ret_inv in H. destruct H as [H ->].
      inversion H. auto.
    + apply ret_inv in H. destruct H as [H ->]. inversion H. auto.
Qed.

Lemma children_Ok_nodes node s s' :
  EncDataNodeRead_children E node s = (Ok tt, s') ->
  encMethodNode (ctx s') = expected_encMethodNode node /\
  keyInfoNode (ctx s') = expected_keyInfoNode node /\
  trailing (mode (ctx s)) node = [] /\
  (mode (ctx s) = xmlEncCtxModeEncryptedData ->
   carriedKeyName (ctx s') = carriedKeyName (ctx s)).
Proof.
  unfold EncDataNodeRead_children. intros H.
  step_ok H. step_ok H. apply is_None_b_true in Hm.
  bind_ok H a1 s1 H1. apply optional_child_state in H1. destruct H1 as [-> Hs1].
  step_ok H. apply is_None_b_true in Hm0.
  bind_ok H a2 s2 H2. apply optional_child_state in H2. destruct H2 as [-> Hs2].
  fold (cipherData_cursor node) in *.
  bind_ok H a3 s3 H3.
  bind_ok H a4 s4 H4.
  destruct a4 as [|x xs].
  2: { unfold xmlSecError, bind, modify, fail in H. cbn in H. discriminate. }
  apply ret_inv in H. destruct H as [_ ->].
  frame_as F3m H3 (same encMethodNode) ltac:(pres_same encMethodNode).
  frame_as F3k H3 (same keyInfoNode) ltac:(pres_same keyInfoNode).
  frame_as F3c H3 (same carriedKeyName) ltac:(pres_same carriedKeyName).
  frame_as F4m H4 (same encMethodNode) ltac:(pres_same encMethodNode).
  frame_as F4k H4 (same keyInfoNode) ltac:(pres_same keyInfoNode).
  unfold same in *.
  assert (Hem : encMethodNode (ctx s2) = expected_encMethodNode node
                /\ keyInfoNode (ctx s2) = expected_keyInfoNode node
                /\ carriedKeyName (ctx s2) = carriedKeyName (ctx s)).
  { subst s2 s1. unfold expected_encMethodNode, expected_keyInfoNode.
    destruct (xmlSecGetNextElementNode (node_children node)) as [|n rest]; cbn.
    - auto.
    - destruct (xmlSecCheckNodeName n xmlSecNodeEncryptionMethod xmlSecEncNs) eqn:Hn; cbn.
      + destruct (xmlSecGetNextElementNode rest) as [|k rest']; cbn; [auto|].
        destruct (xmlSecCheckNodeName k xmlSecNodeKeyInfo xmlSecDSigNs); cbn; auto.
      + try rewrite Hn.
        destruct (xmlSecCheckNodeName n xmlSecNodeKeyInfo xmlSecDSigNs); cbn; auto. }
  destruct Hem as (Hem & Hki & Hck).
  split; [congruence|]. split; [congruence|].
  (* the cursor *)
  destruct (cipherData_cursor node) as [|cd rest] eqn:Hcur.
  { unfold xmlSecError, bind, modify, fail in H3. cbn in H3. discriminate. }
  destruct (xmlSecCheckNodeName cd xmlSecNodeCipherData xmlSecEncNs) eqn:Hcd.
  2: { unfold xmlSecError, bind, modify, fail in H3. cbn in H3. discriminate. }
  step_ok H3. apply ret_inv in H3. destruct H3 as [Ha3 Hs3]. inversion Ha3; subst a3.
  unfold trailing, after_cipherData. rewrite Hcur. cbn [List.tl].
  destruct (mode (ctx s)) eqn:Hmode; cbn [mode_eqb] in H4.
  - apply ret_inv in H4. destruct H4 as [Ha4 Hs4]. inversion Ha4.
    split; [reflexivity|]. intros _. subst. congruence.
  - split; [|discriminate].
    cbv zeta in H4.
    destruct (skip_optional xmlSecNodeReferenceList xmlSecEncNs
                (skip_optional xmlSecNodeEncryptionProperties xmlSecEncNs
                   (xmlSecGetNextElementNode rest))) as [|n rest2].
    + reflexivity.
    + cbn [skip_optional].
      destruct (xmlSecCheckNodeName n xmlSecNodeCarriedKeyName xmlSecEncNs).
      * step_ok H4. destruct (xmlNodeGetContent E n).
        -- apply ret_inv in H4. destruct H4 as [Ha4 _]. now inversion Ha4.
        -- unfold xmlSecError, bind, modify, fail in H4. cbn in H4. discriminate.
      * apply ret_inv in H4. destruct H4 as [Ha4 _]. inversion Ha4.
Qed.

Lemma EncDataNodeRead_Ok_keyInfoNode node s s' :
  xmlSecEncCtxEncDataNodeRead E node s = (Ok tt, s') ->
  keyInfoNode (ctx s') = expected_keyInfoNode node.
Proof.
  unfold xmlSecEncCtxEncDataNodeRead. intros H.
  bind_ok H u1 s1 H1. bind_ok H u2 s2 H2. destruct u1, u2.
  apply children_Ok_nodes in H2. destruct H2 as (_ & Hkn & _).
  frame_as F3 H (same keyInfoNode) ltac:(pres_same keyInfoNode).
  unfold same in F3. congruence.
Qed.

(** X5: what a successful [xmlSecEncCtxEncDataNodeRead] has recorded in the
    context: the Id, Type, MimeType and Encoding attributes of the element;
    its Recipient attribute in EncryptedKey mode only; the EncryptionMethod
    child if it is the first element child, and the KeyInfo child if it is
    the next one.  In EncryptedData mode neither [recipient] nor
    [carriedKeyName] is set.  The mode is not changed. *)
Theorem template_read_records (node : xmlNode) (s s' : state) :
  xmlSecEncCtxEncDataNodeRead E node s = (Ok tt, s') ->
  id_ (ctx s') = xmlGetProp node xmlSecAttrId /\
  type_ (ctx s') = xmlGetProp node xmlSecAttrType /\
  mimeType (ctx s') = xmlGetProp node xmlSecAttrMimeType /\
  encoding (ctx s') = xmlGetProp node xmlSecAttrEncoding /\
  recipient (ctx s') =
    (if mode_eqb (mode (ctx s)) xmlEncCtxModeEncryptedKey
     then xmlGetProp node xmlSecAttrRecipient else None) /\
  encMethodNode (ctx s') = expected_encMethodNode node /\
  keyInfoNode (ctx s') = expected_keyInfoNode node /\
  (mode (ctx s) = xmlEncCtxModeEncryptedData -> carriedKeyName (ctx s') = None) /\
  mode (ctx s') = mode (ctx s).
Proof.
  unfold xmlSecEncCtxEncDataNodeRead. intros H.
  bind_ok H u1 s1 H1. bind_ok H u2 s2 H2. destruct u1, u2.
  apply attributes_Ok_full in H1.
  destruct H1 as ((Hi & Ht & Hmt & He & Hr & Hc) & Hs1).
  pose proof (children_Ok_nodes _ _ _ H2) as (Hmn & Hkn & _ & Hck).
  frame_as F2 H2
    (same (fun c => (id_ c, type_ c, mimeType c, encoding c, recipient c, mode c)))
    ltac:(pres_same (fun c => (id_ c, type_ c, mimeType c, encoding c, recipient c, mode c))).
  frame_as F3 H
    (same (fun c => (id_ c, type_ c, mimeType c, encoding c, recipient c, mode c,
                     encMethodNode c, keyInfoNode c, carriedKeyName c)))
    ltac:(pres_same (fun c => (id_ c, type_ c, mimeType c, encoding c, recipient c,
                               mode c, encMethodNode c, keyInfoNode c,
                               carriedKeyName c))).
  unfold same in F2, F3. inversion F2. inversion F3.
  assert (Hmode : mode (ctx s1) = mode (ctx s)).
  { subst s1. destruct (mode_eqb (mode (ctx s)) xmlEncCtxModeEncryptedKey); reflexivity. }
  repeat match goal with H : _ (ctx s') = _ |- _ => rewrite H; clear H end.
  repeat match goal with H : _ (ctx s2) = _ (ctx s1) |- _ => rewrite H; clear H end.
  rewrite Hmn, Hkn, Hmode.
  repeat split.
  1-5: subst s1; destruct (mode_eqb (mode (ctx s)) xmlEncCtxModeEncryptedKey); cbn; auto.
  intros Hd. rewrite Hck by congruence.
  subst s1. destruct (mode_eqb (mode (ctx s)) xmlEncCtxModeEncryptedKey); cbn; auto.
Qed.

(** X6: an element child left after CipherData, the optional
    EncryptionProperties and (for EncryptedKey) the optional ReferenceList
    and CarriedKeyName makes the read fail, before an encryption method is
    instantiated and before a key is looked for: method and key of the
    context are as they were, and the only outside calls are those that set
    the URI of a CipherReference. *)
Theorem trailing_element_fails (node : xmlNode) (s : state) :
  trailing (mode (ctx s)) node <> [] ->
  fst (xmlSecEncCtxEncDataNodeRead E node s) = Fail /\
  encMethod (ctx (snd (xmlSecEncCtxEncDataNodeRead E node s))) = encMethod (ctx s) /\
  encKey (ctx (snd (xmlSecEncCtxEncDataNodeRead E node s))) = encKey (ctx s) /\
  forallb is_setUri (new_events s (snd (xmlSecEncCtxEncDataNodeRead E node s))) = true.
Proof.
  intros Htr. unfold xmlSecEncCtxEncDataNodeRead.
  assert (F1 : preserves (same (fun c => (encMethod c, encKey c, mode c)))
                 (EncDataNodeRead_attributes node))
    by (pres_same (fun c => (encMethod c, encKey c, mode c))).
  assert (G1 : preserves (extends is_setUri) (EncDataNodeRead_attributes node))
    by (pres_extends is_setUri).
  specialize (F1 s). specialize (G1 s).
  destruct (EncDataNodeRead_attributes node s) as [[[]|] s1] eqn:H1; cbn [snd] in F1, G1.
  2: { rewrite (bind_Fail _ _ _ _ H1). cbn [fst snd].
       unfold same in F1. inversion F1. destruct G1 as [evs [Ht Hf]].
       rewrite (new_events_app _ _ _ Ht). auto. }
  rewrite (bind_Ok _ _ _ _ _ H1).
  assert (F2 : preserves (same (fun c => (encMethod c, encKey c)))
                 (EncDataNodeRead_children E node))
    by (pres_same (fun c => (encMethod c, encKey c))).
  assert (G2 : preserves (extends is_setUri) (EncDataNodeRead_children E node))
    by (pres_extends is_setUri).
  specialize (F2 s1). specialize (G2 s1).
  unfold same in F1. inversion F1 as [[Fm Fk Fmode]].
  destruct (EncDataNodeRead_children E node s1) as [[[]|] s2] eqn:H2; cbn [snd] in F2, G2.
  { apply children_Ok_nodes in H2. destruct H2 as (_ & _ & Hx & _).
    rewrite Fmode in Hx. contradiction. }
  rewrite (bind_Fail _ _ _ _ H2). cbn [fst snd].
  unfold same in F2. inversion F2.
  destruct G1 as [evs1 [Ht1 Hf1]]. destruct G2 as [evs2 [Ht2 Hf2]].
  rewrite (new_events_app s s2 (evs1 ++ evs2)).
  - rewrite forallb_app, Hf1, Hf2. repeat split; congruence.
  - rewrite Ht2, Ht1. now rewrite app_assoc.
Qed.

(** *** The encryption method *)

Lemma encMethod_Ok_full s s' :
  EncDataNodeRead_encMethod E s = (Ok tt, s') ->
  exists p t req,
    encMethod (ctx s') = Some p /\ transform_at s' p = Some t /\
    tr_encode t = encrypt (ctx s) /\
    In p (chain_of (ctx s')) /\
    setKeyReq E t = Some req /\ keyReq (keyInfoReadCtx (ctx s')) = req /\
    match encMethod (ctx s) with
    | Some p0 =>
        p = p0 /\ dontDestroyEncMethod (ctx s') = true /\
        List.length (transforms s') = List.length (transforms s)
    | None =>
        dontDestroyEncMethod (ctx s') = dontDestroyEncMethod (ctx s) /\
        transforms s' = transforms s ++ [t] /\
        exists mnode,
          encMethodNode (ctx s) = Some mnode /\
          registry E mnode xmlSecTransformUsageEncryptionMethod = Some (tr_id t)
    end.
Proof.
  unfold EncDataNodeRead_encMethod. intros H.
  step_ok H. bind_ok H u1 s1 H1. step_ok H.
  destruct (encMethod (ctx s1)) as [p|] eqn:Hp1; [|discriminate].
  unfold upd_transform in H. step_ok H. step_ok H.
  apply checked_Ok_inv in H.
  unfold xmlSecTransformSetKeyReq, upd_ctx in H. step_ok H.
  match type of H with
  | context [transform_at ?st p] => destruct (transform_at st p) as [t|] eqn:Ht
  end; [|discriminate].
  destruct (setKeyReq E t) as [req|] eqn:Hreq; [|discriminate].
  apply modify_inv in H. destruct H as [_ ->].
  exists p, t, req. cbn.
  unfold transform_at in Ht. cbn in Ht.
  unfold transform_at. cbn.
  split; [exact Hp1|]. split; [exact Ht|].
  rewrite list_lookup_alter, decide_True in Ht by reflexivity.
  apply fmap_Some in Ht. destruct Ht as (t0 & Ht0 & ->).
  assert (Henc : encrypt (ctx s1) = encrypt (ctx s)).
  { frame_as F H1 (same encrypt) ltac:(pres_same encrypt). exact F. }
  split; [cbn; exact Henc|].
  destruct (encMethod (ctx s)) as [p0|] eqn:Hem.
  - bind_ok H1 q sq Hq. apply checked_Ok_inv in Hq.
    unfold upd_ctx in H1. apply modify_inv in H1. destruct H1 as [_ ->].
    unfold xmlSecTransformCtxAppend, upd_tctx, upd_ctx in Hq.
    apply modify_inv in Hq. destruct Hq as [_ ->].
    cbn in *. rewrite Hem in Hp1. inversion Hp1; subst p0.
    split; [unfold chain_of; cbn; apply in_or_app; right; now left|].
    split; [exact Hreq|]. split; [reflexivity|].
    split; [reflexivity|]. split; [reflexivity|].
    now rewrite length_alter.
  - destruct (encMethodNode (ctx s)) as [mnode|] eqn:Hmn.
    + bind_ok H1 q sq Hq. apply checked_Ok_inv in Hq.
      unfold upd_ctx in H1. apply modify_inv in H1. destruct H1 as [_ ->].
      unfold xmlSecTransformCtxNodeRead in Hq.
      destruct (registry E mnode xmlSecTransformUsageEncryptionMethod) as [id|] eqn:Hreg;
        [|discriminate].
      frame_as F Hq (same dontDestroyEncMethod) ltac:(pres_same dontDestroyEncMethod).
      apply CreateAndAppend_Ok in Hq. destruct Hq as (-> & Htr & Hc & _ & _).
      cbn in *. inversion Hp1; subst p.
      rewrite Htr in Ht0.
      rewrite (list_lookup_middle (transforms s) [] _ _ eq_refl) in Ht0.
      inversion Ht0; subst t0.
      split; [unfold chain_of; cbn; rewrite Hc; apply in_or_app; right; now left|].
      split; [exact Hreq|]. split; [reflexivity|].
      split; [exact F|].
      split.
      { rewrite Htr. rewrite <- (Nat.add_0_r (length (transforms s))) at 1.
        now rewrite alter_app_r. }
      exists mnode. split; [reflexivity|]. exact Hreg.
    + unfold xmlSecError, bind, modify, fail in H1. cbn in H1. discriminate.
Qed.

(** *** The key *)

Lemma key_Ok_full s s' :
  EncDataNodeRead_key E s = (Ok tt, s') ->
  exists p t k,
    encMethod (ctx s) = Some p /\ transform_at s p = Some t /\
    setKey_ok E t k = true /\
    xmlSecKeyMatch E k (keyReq (keyInfoReadCtx (ctx s))) = true /\
    ctx s' = set_encKey (Some k) (ctx s) /\
    transforms s' = transforms s /\ log s' = log s /\
    match encKey (ctx s) with
    | Some k0 =>
        k = k0 /\
        trace s' = trace s ++ [EvKeyMatch k (keyReq (keyInfoReadCtx (ctx s))) true;
                               EvSetKey p k]
    | None =>
        exists kn mngr hook,
          keyInfoNode (ctx s) = Some kn /\
          keysMngr (keyInfoReadCtx (ctx s)) = Some mngr /\
          getKey mngr = Some hook /\
          hook kn (keyReq (keyInfoReadCtx (ctx s))) = Some k /\
          trace s' = trace s ++ [EvGetKey kn (Some k);
                                 EvKeyMatch k (keyReq (keyInfoReadCtx (ctx s))) true;
                                 EvSetKey p k]
    end.
Proof.
  unfold EncDataNodeRead_key. intros H.
  step_ok H. bind_ok H u1 s1 H1. step_ok H. bind_ok H matched s2 H2.
  destruct matched; cbn [negb] in H.
  2: { unfold xmlSecError, bind, modify, fail in H. cbn in H. discriminate. }
  destruct (encKey (ctx s1)) as [k|] eqn:Hk1.
  2: { apply ret_inv in H2. destruct H2 as [H2 _]. discriminate. }
  unfold emit in H2. step_ok H2. apply ret_inv in H2. destruct H2 as [Hmatch ->].
  inversion Hmatch as [Hmatch']. clear Hmatch. rewrite Hmatch' in H.
  destruct (encMethod (ctx s1)) as [p|] eqn:Hp1; [|discriminate].
  step_ok H. apply checked_Ok_inv in H.
  unfold xmlSecTransformSetKey, emit in H. step_ok H.
  match type of H with
  | context [transform_at ?st p] => destruct (transform_at st p) as [t|] eqn:Ht
  end; [|discriminate].
  destruct (setKey_ok E t k) eqn:Hset; [|discriminate].
  apply modify_inv in H. destruct H as [_ ->].
  unfold transform_at in Ht. cbn in Ht.
  exists p, t, k. cbn.
  destruct (encKey (ctx s)) as [k0|] eqn:Hk.
  - apply ret_inv in H1. destruct H1 as [_ ->].
    rewrite Hk in Hk1. inversion Hk1; subst k0.
    repeat split; auto.
    + destruct s as [c ts lg tr]. destruct c. cbn in *. subst. reflexivity.
    + rewrite <- app_assoc. cbn. now rewrite <- Hmatch'.
  - destruct (keyInfoNode (ctx s)) as [kn|] eqn:Hkn.
    2: { apply ret_inv in H1. destruct H1 as [_ ->]. congruence. }
    destruct (keysMngr (keyInfoReadCtx (ctx s))) as [mngr|] eqn:Hmg.
    2: { apply ret_inv in H1. destruct H1 as [_ ->]. congruence. }
    destruct (getKey mngr) as [hook|] eqn:Hh.
    2: { apply ret_inv in H1. destruct H1 as [_ ->]. congruence. }
    unfold emit, upd_ctx in H1. step_ok H1.
    apply modify_inv in H1. destruct H1 as [_ ->].
    cbn in *. rewrite Hk1 in *.
    repeat split; auto.
    exists kn, mngr, hook. repeat split; auto.
    rewrite <- !app_assoc. cbn. now rewrite <- Hmatch'.
Qed.

Lemma base64_keeps_transforms s s' p t :
  EncDataNodeRead_base64 E s = (Ok tt, s') ->
  transform_at s p = Some t -> transform_at s' p = Some t.
Proof.
  unfold EncDataNodeRead_base64. intros H Ht. step_ok H.
  destruct (encrypt (ctx s) && is_Some_b (cipherValueNode (ctx s))).
  - bind_ok H q sq Hq. apply checked_Ok_inv in Hq.
    unfold upd_transform, upd_ctx in H. step_ok H.
    apply modify_inv in H. destruct H as [_ ->].
    apply CreateAndAppend_Ok in Hq. destruct Hq as (-> & Htr & _).
    unfold transform_at in *. cbn. rewrite Htr.
    rewrite <- (Nat.add_0_r (length (transforms s))) at 1.
    rewrite alter_app_r. now apply lookup_app_l_Some.
  - apply ret_inv in H. destruct H as [_ ->]. exact Ht.
Qed.

(** *** The five blocks of a successful read *)

Lemma EncDataNodeRead_stages node s s' :
  xmlSecEncCtxEncDataNodeRead E node s = (Ok tt, s') ->
  exists s1 s2 s3 s4,
    EncDataNodeRead_attributes node s = (Ok tt, s1) /\
    EncDataNodeRead_children E node s1 = (Ok tt, s2) /\
    EncDataNodeRead_encMethod E s2 = (Ok tt, s3) /\
    EncDataNodeRead_key E s3 = (Ok tt, s4) /\
    EncDataNodeRead_base64 E s4 = (Ok tt, s').
Proof.
  unfold xmlSecEncCtxEncDataNodeRead. intros H.
  bind_ok H u1 s1 H1. bind_ok H u2 s2 H2. bind_ok H u3 s3 H3.
  bind_ok H u4 s4 H4. bind_ok H u5 s5 H5.
  apply ret_inv in H. destruct H as [_ ->].
  destruct u1, u2, u3, u4, u5. eauto 10.
Qed.

(** X7: after a successful read the context has an encryption method, a
    live transform linked into the chain, that works in the direction of
    the context ([encode] = [ctx->encrypt]) and whose key requirements are
    those of the read context.  A method preset by the caller is the one
    used, and the context is flagged [dontDestroyEncMethod]; otherwise the
    method is the instance of the klass that the registry gives for the
    template's EncryptionMethod child, and the flag is untouched. *)
Theorem method_after_read (node : xmlNode) (s s' : state) :
  xmlSecEncCtxEncDataNodeRead E node s = (Ok tt, s') ->
  exists p t,
    encMethod (ctx s') = Some p /\ transform_at s' p = Some t /\
    tr_encode t = encrypt (ctx s) /\
    In p (chain_of (ctx s')) /\
    setKeyReq E t = Some (keyReq (keyInfoReadCtx (ctx s'))) /\
    match encMethod (ctx s) with
    | Some p0 => p = p0 /\ dontDestroyEncMethod (ctx s') = true
    | None =>
        dontDestroyEncMethod (ctx s') = dontDestroyEncMethod (ctx s) /\
        exists mnode,
          expected_encMethodNode node = Some mnode /\
          registry E mnode xmlSecTransformUsageEncryptionMethod = Some (tr_id t)
    end.
Proof.
  intros H. apply EncDataNodeRead_stages in H.
  destruct H as (s1 & s2 & s3 & s4 & H1 & H2 & H3 & H4 & H5).
  frame_as F1 H1 (same (fun c => (encMethod c, encrypt c, dontDestroyEncMethod c)))
    ltac:(pres_same (fun c => (encMethod c, encrypt c, dontDestroyEncMethod c))).
  frame_as F2 H2 (same (fun c => (encMethod c, encrypt c, dontDestroyEncMethod c)))
    ltac:(pres_same (fun c => (encMethod c, encrypt c, dontDestroyEncMethod c))).
  frame_as F5 H5 (same (fun c => (encMethod c, keyInfoReadCtx c, dontDestroyEncMethod c)))
    ltac:(pres_same (fun c => (encMethod c, keyInfoReadCtx c, dontDestroyEncMethod c))).
  unfold same in F1, F2, F5.
  injection F1 as F1m F1e F1d. injection F2 as F2m F2e F2d.
  injection F5 as F5m F5k F5d.
  apply children_Ok_nodes in H2. destruct H2 as (Hmn & _).
  apply encMethod_Ok_full in H3.
  destruct H3 as (p & t & req & Hp & Ht & Henc & Hin & Hreq & Hkr & Hsrc).
  apply key_Ok_full in H4.
  destruct H4 as (p' & t' & k & _ & _ & _ & _ & Hc4 & Ht4 & _).
  pose proof (base64_keeps_transforms s4 s' p t H5) as Hkeep.
  apply base64_Ok in H5.
  exists p, t.
  rewrite F5m, F5k, F5d, Hc4. cbn.
  split; [exact Hp|].
  split; [apply Hkeep; unfold transform_at in *; now rewrite Ht4|].
  split; [congruence|].
  split.
  { destruct (encrypt (ctx s4) && is_Some_b (cipherValueNode (ctx s4))).
    - destruct H5 as (q & t5 & Hch & _). rewrite Hch. apply in_or_app. left.
      unfold chain_of. rewrite Hc4. exact Hin.
    - subst s'. unfold chain_of. rewrite Hc4. exact Hin. }
  split; [congruence|].
  rewrite F2m, F1m in Hsrc.
  destruct (encMethod (ctx s)) as [p0|].
  - destruct Hsrc as (-> & Hd & _). auto.
  - destruct Hsrc as (Hd & _ & mnode & Hnode & Hreg).
    split; [congruence|]. exists mnode. split; [congruence | exact Hreg].
Qed.

(** X8: after a successful read the context holds a key that matches the
    key requirements of the read context and has been set on the
    encryption method.  A key preset by the caller is the one used, and the
    keys manager is not asked; otherwise the key is the one that the hook of
    the keys manager returned for the template's KeyInfo child under these
    requirements (so a template without KeyInfo, or a manager without hook,
    cannot be read without a preset key). *)
Theorem key_after_read (node : xmlNode) (s s' : state) :
  xmlSecEncCtxEncDataNodeRead E node s = (Ok tt, s') ->
  exists p k,
    encMethod (ctx s') = Some p /\ encKey (ctx s') = Some k /\
    xmlSecKeyMatch E k (keyReq (keyInfoReadCtx (ctx s'))) = true /\
    In (EvSetKey p k) (new_events s s') /\
    match encKey (ctx s) with
    | Some k0 =>
        k = k0 /\ forallb (fun e => negb (is_getKey e)) (new_events s s') = true
    | None =>
        exists kn mngr hook,
          expected_keyInfoNode node = Some kn /\
          keysMngr (keyInfoReadCtx (ctx s)) = Some mngr /\
          getKey mngr = Some hook /\
          hook kn (keyReq (keyInfoReadCtx (ctx s'))) = Some k /\
          In (EvGetKey kn (Some k)) (new_events s s')
    end.
Proof.
  intros H. apply EncDataNodeRead_stages in H.
  destruct H as (s1 & s2 & s3 & s4 & H1 & H2 & H3 & H4 & H5).
  assert (F13 : preserves
                  (same (fun c => (encKey c, keysMngr (keyInfoReadCtx c))))
                  (EncDataNodeRead_attributes node ;;
                   EncDataNodeRead_children E node ;;
                   EncDataNodeRead_encMethod E))
    by (pres_same (fun c => (encKey c, keysMngr (keyInfoReadCtx c)))).
  assert (G13 : preserves (extends (fun e => negb (is_getKey e)))
                  (EncDataNodeRead_attributes node ;;
                   EncDataNodeRead_children E node ;;
                   EncDataNodeRead_encMethod E))
    by (pres_extends (fun e => negb (is_getKey e))).
  specialize (F13 s). specialize (G13 s).
  rewrite (bind_Ok _ _ _ _ _ H1), (bind_Ok _ _ _ _ _ H2), H3 in F13, G13.
  cbn [snd] in F13, G13.
  frame_as F3k H3 (same keyInfoNode) ltac:(pres_same keyInfoNode).
  frame_as F5 H5 (same (fun c => (encMethod c, keyInfoReadCtx c, encKey c)))
    ltac:(pres_same (fun c => (encMethod c, keyInfoReadCtx c, encKey c))).
  frame_as G5 H5 (extends silent) ltac:(pres_extends silent).
  apply extends_silent in G5.
  unfold same in F13, F3k, F5.
  injection F13 as F13k F13m. injection F5 as F5m F5r F5k.
  destruct G13 as (evs & Ht3 & Hevs).
  apply children_Ok_nodes in H2. destruct H2 as (_ & Hkn & _).
  apply key_Ok_full in H4.
  destruct H4 as (p & t & k & Hp & _ & _ & Hmatch & Hc4 & _ & _ & Hsrc).
  exists p, k. rewrite F5m, F5r, F5k, Hc4. cbn.
  split; [exact Hp|]. split; [reflexivity|]. split; [exact Hmatch|].
  rewrite F13k in Hsrc.
  destruct (encKey (ctx s)) as [k0|].
  - destruct Hsrc as (-> & Ht4).
    rewrite (new_events_app s s' (evs ++ [EvKeyMatch k0 (keyReq (keyInfoReadCtx (ctx s3))) true;
                                          EvSetKey p k0])).
    2: { rewrite G5, Ht4, Ht3. now rewrite app_assoc. }
    split; [apply in_or_app; right; cbn; auto|].
    split; [reflexivity|]. rewrite forallb_app, Hevs. reflexivity.
  - destruct Hsrc as (kn & mngr & hook & Hk & Hmg & Hh & Hhook & Ht4).
    rewrite (new_events_app s s'
               (evs ++ [EvGetKey kn (Some k);
                        EvKeyMatch k (keyReq (keyInfoReadCtx (ctx s3))) true;
                        EvSetKey p k])).
    2: { rewrite G5, Ht4, Ht3. now rewrite app_assoc. }
    split; [apply in_or_app; right; cbn; auto|].
    exists kn, mngr, hook.
    split; [congruence|]. split; [congruence|]. split; [exact Hh|].
    split; [exact Hhook|]. apply in_or_app; right; cbn; auto.
Qed.

(** X9: without a preset method, a template whose first element child is
    not an EncryptionMethod cannot be read; when its attributes and children
    are well-formed, the read stops with the report INVALID_DATA
    "encryption method not specified", having changed nothing else. *)
Theorem no_method_fails (node : xmlNode) (s : state) :
  encMethod (ctx s) = None ->
  expected_encMethodNode node = None ->
  fst (xmlSecEncCtxEncDataNodeRead E node s) = Fail /\
  forall s1 s2,
    EncDataNodeRead_attributes node s = (Ok tt, s1) ->
    EncDataNodeRead_children E node s1 = (Ok tt, s2) ->
    xmlSecEncCtxEncDataNodeRead E node s =
      (Fail, mkState (ctx s2) (transforms s2)
                     (log s2 ++ [Report (mkError None None XMLSEC_ERRORS_R_INVALID_DATA
                                                 "encryption method not specified" [])])
                     (trace s2)).
Proof.
  intros Hem Hnode. split.
  - destruct (xmlSecEncCtxEncDataNodeRead E node s) as [[[]|] s'] eqn:H; [|reflexivity].
    apply EncDataNodeRead_stages in H.
    destruct H as (s1 & s2 & s3 & s4 & H1 & H2 & H3 & _).
    frame_as F1 H1 (same encMethod) ltac:(pres_same encMethod).
    frame_as F2 H2 (same encMethod) ltac:(pres_same encMethod).
    unfold same in F1, F2.
    apply children_Ok_nodes in H2. destruct H2 as (Hmn & _).
    apply encMethod_Ok_full in H3. destruct H3 as (p & t & req & _ & _ & _ & _ & _ & _ & H3).
    rewrite F2, F1, Hem in H3. destruct H3 as (_ & _ & mnode & Hx & _). congruence.
  - intros s1 s2 H1 H2. unfold xmlSecEncCtxEncDataNodeRead.
    rewrite (bind_Ok _ _ _ _ _ H1), (bind_Ok _ _ _ _ _ H2).
    frame_as F1 H1 (same encMethod) ltac:(pres_same encMethod).
    frame_as F2 H2 (same encMethod) ltac:(pres_same encMethod).
    apply children_Ok_nodes in H2. destruct H2 as (Hmn & _).
    unfold same in F1, F2.
    unfold EncDataNodeRead_encMethod, get_ctx, xmlSecError, bind, get, modify, ret, fail.
    cbn. rewrite F2, F1, Hem, Hmn, Hnode. reflexivity.
Qed.

(** *** The base64 decoder of a decryption *)

Lemma same_transforms_refl (s : state) : transforms s = transforms s.
Proof. reflexivity. Qed.

Lemma same_transforms_trans (a b c : state) :
  transforms b = transforms a -> transforms c = transforms b ->
  transforms c = transforms a.
Proof. congruence. Qed.

Lemma CreateAndPrepend_Ok id s p s' :
  xmlSecTransformCtxCreateAndPrepend E id s = (Ok p, s') ->
  p = List.length (transforms s) /\
  transforms s' = transforms s ++ [xmlSecTransformCreate id] /\
  chain_of (ctx s') = p :: chain_of (ctx s) /\
  resultBase64Encoded (ctx s') = resultBase64Encoded (ctx s).
Proof.
  unfold xmlSecTransformCtxCreateAndPrepend. intros H.
  destruct (xmlSecTransformCreate_ok E id); [|discriminate].
  unfold alloc, xmlSecTransformCtxPrepend, upd_tctx, upd_ctx, bind, get, modify, ret in H.
  cbn in H. inversion H; subst. cbn. auto.
Qed.

Lemma CipherDataNodeRead_decoder cd s s' :
  xmlSecEncCtxCipherDataNodeRead E cd s = (Ok tt, s') ->
  encrypt (ctx s) = false ->
  is_CipherValue (first_child cd) = true ->
  transforms s' = transforms s ++ [xmlSecTransformCreate xmlSecTransformBase64Id] /\
  chain_of (ctx s') = List.length (transforms s) :: chain_of (ctx s) /\
  resultBase64Encoded (ctx s') = resultBase64Encoded (ctx s).
Proof.
  unfold xmlSecEncCtxCipherDataNodeRead, first_child. intros H He Hv.
  step_ok H. step_ok H. bind_ok H cur s1 H1.
  destruct (xmlSecGetNextElementNode (node_children cd)) as [|n rest]; [discriminate|].
  cbn in Hv. rewrite Hv, He in H1. cbn [negb] in H1.
  bind_ok H1 u2 s2 H2. bind_ok H2 q sq Hq. apply checked_Ok_inv in Hq.
  apply ret_inv in H2. destruct H2 as [_ ->].
  unfold upd_ctx in H1. step_ok H1. apply ret_inv in H1. destruct H1 as [Hc ->].
  inversion Hc; subst cur.
  destruct (xmlSecGetNextElementNode rest).
  2: { unfold xmlSecError, bind, modify, fail in H. cbn in H. discriminate. }
  apply ret_inv in H. destruct H as [_ ->].
  apply CreateAndPrepend_Ok in Hq. destruct Hq as (-> & Htr & Hch & Hb).
  cbn. auto.
Qed.

Lemma children_decoder node s s' :
  EncDataNodeRead_children E node s = (Ok tt, s') ->
  encrypt (ctx s) = false ->
  holds_CipherValue node = true ->
  transforms s' = transforms s ++ [xmlSecTransformCreate xmlSecTransformBase64Id] /\
  chain_of (ctx s') = List.length (transforms s) :: chain_of (ctx s) /\
  resultBase64Encoded (ctx s') = resultBase64Encoded (ctx s).
Proof.
  unfold EncDataNodeRead_children. intros H He Hv.
  step_ok H. step_ok H.
  bind_ok H a1 s1 H1. apply optional_child_state in H1. destruct H1 as [-> Hs1].
  step_ok H.
  bind_ok H a2 s2 H2. apply optional_child_state in H2. destruct H2 as [-> Hs2].
  fold (cipherData_cursor node) in *.
  bind_ok H a3 s3 H3.
  match type of H with
  | ?m ?s0 = (_, ?s1) =>
      assert (Fc : preserves (same (fun c => (chain_of c, resultBase64Encoded c))) m)
        by (pres_same (fun c => (chain_of c, resultBase64Encoded c)));
      assert (Ft : preserves (fun s s' => transforms s' = transforms s) m)
        by (unfold_funs;
            pres_with same_transforms_refl same_transforms_trans ltac:(cbn; reflexivity));
      specialize (Fc s0); specialize (Ft s0); rewrite H in Fc, Ft; cbn [snd] in Fc, Ft
  end.
  unfold same in Fc. injection Fc as Fc Fb.
  assert (H12 : transforms s2 = transforms s /\ chain_of (ctx s2) = chain_of (ctx s)
                /\ resultBase64Encoded (ctx s2) = resultBase64Encoded (ctx s)
                /\ encrypt (ctx s2) = encrypt (ctx s)).
  { subst s2 s1.
    repeat match goal with
           | |- context [match ?x with _ => _ end] => destruct x; cbn
           end; auto. }
  destruct H12 as (Ht12 & Hc12 & Hb12 & He12).
  unfold holds_CipherValue, cipherData_child in Hv.
  destruct (cipherData_cursor node) as [|cd rest]; [discriminate|].
  destruct (xmlSecCheckNodeName cd xmlSecNodeCipherData xmlSecEncNs); [|discriminate].
  bind_ok H3 u3 sc Hcd. apply checked_Ok_inv in Hcd. destruct u3.
  apply ret_inv in H3. destruct H3 as [_ ->].
  apply CipherDataNodeRead_decoder in Hcd; [|congruence|exact Hv].
  destruct Hcd as (Ht3 & Hc3 & Hb3).
  rewrite Ft, Fc, Fb, Ht3, Hc3, Hb3, Ht12, Hc12, Hb12. auto.
Qed.

Lemma encMethod_keeps s s' q t :
  EncDataNodeRead_encMethod E s = (Ok tt, s') ->
  transform_at s q = Some t ->
  exists t', transform_at s' q = Some t' /\ tr_id t' = tr_id t /\
             (tr_encode t' = tr_encode t \/ tr_encode t' = encrypt (ctx s)).
Proof.
  unfold EncDataNodeRead_encMethod. intros H Hq.
  step_ok H. bind_ok H u1 s1 H1. step_ok H.
  destruct (encMethod (ctx s1)) as [p|] eqn:Hp1; [|discriminate].
  unfold upd_transform in H. step_ok H.
  match type of H with
  | ?m ?s0 = (_, ?s1) =>
      assert (Ft : preserves (fun s s' => transforms s' = transforms s) m)
        by (pres_with same_transforms_refl same_transforms_trans ltac:(cbn; reflexivity));
      specialize (Ft s0); rewrite H in Ft; cbn [snd] in Ft
  end.
  cbn in Ft.
  assert (Hq1 : transform_at s1 q = Some t /\ encrypt (ctx s1) = encrypt (ctx s)).
  { frame_as Fe H1 (same encrypt) ltac:(pres_same encrypt).
    split; [|exact Fe].
    destruct (encMethod (ctx s)) as [p0|].
    - frame_as F1 H1 (fun s s' : state => transforms s' = transforms s)
        ltac:(pres_with same_transforms_refl same_transforms_trans ltac:(cbn; reflexivity)).
      unfold transform_at. now rewrite F1.
    - destruct (encMethodNode (ctx s)) as [mnode|].
      + bind_ok H1 p' sq Hp'. apply checked_Ok_inv in Hp'.
        unfold upd_ctx in H1. apply modify_inv in H1. destruct H1 as [_ ->].
        unfold xmlSecTransformCtxNodeRead in Hp'.
        destruct (registry E mnode xmlSecTransformUsageEncryptionMethod); [|discriminate].
        apply CreateAndAppend_Ok in Hp'. destruct Hp' as (_ & Htr & _).
        unfold transform_at in *. cbn. rewrite Htr. now apply lookup_app_l_Some.
      + unfold xmlSecError, bind, modify, fail in H1. cbn in H1. discriminate. }
  destruct Hq1 as [Hq1 He1].
  unfold transform_at, xmlSecTransformPtr in *. rewrite Ft.
  rewrite list_lookup_alter.
  destruct (decide (p = q)) as [Heq|Hne];
    [subst p; try rewrite decide_True by reflexivity
    | try rewrite decide_False by exact Hne].
  - rewrite Hq1. cbn. eexists. split; [reflexivity|]. cbn. auto.
  - rewrite Hq1. eauto.
Qed.

(** X10: after a successful read on a decrypt-mode context whose template
    holds a CipherValue, the first transform of the chain is a base64
    decoder ([encode] = 0), put in front of whatever the chain held; the
    flag [resultBase64Encoded] is not touched. *)
Theorem decoder_first (node : xmlNode) (s s' : state) :
  xmlSecEncCtxEncDataNodeRead E node s = (Ok tt, s') ->
  encrypt (ctx s) = false ->
  holds_CipherValue node = true ->
  exists q t rest,
    chain_of (ctx s') = q :: chain_of (ctx s) ++ rest /\
    transform_at s' q = Some t /\
    tr_id t = xmlSecTransformBase64Id /\ tr_encode t = false /\
    resultBase64Encoded (ctx s') = resultBase64Encoded (ctx s).
Proof.
  intros H He Hv. apply EncDataNodeRead_stages in H.
  destruct H as (s1 & s2 & s3 & s4 & H1 & H2 & H3 & H4 & H5).
  apply attributes_Ok_type in H1.
  destruct H1 as (_ & _ & _ & Ht1 & He1 & _ & _ & Hc1 & Hb1).
  frame_as Fe2 H2 (same encrypt) ltac:(pres_same encrypt).
  frame_as Fe3 H3 (same (fun c => (encrypt c, resultBase64Encoded c)))
    ltac:(pres_same (fun c => (encrypt c, resultBase64Encoded c))).
  unfold same in Fe2, Fe3. injection Fe3 as Fe3 Fb3.
  apply children_decoder in H2; [|congruence|exact Hv].
  destruct H2 as (Ht2 & Hc2 & Hb2).
  assert (Hq : transform_at s2 (List.length (transforms s1))
               = Some (xmlSecTransformCreate xmlSecTransformBase64Id)).
  { unfold transform_at. rewrite Ht2.
    apply (list_lookup_middle (transforms s1) [] _ _ eq_refl). }
  destruct (encMethod_keeps _ _ _ _ H3 Hq) as (t' & Ht' & Hid & Henc).
  apply encMethod_Ok in H3. destruct H3 as (p & _ & Hc3).
  apply key_Ok_full in H4.
  destruct H4 as (p' & t4 & k & _ & _ & _ & _ & Hc4 & Ht4 & _).
  apply base64_Ok in H5.
  assert (He4 : encrypt (ctx s4) = false).
  { rewrite Hc4. cbn. congruence. }
  rewrite He4 in H5. cbn in H5. subst s'.
  exists (List.length (transforms s1)), t', [p].
  split.
  { unfold chain_of in *. rewrite Hc4. cbn. rewrite Hc3, Hc2, Hc1. reflexivity. }
  split; [unfold transform_at in *; now rewrite Ht4|].
  split; [exact Hid|].
  split; [destruct Henc as [-> | ->]; [reflexivity | congruence]|].
  rewrite Hc4. cbn. congruence.
Qed.

(** *** The chain of an encryption *)

Lemma CipherDataNodeRead_encrypt cd s s' :
  xmlSecEncCtxCipherDataNodeRead E cd s = (Ok tt, s') ->
  encrypt (ctx s) = true ->
  transforms s' = transforms s /\ encTransformCtx (ctx s') = encTransformCtx (ctx s) /\
  trace s' = trace s.
Proof.
  unfold xmlSecEncCtxCipherDataNodeRead. intros H He.
  step_ok H. step_ok H. bind_ok H cur s1 H1.
  assert (Hs1 : transforms s1 = transforms s /\
                encTransformCtx (ctx s1) = encTransformCtx (ctx s) /\
                trace s1 = trace s).
  { rewrite He in H1. cbn [negb] in H1.
    destruct (xmlSecGetNextElementNode (node_children cd)) as [|n rest].
    - apply ret_inv in H1. destruct H1 as [_ ->]. auto.
    - destruct (xmlSecCheckNodeName n xmlSecNodeCipherValue xmlSecEncNs).
      + bind_ok H1 u2 s2 H2. apply ret_inv in H2. destruct H2 as [_ ->].
        unfold upd_ctx in H1. bind_ok H1 u3 s3 H3.
        apply modify_inv in H3. destruct H3 as [_ ->].
        apply ret_inv in H1. destruct H1 as [_ ->]. auto.
      + destruct (xmlSecCheckNodeName n xmlSecNodeCipherReference xmlSecEncNs).
        * bind_ok H1 u2 s2 H2. apply ret_inv in H2. destruct H2 as [_ ->].
          apply ret_inv in H1. destruct H1 as [_ ->]. auto.
        * apply ret_inv in H1. destruct H1 as [_ ->]. auto. }
  destruct cur.
  - apply ret_inv in H. destruct H as [_ ->]. exact Hs1.
  - unfold xmlSecError, bind, modify, fail in H. cbn in H. discriminate.
Qed.

Lemma children_encrypt node s s' :
  EncDataNodeRead_children E node s = (Ok tt, s') ->
  encrypt (ctx s) = true ->
  transforms s' = transforms s /\ encTransformCtx (ctx s') = encTransformCtx (ctx s) /\
  trace s' = trace s.
Proof.
  unfold EncDataNodeRead_children. intros H He.
  step_ok H. step_ok H.
  bind_ok H a1 s1 H1. apply optional_child_state in H1. destruct H1 as [-> Hs1].
  step_ok H.
  bind_ok H a2 s2 H2. apply optional_child_state in H2. destruct H2 as [-> Hs2].
  fold (cipherData_cursor node) in *.
  bind_ok H a3 s3 H3.
  match type of H with
  | ?m ?s0 = (_, ?s1) =>
      assert (Fc : preserves (same encTransformCtx) m) by (pres_same encTransformCtx);
      assert (Ft : preserves (fun s s' => transforms s' = transforms s) m)
        by (unfold_funs;
            pres_with same_transforms_refl same_transforms_trans ltac:(cbn; reflexivity));
      assert (Fe : preserves (extends silent) m) by (pres_extends silent);
      specialize (Fc s0); specialize (Ft s0); specialize (Fe s0);
      rewrite H in Fc, Ft, Fe; cbn [snd] in Fc, Ft, Fe
  end.
  unfold same in Fc. apply extends_silent in Fe.
  assert (H12 : transforms s2 = transforms s /\
                encTransformCtx (ctx s2) = encTransformCtx (ctx s) /\
                trace s2 = trace s /\ encrypt (ctx s2) = encrypt (ctx s)).
  { subst s2 s1.
    repeat match goal with
           | |- context [match ?x with _ => _ end] => destruct x; cbn
           end; auto. }
  destruct H12 as (Ht12 & Hc12 & Hr12 & He12).
  destruct (cipherData_cursor node) as [|cd rest].
  { unfold xmlSecError, bind, modify, fail in H3. cbn in H3. discriminate. }
  destruct (xmlSecCheckNodeName cd xmlSecNodeCipherData xmlSecEncNs).
  2: { unfold xmlSecError, bind, modify, fail in H3. cbn in H3. discriminate. }
  bind_ok H3 u3 sc Hcd. apply checked_Ok_inv in Hcd. destruct u3.
  apply ret_inv in H3. destruct H3 as [_ ->].
  apply CipherDataNodeRead_encrypt in Hcd; [|congruence].
  destruct Hcd as (Ht3 & Hc3 & Hr3).
  rewrite Ft, Fc, Fe, Ht3, Hc3, Hr3. auto.
Qed.

Lemma EncDataNodeRead_encrypt_parts (node : xmlNode) (s s' : state) :
  xmlSecEncCtxEncDataNodeRead E node s = (Ok tt, s') ->
  encrypt (ctx s) = true ->
  exists p s4,
    encMethod (ctx s4) = Some p /\
    uri (encTransformCtx (ctx s4)) = uri (encTransformCtx (ctx s)) /\
    chain_of (ctx s4) = chain_of (ctx s) ++ [p] /\
    EncDataNodeRead_base64 E s4 = (Ok tt, s') /\
    encrypt (ctx s4) && is_Some_b (cipherValueNode (ctx s4)) = holds_CipherValue node.
Proof.
  intros H He. apply EncDataNodeRead_stages in H.
  destruct H as (s1 & s2 & s3 & s4 & H1 & H2 & H3 & H4 & H5).
  apply attributes_Ok_type in H1.
  destruct H1 as (_ & _ & _ & _ & He1 & _ & _ & Hc1 & _).
  pose proof (children_Ok E _ _ _ H2) as (Hcv & _).
  frame_as Fe2 H2 (same encrypt) ltac:(pres_same encrypt). unfold same in Fe2.
  apply children_encrypt in H2; [|congruence].
  destruct H2 as (_ & Hc2 & _).
  frame_as F3 H3 (same (fun c => (uri (encTransformCtx c), cipherValueNode c, encrypt c)))
    ltac:(pres_same (fun c => (uri (encTransformCtx c), cipherValueNode c, encrypt c))).
  unfold same in F3. injection F3 as F3u F3c F3e.
  apply encMethod_Ok in H3. destruct H3 as (p & Hp & Hch3).
  apply key_Ok_full in H4.
  destruct H4 as (p' & t4 & k & _ & _ & _ & _ & Hc4 & _).
  exists p, s4.
  split; [rewrite Hc4; exact Hp|].
  split; [rewrite Hc4; cbn; rewrite F3u, Hc2, Hc1; reflexivity|].
  split.
  { unfold chain_of in *. rewrite Hc4. cbn. rewrite Hch3, Hc2, Hc1. reflexivity. }
  split; [exact H5|].
  rewrite Hc4. cbn. rewrite F3e, F3c, Hcv.
  replace (encrypt (ctx s2)) with true by congruence. reflexivity.
Qed.

(** X17: the chain that a successful read leaves on an encrypt-mode
    context is the chain it found, followed by the encryption method and,
    exactly when the template holds a CipherValue, by one more transform
    (the base64 encoder); nothing is put in front and the URI of the chain
    is not touched. *)
Theorem encrypt_chain_shape (node : xmlNode) (s s' : state) :
  xmlSecEncCtxEncDataNodeRead E node s = (Ok tt, s') ->
  encrypt (ctx s) = true ->
  exists p,
    encMethod (ctx s') = Some p /\
    uri (encTransformCtx (ctx s')) = uri (encTransformCtx (ctx s)) /\
    if holds_CipherValue node
    then exists q, chain_of (ctx s') = chain_of (ctx s) ++ [p; q] /\
                   resultBase64Encoded (ctx s') = true
    else chain_of (ctx s') = chain_of (ctx s) ++ [p].
Proof.
  intros H He.
  destruct (EncDataNodeRead_encrypt_parts node s s' H He)
    as (p & s4 & Hm4 & Hu4 & Hch4 & H5 & Hcond).
  frame_as F5 H5 (same (fun c => (uri (encTransformCtx c), encMethod c)))
    ltac:(pres_same (fun c => (uri (encTransformCtx c), encMethod c))).
  unfold same in F5. injection F5 as F5u F5m.
  apply base64_Ok in H5. rewrite Hcond in H5.
  exists p.
  destruct (holds_CipherValue node).
  - destruct H5 as (q & t & Hch & _ & _ & _ & Hrb).
    split; [congruence|]. split; [congruence|].
    exists q. split; [|exact Hrb].
    rewrite Hch, Hch4, <- app_assoc. reflexivity.
  - subst s'. auto.
Qed.

Lemma EncDataNodeRead_encrypt_keeps node s s' q t :
  xmlSecEncCtxEncDataNodeRead E node s = (Ok tt, s') ->
  encrypt (ctx s) = true ->
  transform_at s q = Some t ->
  exists t', transform_at s' q = Some t' /\ tr_id t' = tr_id t.
Proof.
  intros H He Hq. apply EncDataNodeRead_stages in H.
  destruct H as (s1 & s2 & s3 & s4 & H1 & H2 & H3 & H4 & H5).
  apply attributes_Ok_type in H1.
  destruct H1 as (_ & _ & _ & Ht1 & He1 & _).
  apply children_encrypt in H2; [|congruence].
  destruct H2 as (Ht2 & _).
  assert (Hq2 : transform_at s2 q = Some t).
  { unfold transform_at in *. now rewrite Ht2, Ht1. }
  destruct (encMethod_keeps _ _ _ _ H3 Hq2) as (t' & Ht' & Hid & _).
  apply key_Ok_full in H4.
  destruct H4 as (p' & t4 & k & _ & _ & _ & _ & _ & Ht4 & _).
  exists t'. split; [|exact Hid].
  apply (base64_keeps_transforms s4 s' q t' H5).
  unfold transform_at in *. now rewrite Ht4.
Qed.

(** *** The CipherReference of a decryption *)

Lemma nodesListRead_Ok usage (cur : list xmlNode) : forall s s',
  nodesListRead_from E cur usage s = (Ok tt, s') ->
  exists ids,
    Forall2 (fun n id => registry E n usage = Some id) (List.filter is_element cur) ids /\
    transforms s' = transforms s ++ map xmlSecTransformCreate ids /\
    chain_of (ctx s') = chain_of (ctx s) ++ seq (List.length (transforms s)) (List.length ids) /\
    uri (encTransformCtx (ctx s')) = uri (encTransformCtx (ctx s)) /\
    trace s' = trace s.
Proof.
  induction cur as [|n rest IH]; intros s s' H.
  - apply ret_inv in H. destruct H as [_ ->]. exists []. cbn.
    rewrite !app_nil_r. auto.
  - cbn [nodesListRead_from] in H. cbn [List.filter]. unfold is_element at 1.
    destruct (node_type n).
    + bind_ok H p s1 H1. unfold xmlSecTransformCtxNodeRead in H1.
      destruct (registry E n usage) as [id|] eqn:Hreg; [|discriminate].
      frame_as Fu H1 (same (fun c => uri (encTransformCtx c)))
        ltac:(pres_same (fun c => uri (encTransformCtx c))).
      frame_as Fe H1 (extends silent) ltac:(pres_extends silent).
      apply extends_silent in Fe. unfold same in Fu.
      apply CreateAndAppend_Ok in H1. destruct H1 as (-> & Htr & Hch & _).
      apply IH in H. destruct H as (ids & Hall & Htr' & Hch' & Hu' & Ht').
      exists (id :: ids). split; [constructor; assumption|].
      split; [rewrite Htr', Htr, <- app_assoc; reflexivity|].
      split.
      { rewrite Hch'. unfold chain_of. rewrite Hch, Htr, length_app. cbn.
        rewrite <- app_assoc. cbn. now rewrite Nat.add_1_r. }
      split; congruence.
    + apply IH in H. exact H.
    + apply IH in H. exact H.
Qed.

(** X20: what a successful [xmlSecEncCtxCipherReferenceNodeRead] has done
    to the chain.  If the CipherReference has a URI attribute, the source
    transform that the URI calls for is put at the head of the chain and
    the URI is recorded; without the attribute nothing is put there and no
    URI is set.  After the transforms already in the chain, one transform
    per element child of the Transforms child is appended, in document
    order, each an instance of the klass the registry gives for that child
    as a DSig transform. *)
Theorem cipher_reference_read (node : xmlNode) (s s' : state) :
  xmlSecEncCtxCipherReferenceNodeRead E node s = (Ok tt, s') ->
  exists ids,
    Forall2 (fun n id => registry E n xmlSecTransformUsageDSigTransform = Some id)
            (reference_transforms node) ids /\
    match xmlGetProp node xmlSecAttrURI with
    | Some u =>
        exists id0,
          uriSource E u node = Some id0 /\
          transforms s' = transforms s ++ map xmlSecTransformCreate (id0 :: ids) /\
          chain_of (ctx s') =
            List.length (transforms s) :: chain_of (ctx s)
              ++ seq (S (List.length (transforms s))) (List.length ids) /\
          uri (encTransformCtx (ctx s')) = Some u /\
          new_events s s' = [EvSetUri u node]
    | None =>
        transforms s' = transforms s ++ map xmlSecTransformCreate ids /\
        chain_of (ctx s') =
          chain_of (ctx s) ++ seq (List.length (transforms s)) (List.length ids) /\
        uri (encTransformCtx (ctx s')) = uri (encTransformCtx (ctx s)) /\
        new_events s s' = []
    end.
Proof.
  unfold xmlSecEncCtxCipherReferenceNodeRead, reference_transforms. intros H.
  bind_ok H u1 s1 H1. bind_ok H cur s2 H2.
  destruct cur as [|x xs].
  2: { unfold xmlSecError, bind, modify, fail in H. cbn in H. discriminate. }
  apply ret_inv in H. destruct H as [_ ->].
  assert (Hlist : exists ids,
            Forall2 (fun n id => registry E n xmlSecTransformUsageDSigTransform = Some id)
              (match xmlSecGetNextElementNode (node_children node) with
               | n :: _ =>
                   if xmlSecCheckNodeName n xmlSecNodeTransforms xmlSecEncNs
                   then List.filter is_element (node_children n) else []
               | [] => []
               end) ids /\
            transforms s2 = transforms s1 ++ map xmlSecTransformCreate ids /\
            chain_of (ctx s2) =
              chain_of (ctx s1) ++ seq (List.length (transforms s1)) (List.length ids) /\
            uri (encTransformCtx (ctx s2)) = uri (encTransformCtx (ctx s1)) /\
            trace s2 = trace s1).
  { destruct (xmlSecGetNextElementNode (node_children node)) as [|n rest].
    - apply ret_inv in H2. destruct H2 as [_ ->]. exists []. cbn.
      rewrite !app_nil_r. auto using Forall2_nil.
    - destruct (xmlSecCheckNodeName n xmlSecNodeTransforms xmlSecEncNs).
      + step_ok H2. bind_ok H2 u3 s3 H3. apply checked_Ok_inv in H3.
        apply ret_inv in H2. destruct H2 as [_ ->]. destruct u3.
        unfold xmlSecTransformCtxNodesListRead in H3.
        now apply nodesListRead_Ok in H3.
      + apply ret_inv in H2. destruct H2 as [_ ->]. exists []. cbn.
        rewrite !app_nil_r. auto using Forall2_nil. }
  destruct Hlist as (ids & Hall & Htr2 & Hch2 & Hu2 & Ht2).
  exists ids. split; [exact Hall|].
  destruct (xmlGetProp node xmlSecAttrURI) as [u|].
  - apply checked_Ok_inv in H1.
    unfold xmlSecTransformCtxSetUri in H1.
    destruct (uriSource E u node) as [id0|]; [|discriminate].
    unfold alloc, xmlSecTransformCtxPrepend, upd_tctx, upd_ctx, emit, bind, get, modify,
      ret in H1.
    cbn in H1. inversion H1; subst s1. clear H1.
    cbn in Htr2, Hch2, Hu2, Ht2. unfold chain_of in *. cbn in Hch2.
    exists id0. split; [reflexivity|].
    split; [rewrite Htr2, <- app_assoc; reflexivity|].
    split.
    { rewrite Hch2, length_app. cbn. now rewrite Nat.add_1_r. }
    split; [exact Hu2|]. now apply new_events_app.
  - apply ret_inv in H1. destruct H1 as [_ ->].
    split; [exact Htr2|]. split; [exact Hch2|]. split; [exact Hu2|].
    apply new_events_app. now rewrite app_nil_r.
Qed.

End WithEnv.

Import EncSamples MoreSamples.

Lemma template_read_records_witness :
  let node := tmpl_value in
  let s := encrypting (initialized mngr_aes) in
  let s' := snd (xmlSecEncCtxEncDataNodeRead env_ok node s) in
  xmlSecEncCtxEncDataNodeRead env_ok node s = (Ok tt, s') /\
  (id_ (ctx s') = xmlGetProp node xmlSecAttrId /\
   type_ (ctx s') = xmlGetProp node xmlSecAttrType /\
   mimeType (ctx s') = xmlGetProp node xmlSecAttrMimeType /\
   encoding (ctx s') = xmlGetProp node xmlSecAttrEncoding /\
   recipient (ctx s') =
     (if mode_eqb (mode (ctx s)) xmlEncCtxModeEncryptedKey
      then xmlGetProp node xmlSecAttrRecipient else None) /\
   encMethodNode (ctx s') = expected_encMethodNode node /\
   keyInfoNode (ctx s') = expected_keyInfoNode node /\
   (mode (ctx s) = xmlEncCtxModeEncryptedData -> carriedKeyName (ctx s') = None) /\
   mode (ctx s') = mode (ctx s)).
Proof.
  cbv zeta.
  assert (H : xmlSecEncCtxEncDataNodeRead env_ok tmpl_value (encrypting (initialized mngr_aes))
              = (Ok tt, snd (xmlSecEncCtxEncDataNodeRead env_ok tmpl_value
                               (encrypting (initialized mngr_aes))))).
  { vm_compute. reflexivity. }
  split; [exact H|].
  exact (template_read_records env_ok tmpl_value _ _ H).
Defined.

Lemma trailing_element_fails_witness :
  let node := tmpl_trailing in
  let s := encrypting (initialized mngr_aes) in
  trailing (mode (ctx s)) node <> [] /\
  (fst (xmlSecEncCtxEncDataNodeRead env_ok node s) = Fail /\
   encMethod (ctx (snd (xmlSecEncCtxEncDataNodeRead env_ok node s))) = encMethod (ctx s) /\
   encKey (ctx (snd (xmlSecEncCtxEncDataNodeRead env_ok node s))) = encKey (ctx s) /\
   forallb is_setUri (new_events s (snd (xmlSecEncCtxEncDataNodeRead env_ok node s)))
   = true).
Proof.
  cbv zeta.
  assert (H : trailing (mode (ctx (encrypting (initialized mngr_aes)))) tmpl_trailing <> []).
  { vm_compute. discriminate. }
  split; [exact H|].
  exact (trailing_element_fails env_ok tmpl_trailing _ H).
Defined.

Lemma method_after_read_witness :
  let node := tmpl_value in
  let s := encrypting (initialized mngr_aes) in
  let s' := snd (xmlSecEncCtxEncDataNodeRead env_ok node s) in
  xmlSecEncCtxEncDataNodeRead env_ok node s = (Ok tt, s') /\
  exists p t,
    encMethod (ctx s') = Some p /\ transform_at s' p = Some t /\
    tr_encode t = encrypt (ctx s) /\
    In p (chain_of (ctx s')) /\
    setKeyReq env_ok t = Some (keyReq (keyInfoReadCtx (ctx s'))) /\
    match encMethod (ctx s) with
    | Some p0 => p = p0 /\ dontDestroyEncMethod (ctx s') = true
    | None =>
        dontDestroyEncMethod (ctx s') = dontDestroyEncMethod (ctx s) /\
        exists mnode,
          expected_encMethodNode node = Some mnode /\
          registry env_ok mnode xmlSecTransformUsageEncryptionMethod = Some (tr_id t)
    end.
Proof.
  cbv zeta.
  assert (H : xmlSecEncCtxEncDataNodeRead env_ok tmpl_value (encrypting (initialized mngr_aes))
              = (Ok tt, snd (xmlSecEncCtxEncDataNodeRead env_ok tmpl_value
                               (encrypting (initialized mngr_aes))))).
  { vm_compute. reflexivity. }
  split; [exact H|].
  exact (method_after_read env_ok tmpl_value _ _ H).
Defined.

Lemma key_after_read_witness :
  let node := tmpl_value in
  let s := encrypting (initialized mngr_aes) in
  let s' := snd (xmlSecEncCtxEncDataNodeRead env_ok node s) in
  xmlSecEncCtxEncDataNodeRead env_ok node s = (Ok tt, s') /\
  exists p k,
    encMethod (ctx s') = Some p /\ encKey (ctx s') = Some k /\
    xmlSecKeyMatch env_ok k (keyReq (keyInfoReadCtx (ctx s'))) = true /\
    In (EvSetKey p k) (new_events s s') /\
    match encKey (ctx s) with
    | Some k0 =>
        k = k0 /\ forallb (fun e => negb (is_getKey e)) (new_events s s') = true
    | None =>
        exists kn mngr hook,
          expected_keyInfoNode node = Some kn /\
          keysMngr (keyInfoReadCtx (ctx s)) = Some mngr /\
          getKey mngr = Some hook /\
          hook kn (keyReq (keyInfoReadCtx (ctx s'))) = Some k /\
          In (EvGetKey kn (Some k)) (new_events s s')
    end.
Proof.
  cbv zeta.
  assert (H : xmlSecEncCtxEncDataNodeRead env_ok tmpl_value (encrypting (initialized mngr_aes))
              = (Ok tt, snd (xmlSecEncCtxEncDataNodeRead env_ok tmpl_value
                               (encrypting (initialized mngr_aes))))).
  { vm_compute. reflexivity. }
  split; [exact H|].
  exact (key_after_read env_ok tmpl_value _ _ H).
Defined.

Lemma no_method_fails_witness :
  let node := tmpl_no_method in
  let s := encrypting (initialized mngr_aes) in
  encMethod (ctx s) = None /\
  expected_encMethodNode node = None /\
  (fst (xmlSecEncCtxEncDataNodeRead env_ok node s) = Fail /\
   forall s1 s2,
     EncDataNodeRead_attributes node s = (Ok tt, s1) ->
     EncDataNodeRead_children env_ok node s1 = (Ok tt, s2) ->
     xmlSecEncCtxEncDataNodeRead env_ok node s =
       (Fail, mkState (ctx s2) (transforms s2)
                      (log s2 ++ [Report (mkError None None XMLSEC_ERRORS_R_INVALID_DATA
                                                  "encryption method not specified" [])])
                      (trace s2))).
Proof.
  cbv zeta.
  assert (H1 : encMethod (ctx (encrypting (initialized mngr_aes))) = None) by reflexivity.
  assert (H2 : expected_encMethodNode tmpl_no_method = None) by reflexivity.
  split; [exact H1|]. split; [exact H2|].
  exact (no_method_fails env_ok tmpl_no_method _ H1 H2).
Defined.

Lemma decoder_first_witness :
  let node := tmpl_value in
  let s := initialized mngr_aes in
  let s' := snd (xmlSecEncCtxEncDataNodeRead env_ok node s) in
  xmlSecEncCtxEncDataNodeRead env_ok node s = (Ok tt, s') /\
  encrypt (ctx s) = false /\
  holds_CipherValue node = true /\
  exists q t rest,
    chain_of (ctx s') = q :: chain_of (ctx s) ++ rest /\
    transform_at s' q = Some t /\
    tr_id t = xmlSecTransformBase64Id /\ tr_encode t = false /\
    resultBase64Encoded (ctx s') = resultBase64Encoded (ctx s).
Proof.
  cbv zeta.
  assert (H : xmlSecEncCtxEncDataNodeRead env_ok tmpl_value (initialized mngr_aes)
              = (Ok tt, snd (xmlSecEncCtxEncDataNodeRead env_ok tmpl_value
                               (initialized mngr_aes)))).
  { vm_compute. reflexivity. }
  assert (He : encrypt (ctx (initialized mngr_aes)) = false) by reflexivity.
  assert (Hv : holds_CipherValue tmpl_value = true) by reflexivity.
  split; [exact H|]. split; [exact He|]. split; [exact Hv|].
  exact (decoder_first env_ok tmpl_value _ _ H He Hv).
Defined.

Lemma encrypt_chain_shape_witness :
  let node := tmpl_value in
  let s := encrypting (initialized mngr_aes) in
  let s' := snd (xmlSecEncCtxEncDataNodeRead env_ok node s) in
  xmlSecEncCtxEncDataNodeRead env_ok node s = (Ok tt, s') /\
  encrypt (ctx s) = true /\
  exists p,
    encMethod (ctx s') = Some p /\
    uri (encTransformCtx (ctx s')) = uri (encTransformCtx (ctx s)) /\
    if holds_CipherValue node
    then exists q, chain_of (ctx s') = chain_of (ctx s) ++ [p; q] /\
                   resultBase64Encoded (ctx s') = true
    else chain_of (ctx s') = chain_of (ctx s) ++ [p].
Proof.
  cbv zeta.
  assert (H : xmlSecEncCtxEncDataNodeRead env_ok tmpl_value (encrypting (initialized mngr_aes))
              = (Ok tt, snd (xmlSecEncCtxEncDataNodeRead env_ok tmpl_value
                               (encrypting (initialized mngr_aes))))).
  { vm_compute. reflexivity. }
  assert (He : encrypt (ctx (encrypting (initialized mngr_aes))) = true) by reflexivity.
  split; [exact H|]. split; [exact He|].
  exact (encrypt_chain_shape env_ok tmpl_value _ _ H He).
Defined.

Lemma cipher_reference_read_witness :
  let node := CipherReference_transforms in
  let s := initialized mngr_aes in
  let s' := snd (xmlSecEncCtxCipherReferenceNodeRead env_ok node s) in
  xmlSecEncCtxCipherReferenceNodeRead env_ok node s = (Ok tt, s') /\
  exists ids,
    Forall2 (fun n id => registry env_ok n xmlSecTransformUsageDSigTransform = Some id)
            (reference_transforms node) ids /\
    match xmlGetProp node xmlSecAttrURI with
    | Some u =>
        exists id0,
          uriSource env_ok u node = Some id0 /\
          transforms s' = transforms s ++ map xmlSecTransformCreate (id0 :: ids) /\
          chain_of (ctx s') =
            List.length (transforms s) :: chain_of (ctx s)
              ++ seq (S (List.length (transforms s))) (List.length ids) /\
          uri (encTransformCtx (ctx s')) = Some u /\
          new_events s s' = [EvSetUri u node]
    | None =>
        transforms s' = transforms s ++ map xmlSecTransformCreate ids /\
        chain_of (ctx s') =
          chain_of (ctx s) ++ seq (List.length (transforms s)) (List.length ids) /\
        uri (encTransformCtx (ctx s')) = uri (encTransformCtx (ctx s)) /\
        new_events s s' = []
    end.
Proof.
  cbv zeta.
  assert (H : xmlSecEncCtxCipherReferenceNodeRead env_ok CipherReference_transforms
                (initialized mngr_aes)
              = (Ok tt, snd (xmlSecEncCtxCipherReferenceNodeRead env_ok
                               CipherReference_transforms (initialized mngr_aes)))).
  { vm_compute. reflexivity. }
  split; [exact H|].
  exact (cipher_reference_read env_ok CipherReference_transforms _ _ H).
Defined.

End EncTemplate.

(* ================================================================== *)
(** * The top-level operations *)
(* ================================================================== *)

Module EncOps.
Import XmlEnc EncLogic EncMoreDefs MonadFacts EncFacts EncLifecycle EncTemplate.

Lemma key_kept_refl s : key_kept s s.
Proof.
  intros _. split; [reflexivity|]. exists []. split; [now rewrite app_nil_r | reflexivity].
Qed.

Lemma key_kept_trans a b c : key_kept a b -> key_kept b c -> key_kept a c.
Proof.
  intros Hab Hbc Hk. destruct (Hab Hk) as (Hkb & evs1 & Ht1 & Hf1).
  assert (Hk' : encKey (ctx b) <> None) by congruence.
  destruct (Hbc Hk') as (Hkc & evs2 & Ht2 & Hf2).
  split; [congruence|]. exists (evs1 ++ evs2). split.
  - rewrite Ht2, Ht1. now rewrite app_assoc.
  - rewrite forallb_app, Hf1, Hf2. reflexivity.
Qed.

Ltac leaf_key_kept :=
  intros _; split; [cbn; reflexivity|];
  first [ exists []; split; [cbn; now rewrite app_nil_r | reflexivity]
        | eexists [_]; split; [cbn; reflexivity | cbn; reflexivity] ].

Section WithEnv.
Variable E : env.

Lemma key_block_kept : preserves key_kept (EncDataNodeRead_key E).
Proof.
  intros s Hk. destruct (encKey (ctx s)) as [k|] eqn:Hkey; [clear Hk | congruence].
  unfold EncDataNodeRead_key, checked, xmlSecTransformSetKey, xmlSecError, emit,
    get_ctx, bind, get, modify, ret, fail.
  cbn. rewrite Hkey. cbn. rewrite Hkey.
  destruct (xmlSecKeyMatch E k (keyReq (keyInfoReadCtx (ctx s)))); cbn.
  - destruct (encMethod (ctx s)) as [p|]; cbn.
    + unfold transform_at. cbn. destruct (transforms s !! p) as [t|]; cbn.
      * destruct (setKey_ok E t k); cbn;
          (split; [exact Hkey|]); eexists; (split; [rewrite <- ?app_assoc; reflexivity|]);
          reflexivity.
      * (split; [exact Hkey|]); eexists; (split; [rewrite <- ?app_assoc; reflexivity|]);
          reflexivity.
    + (split; [exact Hkey|]); eexists; (split; [rewrite <- ?app_assoc; reflexivity|]);
          reflexivity.
  - (split; [exact Hkey|]); eexists; (split; [rewrite <- ?app_assoc; reflexivity|]);
      reflexivity.
Qed.

(** X11: a key that the caller put into the context before the operation
    is never replaced and the keys manager is never asked for one, whether
    the operation succeeds or fails. *)
Theorem preset_key_kept (op : operation) (s : state) :
  encKey (ctx s) <> None ->
  encKey (ctx (snd (run_op E op s))) = encKey (ctx s) /\
  forallb (fun e => negb (is_getKey e)) (new_events s (snd (run_op E op s))) = true.
Proof.
  intros Hk.
  assert (H : preserves key_kept (run_op E op)).
  { pose proof key_block_kept as Hkey.
    destruct op; cbn [run_op];
      unfold xmlSecEncCtxBinaryEncrypt, xmlSecEncCtxXmlEncrypt, xmlSecEncCtxUriEncrypt,
        xmlSecEncCtxDecrypt, xmlSecEncCtxDecryptToBuffer,
        xmlSecEncCtxCipherDataNodeWrite,
        xmlSecEncCtxEncDataNodeRead, EncDataNodeRead_attributes,
        EncDataNodeRead_children, EncDataNodeRead_encMethod,
        EncDataNodeRead_base64, xmlSecEncCtxCipherDataNodeRead,
        xmlSecEncCtxCipherReferenceNodeRead;
      pres_with key_kept_refl key_kept_trans leaf_key_kept. }
  destruct (H s Hk) as (Hkeep & evs & Ht & Hf).
  split; [exact Hkeep|]. now rewrite (new_events_app _ _ _ Ht).
Qed.

(** *** Writing the result into the template *)

Lemma CipherDataNodeWrite_Ok s s' :
  xmlSecEncCtxCipherDataNodeWrite E s = (Ok tt, s') ->
  exists res k,
    encResult (ctx s) = Some res /\ encKey (ctx s) = Some k /\
    trace s' = trace s ++ template_writes (ctx s) res k /\
    ctx s' = (if is_Some_b (cipherValueNode (ctx s))
              then set_replaced true (ctx s) else ctx s) /\
    transforms s' = transforms s /\ log s' = log s.
Proof.
  unfold xmlSecEncCtxCipherDataNodeWrite, template_writes. intros H.
  step_ok H. step_ok H. step_ok H.
  destruct (encResult (ctx s)) as [res|]; [|discriminate].
  destruct (encKey (ctx s)) as [k|]; [|discriminate].
  bind_ok H u1 s1 H1. bind_ok H u2 s2 H2.
  apply ret_inv in H. destruct H as [_ ->].
  exists res, k. split; [reflexivity|]. split; [reflexivity|].
  assert (Hs1 : s1 = mkState (if is_Some_b (cipherValueNode (ctx s))
                              then set_replaced true (ctx s) else ctx s)
                             (transforms s) (log s)
                             (trace s ++ match cipherValueNode (ctx s) with
                                         | Some cv => [EvNodeSetContent cv res]
                                         | None => []
                                         end)).
  { destruct (cipherValueNode (ctx s)) as [cv|].
    - step_ok H1. unfold xmlNodeSetContentLen, emit, upd_ctx in H1. step_ok H1.
      apply modify_inv in H1. destruct H1 as [_ ->]. reflexivity.
    - apply ret_inv in H1. destruct H1 as [_ ->]. cbn. rewrite app_nil_r.
      destruct s; reflexivity. }
  assert (Hs2 : s2 = mkState (ctx s1) (transforms s1) (log s1)
                             (trace s1 ++ match keyInfoNode (ctx s) with
                                          | Some kn => [EvKeyInfoNodeWrite kn k true]
                                          | None => []
                                          end)).
  { destruct (keyInfoNode (ctx s)) as [kn|].
    - apply checked_Ok_inv in H2. unfold xmlSecKeyInfoNodeWrite, emit in H2.
      step_ok H2. destruct (xmlSecKeyInfoNodeWrite_ok E kn k); [|discriminate].
      apply ret_inv in H2. destruct H2 as [_ ->]. reflexivity.
    - apply ret_inv in H2. destruct H2 as [_ ->]. cbn. rewrite app_nil_r.
      destruct s1; reflexivity. }
  subst s2 s1. cbn. rewrite <- app_assoc. auto.
Qed.

Lemma take_result_Ok s buf s' :
  take_result s = (Ok buf, s') ->
  result (encTransformCtx (ctx s)) = Some buf /\
  s' = mkState (set_encResult (Some buf) (ctx s)) (transforms s) (log s) (trace s).
Proof.
  unfold take_result, upd_ctx. intros H. do 3 step_ok H.
  cbn in H, Hm.
  destruct (result (encTransformCtx (ctx s))) as [b|] eqn:Hr; [|discriminate].
  apply ret_inv in H. destruct H as [H ->]. inversion H; subst. auto.
Qed.

(** *** The stages of the successful operations *)

Lemma BinaryEncrypt_stages tmpl data s s' :
  xmlSecEncCtxBinaryEncrypt E tmpl data s = (Ok tt, s') ->
  exists s1 s2 s3 buf,
    xmlSecEncCtxEncDataNodeRead E tmpl (entered true tmpl s) = (Ok tt, s1) /\
    xmlSecTransformCtxBinaryExecute E data s1 = (Ok tt, s2) /\
    take_result s2 = (Ok buf, s3) /\
    xmlSecEncCtxCipherDataNodeWrite E s3 = (Ok tt, s').
Proof.
  unfold xmlSecEncCtxBinaryEncrypt. intros H.
  step_ok H. step_ok H. unfold upd_ctx, xmlSecAddIDs, emit in H. do 2 step_ok H.
  bind_ok H u1 s1 H1. apply checked_Ok_inv in H1.
  bind_ok H u2 s2 H2. apply checked_Ok_inv in H2.
  bind_ok H buf s3 H3.
  bind_ok H u4 s4 H4. apply checked_Ok_inv in H4.
  apply ret_inv in H. destruct H as [_ ->]. destruct u1, u2, u4.
  exists s1, s2, s3, buf. auto.
Qed.

Lemma UriEncrypt_stages tmpl u s s' :
  xmlSecEncCtxUriEncrypt E tmpl u s = (Ok tt, s') ->
  exists s0 s1 s2 s3 buf,
    xmlSecTransformCtxSetUri E u tmpl (entered true tmpl s) = (Ok tt, s0) /\
    xmlSecEncCtxEncDataNodeRead E tmpl s0 = (Ok tt, s1) /\
    xmlSecTransformCtxExecute E (node_doc tmpl) s1 = (Ok tt, s2) /\
    take_result s2 = (Ok buf, s3) /\
    xmlSecEncCtxCipherDataNodeWrite E s3 = (Ok tt, s').
Proof.
  unfold xmlSecEncCtxUriEncrypt. intros H.
  step_ok H. step_ok H. unfold upd_ctx, xmlSecAddIDs, emit in H. do 2 step_ok H.
  bind_ok H u0 s0 H0. apply checked_Ok_inv in H0.
  bind_ok H u1 s1 H1. apply checked_Ok_inv in H1.
  bind_ok H u2 s2 H2. apply checked_Ok_inv in H2.
  bind_ok H buf s3 H3.
  bind_ok H u4 s4 H4. apply checked_Ok_inv in H4.
  apply ret_inv in H. destruct H as [_ ->]. destruct u0, u1, u2, u4.
  exists s0, s1, s2, s3, buf. auto.
Qed.

Lemma dump_children_run (l : list xmlNode) : forall (out : list byte) (s : state),
  dump_children E out l s =
    (Ok (out ++ concat (map (xmlNodeDump E) l)),
     mkState (ctx s) (transforms s) (log s)
             (trace s ++ map (fun n => EvOutputWrite (xmlNodeDump E n)) l)).
Proof.
  induction l as [|n l IH]; intros out s.
  - cbn. rewrite !app_nil_r. destruct s; reflexivity.
  - cbn [dump_children]. unfold xmlNodeDumpOutput, emit, bind, modify, ret.
    rewrite IH. cbn. now rewrite <- !app_assoc.
Qed.

Lemma XmlEncrypt_stages tmpl node s s' :
  xmlSecEncCtxXmlEncrypt E tmpl node s = (Ok tt, s') ->
  exists s1 s2 nodes s4 buf s5 s6,
    xmlSecEncCtxEncDataNodeRead E tmpl (entered true tmpl s) = (Ok tt, s1) /\
    xmlSecTransformCtxPrepare E xmlSecTransformDataTypeBin s1 = (Ok tt, s2) /\
    xml_input (type_ (ctx s2)) node = Some nodes /\
    xmlOutputBufferClose E (concat (map (xmlNodeDump E) nodes))
      (mkState (ctx s2) (transforms s2) (log s2)
               (trace s2 ++ map (fun n => EvOutputWrite (xmlNodeDump E n)) nodes))
      = (Ok tt, s4) /\
    take_result s4 = (Ok buf, s5) /\
    xmlSecEncCtxCipherDataNodeWrite E s5 = (Ok tt, s6) /\
    s' = mkState (set_replaced true (ctx s6)) (transforms s6) (log s6)
                 (trace s6 ++ [xml_splice (type_ (ctx s6)) node tmpl]).
Proof.
  unfold xmlSecEncCtxXmlEncrypt. intros H.
  step_ok H. step_ok H. step_ok H.
  unfold upd_ctx, xmlSecAddIDs, emit in H. do 2 step_ok H.
  bind_ok H u1 s1 H1. apply checked_Ok_inv in H1.
  bind_ok H u2 s2 H2. apply checked_Ok_inv in H2.
  step_ok H. step_ok H.
  bind_ok H out0 s2' H0. apply checked_Ok_inv in H0.
  unfold xmlSecTransformCreateOutputBuffer in H0.
  destruct (xmlSecTransformCreateOutputBuffer_ok E); [|discriminate].
  apply ret_inv in H0. destruct H0 as [Ho ->]. inversion Ho; subst out0. clear Ho.
  step_ok H.
  bind_ok H out s3 H3.
  bind_ok H u4 s4 H4.
  bind_ok H buf s5 H5.
  bind_ok H u6 s6 H6. apply checked_Ok_inv in H6.
  step_ok H.
  bind_ok H u7 s7 H7. apply ret_inv in H. destruct H as [_ ->].
  destruct u1, u2, u4, u6, u7.
  assert (Hin : exists nodes,
             xml_input (type_ (ctx s2)) node = Some nodes /\
             out = concat (map (xmlNodeDump E) nodes) /\
             s3 = mkState (ctx s2) (transforms s2) (log s2)
                    (trace s2 ++ map (fun n => EvOutputWrite (xmlNodeDump E n)) nodes)).
  { unfold xml_input.
    destruct (is_Some_b (type_ (ctx s2))
              && xmlStrEqual (type_ (ctx s2)) (Some xmlSecTypeEncElement)).
    - exists [node]. unfold xmlNodeDumpOutput, emit, bind, modify, ret in H3.
      inversion H3; subst. cbn. rewrite app_nil_r. auto.
    - destruct (is_Some_b (type_ (ctx s2))
                && xmlStrEqual (type_ (ctx s2)) (Some xmlSecTypeEncContent)).
      + exists (node_children node). rewrite dump_children_run in H3.
        inversion H3; subst. cbn. auto.
      + exfalso. unfold xmlSecError, xmlOutputBufferClose, emit, bind, get, modify,
                   ret, fail in H3. cbn in H3.
        repeat match type of H3 with
               | context [match ?x with _ => _ end] => destruct x; cbn in H3
               end; discriminate. }
  destruct Hin as (nodes & Hnodes & -> & ->).
  exists s1, s2, nodes, s4, buf, s5, s6.
  repeat (split; [assumption|]).
  unfold xml_splice.
  destruct (is_Some_b (type_ (ctx s6))
            && xmlStrEqual (type_ (ctx s6)) (Some xmlSecTypeEncElement)).
  - bind_ok H7 u8 s8 H8. apply checked_Ok_inv in H8.
    unfold xmlSecReplaceNode, emit in H8. step_ok H8.
    destruct (xmlSecReplaceNode_ok E node tmpl); [|discriminate].
    apply ret_inv in H8. destruct H8 as [_ ->].
    unfold upd_ctx in H7. apply modify_inv in H7. destruct H7 as [_ ->]. reflexivity.
  - destruct (xmlStrEqual (type_ (ctx s6)) (Some xmlSecTypeEncContent)).
    + bind_ok H7 u8 s8 H8. apply checked_Ok_inv in H8.
      unfold xmlSecReplaceContent, emit in H8. step_ok H8.
      destruct (xmlSecReplaceContent_ok E node tmpl); [|discriminate].
      apply ret_inv in H8. destruct H8 as [_ ->].
      unfold upd_ctx in H7. apply modify_inv in H7. destruct H7 as [_ ->]. reflexivity.
    + unfold xmlSecError, bind, modify, fail in H7. cbn in H7. discriminate.
Qed.

Lemma extends_any_In (s0 s1 : state) (evs : list event) (e : event) :
  extends (fun _ => true) s0 s1 ->
  In e evs -> forall s2, trace s2 = trace s1 ++ evs -> In e (new_events s0 s2).
Proof.
  intros (pre & Ht & _) Hin s2 H2.
  rewrite (new_events_app s0 s2 (pre ++ evs)).
  - apply in_or_app. now right.
  - rewrite H2, Ht. now rewrite app_assoc.
Qed.

Lemma entered_extends enc tmpl s : extends (fun _ => true) s (entered enc tmpl s).
Proof. exists [EvAddIDs tmpl]. split; reflexivity. Qed.

Lemma writes_after (s0 s2 s3 s6 : state) (buf : xmlSecBuffer) :
  extends (fun _ => true) s0 s2 ->
  take_result s2 = (Ok buf, s3) ->
  xmlSecEncCtxCipherDataNodeWrite E s3 = (Ok tt, s6) ->
  exists k,
    encResult (ctx s6) = Some buf /\ result (encTransformCtx (ctx s6)) = Some buf /\
    encKey (ctx s6) = Some k /\ encKey (ctx s2) = Some k /\
    cipherValueNode (ctx s6) = cipherValueNode (ctx s2) /\
    type_ (ctx s6) = type_ (ctx s2) /\
    transforms s6 = transforms s2 /\ chain_of (ctx s6) = chain_of (ctx s2) /\
    extends (fun _ => true) s0 s6 /\
    (forall cv, cipherValueNode (ctx s2) = Some cv ->
       In (EvNodeSetContent cv buf) (new_events s0 s6) /\ replaced (ctx s6) = true) /\
    (forall kn, keyInfoNode (ctx s2) = Some kn ->
       In (EvKeyInfoNodeWrite kn k true) (new_events s0 s6)).
Proof.
  intros Hext H3 H6.
  apply take_result_Ok in H3. destruct H3 as (Hres & ->).
  apply CipherDataNodeWrite_Ok in H6.
  destruct H6 as (res & k & Hr & Hk & Ht & Hc & Htr & _).
  cbn [ctx trace transforms] in Hr, Hk, Ht, Hc, Htr.
  assert (Hr' : res = buf) by (cbn in Hr; congruence). subst res. clear Hr.
  assert (Hk' : encKey (ctx s2) = Some k) by exact Hk.
  assert (Hcvn : cipherValueNode (set_encResult (Some buf) (ctx s2))
                 = cipherValueNode (ctx s2)) by reflexivity.
  assert (Hkin : keyInfoNode (set_encResult (Some buf) (ctx s2))
                 = keyInfoNode (ctx s2)) by reflexivity.
  exists k.
  assert (Hfields :
            encResult (ctx s6) = Some buf /\ result (encTransformCtx (ctx s6)) = Some buf /\
            encKey (ctx s6) = Some k /\
            cipherValueNode (ctx s6) = cipherValueNode (ctx s2) /\
            type_ (ctx s6) = type_ (ctx s2) /\
            chain_of (ctx s6) = chain_of (ctx s2)).
  { rewrite Hc, Hcvn. unfold chain_of.
    destruct (cipherValueNode (ctx s2)); cbn; auto 10. }
  destruct Hfields as (F1 & F2 & F3 & F4 & F5 & F6).
  repeat (split; [assumption|]).
  split.
  { destruct Hext as (pre & Hpre & _). eexists. split.
    - rewrite Ht, Hpre, <- app_assoc. reflexivity.
    - apply forallb_forall. auto. }
  split.
  - intros cv Hcv. split.
    + eapply extends_any_In; [exact Hext | | exact Ht].
      unfold template_writes. rewrite Hcvn, Hcv. cbn. auto.
    + rewrite Hc, Hcvn, Hcv. reflexivity.
  - intros kn Hkn. eapply extends_any_In; [exact Hext | | exact Ht].
    unfold template_writes. rewrite Hkin, Hkn. apply in_or_app. right. cbn. auto.
Qed.

(** X12: a successful encryption (binary, XML or URI) leaves in
    [encResult] the result of the transform chain and the key in [encKey];
    if the template has a CipherValue, that result has been written as its
    content and [replaced] is set; if the template has a KeyInfo child, the
    key has been written into it. *)
Theorem encrypt_writes_template (op : operation) (s s' : state) :
  is_encrypt_op op = true ->
  run_op E op s = (Ok tt, s') ->
  exists buf k,
    encResult (ctx s') = Some buf /\ result (encTransformCtx (ctx s')) = Some buf /\
    encKey (ctx s') = Some k /\
    (forall cv, cipherValueNode (ctx s') = Some cv ->
       In (EvNodeSetContent cv buf) (new_events s s') /\ replaced (ctx s') = true) /\
    (forall kn, expected_keyInfoNode (template_of op) = Some kn ->
       In (EvKeyInfoNodeWrite kn k true) (new_events s s')).
Proof.
  intros Hop H. destruct op as [tmpl data|tmpl node|tmpl u| |]; try discriminate Hop;
    cbn [run_op template_of] in *.
  - apply BinaryEncrypt_stages in H.
    destruct H as (s1 & s2 & s3 & buf & H1 & H2 & H3 & H6).
    frame_as G1 H1 (extends (fun _ : event => true))
      ltac:(pres_extends (fun _ : event => true)).
    frame_as G2 H2 (extends (fun _ : event => true))
      ltac:(pres_extends (fun _ : event => true)).
    frame_as F2 H2 (same (fun c => (cipherValueNode c, keyInfoNode c)))
      ltac:(pres_same (fun c => (cipherValueNode c, keyInfoNode c))).
    unfold same in F2. injection F2 as F2c F2k.
    apply EncDataNodeRead_Ok_keyInfoNode in H1. rename H1 into Hkn.
    pose proof (extends_trans _ _ _ _ (entered_extends true tmpl s)
                  (extends_trans _ _ _ _ G1 G2)) as Hext.
    destruct (writes_after s s2 s3 s' buf Hext H3 H6)
      as (k & Hr & Hres & Hk & _ & Hcv & _ & _ & _ & _ & Hwc & Hwk).
    exists buf, k. repeat (split; [assumption|]). split.
    + intros cv Hc. apply Hwc. congruence.
    + intros kn Hn. apply Hwk. congruence.
  - apply XmlEncrypt_stages in H.
    destruct H as (s1 & s2 & nodes & s4 & buf & s5 & s6 & H1 & H2 & Hnodes & H4 & H5 & H6 & ->).
    frame_as G1 H1 (extends (fun _ : event => true))
      ltac:(pres_extends (fun _ : event => true)).
    frame_as G2 H2 (extends (fun _ : event => true))
      ltac:(pres_extends (fun _ : event => true)).
    frame_as G4 H4 (extends (fun _ : event => true))
      ltac:(pres_extends (fun _ : event => true)).
    frame_as F2 H2 (same (fun c => (cipherValueNode c, keyInfoNode c)))
      ltac:(pres_same (fun c => (cipherValueNode c, keyInfoNode c))).
    frame_as F4 H4 (same (fun c => (cipherValueNode c, keyInfoNode c)))
      ltac:(pres_same (fun c => (cipherValueNode c, keyInfoNode c))).
    unfold same in F2, F4. cbn in F4. injection F2 as F2c F2k. injection F4 as F4c F4k.
    apply EncDataNodeRead_Ok_keyInfoNode in H1. rename H1 into Hkn.
    assert (G3 : extends (fun _ : event => true) s2
                   (mkState (ctx s2) (transforms s2) (log s2)
                      (trace s2 ++ map (fun n => EvOutputWrite (xmlNodeDump E n)) nodes))).
    { eexists. split; [reflexivity|]. apply forallb_forall. auto. }
    pose proof (extends_trans _ _ _ _ (entered_extends true tmpl s)
                  (extends_trans _ _ _ _ G1
                     (extends_trans _ _ _ _ G2 (extends_trans _ _ _ _ G3 G4)))) as Hext.
    destruct (writes_after s s4 s5 s6 buf Hext H5 H6)
      as (k & Hr & Hres & Hk & _ & Hcv & _ & _ & _ & Hext6 & Hwc & Hwk).
    exists buf, k. cbn. repeat (split; [assumption|]).
    assert (Hnew : forall e, In e (new_events s s6) ->
              In e (new_events s
                      (mkState (set_replaced true (ctx s6)) (transforms s6) (log s6)
                         (trace s6 ++ [xml_splice (type_ (ctx s6)) node tmpl])))).
    { intros e He. destruct Hext6 as (pre & Hpre & _).
      rewrite (new_events_app _ _ _ Hpre) in He.
      rewrite (new_events_app s _ (pre ++ [xml_splice (type_ (ctx s6)) node tmpl])).
      - apply in_or_app. now left.
      - cbn. rewrite Hpre. now rewrite app_assoc. }
    split.
    + intros cv Hc. split; [|reflexivity]. apply Hnew. apply Hwc. congruence.
    + intros kn Hn. apply Hnew. apply Hwk. congruence.
  - apply UriEncrypt_stages in H.
    destruct H as (s0 & s1 & s2 & s3 & buf & H0 & H1 & H2 & H3 & H6).
    frame_as G0 H0 (extends (fun _ : event => true))
      ltac:(pres_extends (fun _ : event => true)).
    frame_as G1 H1 (extends (fun _ : event => true))
      ltac:(pres_extends (fun _ : event => true)).
    frame_as G2 H2 (extends (fun _ : event => true))
      ltac:(pres_extends (fun _ : event => true)).
    frame_as F2 H2 (same (fun c => (cipherValueNode c, keyInfoNode c)))
      ltac:(pres_same (fun c => (cipherValueNode c, keyInfoNode c))).
    unfold same in F2. injection F2 as F2c F2k.
    apply EncDataNodeRead_Ok_keyInfoNode in H1. rename H1 into Hkn.
    pose proof (extends_trans _ _ _ _ (entered_extends true tmpl s)
                  (extends_trans _ _ _ _ G0 (extends_trans _ _ _ _ G1 G2))) as Hext.
    destruct (writes_after s s2 s3 s' buf Hext H3 H6)
      as (k & Hr & Hres & Hk & _ & Hcv & _ & _ & _ & _ & Hwc & Hwk).
    exists buf, k. repeat (split; [assumption|]). split.
    + intros cv Hc. apply Hwc. congruence.
    + intros kn Hn. apply Hwk. congruence.
Qed.

End WithEnv.

Import EncSamples MoreSamples.

Lemma preset_key_kept_witness :
  let op := BinaryEncrypt tmpl_value data_hello in
  let s := with_key aes_key (initialized mngr_rsa) in
  encKey (ctx s) <> None /\
  (encKey (ctx (snd (run_op env_ok op s))) = encKey (ctx s) /\
   forallb (fun e => negb (is_getKey e)) (new_events s (snd (run_op env_ok op s))) = true).
Proof.
  cbv zeta.
  assert (H : encKey (ctx (with_key aes_key (initialized mngr_rsa))) <> None).
  { vm_compute. discriminate. }
  split; [exact H|].
  exact (preset_key_kept env_ok (BinaryEncrypt tmpl_value data_hello) _ H).
Defined.

Lemma encrypt_writes_template_witness :
  let op := BinaryEncrypt tmpl_value data_hello in
  let s := initialized mngr_aes in
  let s' := snd (run_op env_ok op s) in
  is_encrypt_op op = true /\
  run_op env_ok op s = (Ok tt, s') /\
  exists buf k,
    encResult (ctx s') = Some buf /\ result (encTransformCtx (ctx s')) = Some buf /\
    encKey (ctx s') = Some k /\
    (forall cv, cipherValueNode (ctx s') = Some cv ->
       In (EvNodeSetContent cv buf) (new_events s s') /\ replaced (ctx s') = true) /\
    (forall kn, expected_keyInfoNode (template_of op) = Some kn ->
       In (EvKeyInfoNodeWrite kn k true) (new_events s s')).
Proof.
  cbv zeta.
  assert (H1 : is_encrypt_op (BinaryEncrypt tmpl_value data_hello) = true) by reflexivity.
  assert (H2 : run_op env_ok (BinaryEncrypt tmpl_value data_hello) (initialized mngr_aes)
               = (Ok tt, snd (run_op env_ok (BinaryEncrypt tmpl_value data_hello)
                                (initialized mngr_aes)))).
  { vm_compute. reflexivity. }
  split; [exact H1|]. split; [exact H2|].
  exact (encrypt_writes_template env_ok _ _ _ H1 H2).
Defined.

End EncOps.

(* ================================================================== *)
(** * What is encrypted and decrypted *)
(* ================================================================== *)

Module EncData.
Import XmlEnc EncLogic EncMoreDefs MonadFacts EncFacts EncLifecycle EncTemplate EncOps.

Section WithEnv.
Variable E : env.

Lemma filter_none (p : event -> bool) (l : list event) :
  forallb (fun e => negb (p e)) l = true -> List.filter p l = [].
Proof.
  induction l as [|e l IH]; cbn; [reflexivity|].
  intros H. apply andb_true_iff in H. destruct H as [He Hl].
  apply negb_true_iff in He. rewrite He. now apply IH.
Qed.

Lemma filter_outputWrite_dumps (nodes : list xmlNode) :
  List.filter is_outputWrite (map (fun n => EvOutputWrite (xmlNodeDump E n)) nodes)
  = map (fun n => EvOutputWrite (xmlNodeDump E n)) nodes.
Proof. induction nodes as [|n l IH]; cbn; [reflexivity | now rewrite IH]. Qed.

Lemma OutputBufferClose_Ok out s s' :
  xmlOutputBufferClose E out s = (Ok tt, s') ->
  transforms s' = transforms s /\ chain_of (ctx s') = chain_of (ctx s) /\
  trace s' = trace s ++ [EvOutputClose] /\
  match binaryExecute E (chain_transforms s) out with
  | Some o => result (encTransformCtx (ctx s')) = Some o
  | None => result (encTransformCtx (ctx s')) = result (encTransformCtx (ctx s))
  end.
Proof.
  unfold xmlOutputBufferClose, emit, upd_tctx, upd_ctx. intros H.
  step_ok H. step_ok H.
  change (chain_transforms
            (mkState (ctx s) (transforms s) (log s) (trace s ++ [EvOutputClose])))
    with (chain_transforms s) in H.
  destruct (binaryExecute E (chain_transforms s) out) as [o|].
  - apply modify_inv in H. destruct H as [_ ->]. cbn. auto.
  - apply ret_inv in H. destruct H as [_ ->]. cbn. auto.
Qed.

(** X13: a successful [xmlSecEncCtxXmlEncrypt] on a context whose chain
    held no result pushes through the chain exactly the serialization of
    the node when the template's Type is Element, and of the children of
    the node, in document order, when it is Content; [encResult] is what
    the chain gives for these bytes; the last thing the operation does is
    to replace the node (Element) or its content (Content) by the
    template, and [replaced] is set. *)
Theorem xml_encrypt_input (tmpl node : xmlNode) (s s' : state) :
  xmlSecEncCtxXmlEncrypt E tmpl node s = (Ok tt, s') ->
  result (encTransformCtx (ctx s)) = None ->
  exists nodes buf,
    xml_input (xmlGetProp tmpl xmlSecAttrType) node = Some nodes /\
    List.filter is_outputWrite (new_events s s')
      = map (fun n => EvOutputWrite (xmlNodeDump E n)) nodes /\
    binaryExecute E (chain_transforms s') (concat (map (xmlNodeDump E) nodes)) = Some buf /\
    encResult (ctx s') = Some buf /\
    last (new_events s s')
      = Some (xml_splice (xmlGetProp tmpl xmlSecAttrType) node tmpl) /\
    replaced (ctx s') = true.
Proof.
  intros H Hnores. apply XmlEncrypt_stages in H.
  destruct H as (s1 & s2 & nodes & s4 & buf & s5 & s6 & H1 & H2 & Hnodes & H4 & H5 & H6 & ->).
  pose (P := fun e : event => negb (is_outputWrite e)).
  frame_as G1 H1 (extends P) ltac:(pres_extends P).
  frame_as G2 H2 (extends P) ltac:(pres_extends P).
  frame_as G5 H5 (extends P) ltac:(pres_extends P).
  frame_as G6 H6 (extends P) ltac:(pres_extends P).
  frame_as R1 H1 (same (fun c => result (encTransformCtx c)))
    ltac:(pres_same (fun c => result (encTransformCtx c))).
  frame_as R2 H2 (same (fun c => (result (encTransformCtx c), type_ c, chain_of c)))
    ltac:(pres_same (fun c => (result (encTransformCtx c), type_ c, chain_of c))).
  frame_as T2 H2 (fun s s' : state => transforms s' = transforms s)
    ltac:(unfold_funs;
          pres_with same_transforms_refl same_transforms_trans ltac:(cbn; reflexivity)).
  unfold same in R1, R2. cbn in R1. injection R2 as R2r R2t R2c.
  pose proof (EncDataNodeRead_Ok_type E _ _ _ H1) as Hty.
  frame_as R4 H4 (same type_) ltac:(pres_same type_).
  unfold same in R4. cbn [ctx] in R4.
  apply OutputBufferClose_Ok in H4. cbn [ctx transforms trace] in H4.
  destruct H4 as (Ht4 & Hc4 & Htr4 & Hres4).
  change (chain_transforms (mkState (ctx s2) (transforms s2) (log s2)
            (trace s2 ++ map (fun n => EvOutputWrite (xmlNodeDump E n)) nodes)))
    with (chain_transforms s2) in Hres4.
  pose proof (take_result_Ok _ _ _ H5) as (Hr5 & Hs5).
  assert (Hext : extends (fun _ : event => true) s s4).
  { destruct G1 as (e1 & He1 & _). destruct G2 as (e2 & He2 & _).
    eexists. split; [|apply forallb_forall; auto].
    rewrite Htr4, He2, He1. cbn. rewrite <- !app_assoc. reflexivity. }
  destruct (writes_after E s s4 s5 s6 buf Hext H5 H6)
    as (k & Hr & _ & _ & _ & _ & Hty6 & Htr6 & Hch6 & _).
  exists nodes, buf. cbn [ctx trace].
  assert (Htype : type_ (ctx s6) = xmlGetProp tmpl xmlSecAttrType) by congruence.
  assert (Hnew : exists pre,
             trace s6 = trace s ++ pre /\
             List.filter is_outputWrite pre
             = map (fun n => EvOutputWrite (xmlNodeDump E n)) nodes).
  { destruct G1 as (e1 & He1 & Hf1). destruct G2 as (e2 & He2 & Hf2).
    destruct G5 as (e5 & He5 & Hf5). destruct G6 as (e6 & He6 & Hf6).
    exists ([EvAddIDs tmpl] ++ e1 ++ e2
            ++ map (fun n => EvOutputWrite (xmlNodeDump E n)) nodes
            ++ [EvOutputClose] ++ e5 ++ e6).
    split.
    - rewrite He6, He5, Htr4, He2, He1. cbn. rewrite <- !app_assoc. reflexivity.
    - rewrite !List.filter_app, filter_outputWrite_dumps.
      rewrite (filter_none _ e1 Hf1), (filter_none _ e2 Hf2),
        (filter_none _ e5 Hf5), (filter_none _ e6 Hf6).
      cbn. now rewrite app_nil_r. }
  destruct Hnew as (pre & Hpre & Hfilter).
  assert (Hevs : new_events s
                   (mkState (set_replaced true (ctx s6)) (transforms s6) (log s6)
                      (trace s6 ++ [xml_splice (type_ (ctx s6)) node tmpl]))
                 = pre ++ [xml_splice (type_ (ctx s6)) node tmpl]).
  { apply new_events_app. cbn. rewrite Hpre. now rewrite app_assoc. }
  rewrite Hevs.
  split; [congruence|].
  split.
  { rewrite List.filter_app, Hfilter. rewrite Htype. unfold xml_splice.
    destruct (is_Some_b (xmlGetProp tmpl xmlSecAttrType)
              && xmlStrEqual (xmlGetProp tmpl xmlSecAttrType) (Some xmlSecTypeEncElement));
      cbn; now rewrite app_nil_r. }
  split.
  { assert (Hct : chain_transforms
                    (mkState (set_replaced true (ctx s6)) (transforms s6) (log s6)
                       (trace s6 ++ [xml_splice (type_ (ctx s6)) node tmpl]))
                  = chain_transforms s2).
    { unfold chain_transforms, chain_of in *. cbn. rewrite Htr6, Ht4, Hch6, Hc4.
      reflexivity. }
    rewrite Hct.
    destruct (binaryExecute E (chain_transforms s2) (concat (map (xmlNodeDump E) nodes)))
      as [o|].
    - congruence.
    - cbn in R1. congruence. }
  split; [exact Hr|].
  split; [|reflexivity].
  rewrite last_snoc. now rewrite Htype.
Qed.

(** *** An unknown Type *)

Lemma untouched_refl s : untouched s s.
Proof. split; [apply extends_refl | reflexivity]. Qed.

Lemma untouched_trans a b c : untouched a b -> untouched b c -> untouched a c.
Proof.
  intros [H1 H2] [H3 H4]. split; [eapply extends_trans; eauto | congruence].
Qed.

Lemma bind_run_rel {A B} (R : state -> state -> Prop)
    (Htrans : forall a b c, R a b -> R b c -> R a c)
    (m : M state A) (k : A -> M state B) (s : state) :
  R s (snd (m s)) ->
  (forall a s1, m s = (Ok a, s1) -> R s1 (snd (k a s1))) ->
  R s (snd (bind m k s)).
Proof.
  unfold bind. destruct (m s) as [[a|] s1]; cbn; intros H1 H2.
  - eapply Htrans; [exact H1 | now apply H2].
  - exact H1.
Qed.

Ltac leaf_untouched :=
  split; [ first [ exists []; split; [cbn; now rewrite app_nil_r | reflexivity]
                 | eexists [_]; split; [cbn; reflexivity | cbn; reflexivity] ]
         | cbn; reflexivity ].

Ltac pres_untouched := unfold_funs; pres_with untouched_refl untouched_trans leaf_untouched.

(** One step of a run, successful or not: the first computation keeps the
    relation, and the rest is looked at from the state it leaves. *)
Ltac run_step a s1 Hm :=
  apply (bind_run_rel _ untouched_trans);
  [ match goal with
    | |- untouched ?s (snd (?m ?s)) =>
        let Hp := fresh "Hp" in
        assert (Hp : preserves untouched m) by pres_untouched; exact (Hp s)
    end
  | intros a s1 Hm ].

(** X14: when the Type of the template is neither Element nor Content,
    [xmlSecEncCtxXmlEncrypt] fails, and up to the failure nothing has been
    pushed into the chain, nothing has been written into the template or
    the document, and [replaced] is as it was. *)
Theorem xml_encrypt_unknown_type (tmpl node : xmlNode) (s : state) :
  xml_input (xmlGetProp tmpl xmlSecAttrType) node = None ->
  fst (xmlSecEncCtxXmlEncrypt E tmpl node s) = Fail /\
  forallb no_write (new_events s (snd (xmlSecEncCtxXmlEncrypt E tmpl node s))) = true /\
  replaced (ctx (snd (xmlSecEncCtxXmlEncrypt E tmpl node s))) = replaced (ctx s).
Proof.
  intros Hty.
  assert (Hfail : fst (xmlSecEncCtxXmlEncrypt E tmpl node s) = Fail).
  { destruct (xmlSecEncCtxXmlEncrypt E tmpl node s) as [[[]|] s'] eqn:H; [|reflexivity].
    apply XmlEncrypt_stages in H.
    destruct H as (s1 & s2 & nodes & s4 & buf & s5 & s6 & H1 & H2 & Hnodes & _).
    frame_as R2 H2 (same type_) ltac:(pres_same type_).
    apply EncDataNodeRead_Ok_type in H1. unfold same in R2.
    rewrite R2, H1 in Hnodes. congruence. }
  split; [exact Hfail|].
  assert (H : untouched s (snd (xmlSecEncCtxXmlEncrypt E tmpl node s))).
  { unfold xmlSecEncCtxXmlEncrypt.
    run_step c s0 H0. run_step u1 s1 H1. run_step u2 s2 H2.
    run_step u3 s3 H3. run_step u4 s4 H4.
    run_step u5 s5 H5. apply checked_Ok_inv in H5. destruct u5.
    apply EncDataNodeRead_Ok_type in H5.
    run_step u6 s6 H6. apply checked_Ok_inv in H6.
    frame_as R6 H6 (same type_) ltac:(pres_same type_). unfold same in R6.
    run_step st s7 H7. apply get_inv in H7. destruct H7 as [_ ->].
    run_step u8 s8 H8. apply assert_Ok_inv in H8. destruct H8 as [_ ->].
    run_step out s9 H9. apply checked_Ok_inv in H9.
    frame_as R9 H9 (same type_) ltac:(pres_same type_). unfold same in R9.
    run_step c' s10 H10. apply get_ctx_inv in H10. destruct H10 as [Hc ->].
    inversion Hc; subst c'. clear Hc.
    assert (Ht : type_ (ctx s9) = xmlGetProp tmpl xmlSecAttrType) by congruence.
    rewrite Ht. unfold xml_input in Hty.
    destruct (is_Some_b (xmlGetProp tmpl xmlSecAttrType)
              && xmlStrEqual (xmlGetProp tmpl xmlSecAttrType) (Some xmlSecTypeEncElement));
      [discriminate|].
    destruct (is_Some_b (xmlGetProp tmpl xmlSecAttrType)
              && xmlStrEqual (xmlGetProp tmpl xmlSecAttrType) (Some xmlSecTypeEncContent));
      [discriminate|].
    run_step out' s11 H11.
    exfalso. unfold xmlSecError, xmlOutputBufferClose, emit, upd_tctx, upd_ctx,
               bind, get, modify, ret, fail in H11. cbn in H11.
    repeat match type of H11 with
           | context [match ?x with _ => _ end] => destruct x; cbn in H11
           end; discriminate. }
  destruct H as [(evs & Ht & Hf) Hr].
  split; [now rewrite (new_events_app _ _ _ Ht) | exact Hr].
Qed.

(** *** Decryption *)

Lemma BinaryExecute_Ok data s s' :
  xmlSecTransformCtxBinaryExecute E data s = (Ok tt, s') ->
  exists out,
    binaryExecute E (chain_transforms s) data = Some out /\
    s' = mkState (set_encTransformCtx
                    (mkTransformCtx (chain (encTransformCtx (ctx s)))
                                    (uri (encTransformCtx (ctx s))) (Some out))
                    (ctx s))
                 (transforms s) (log s) (trace s ++ [EvBinaryExecute data]).
Proof.
  unfold xmlSecTransformCtxBinaryExecute, emit, upd_tctx, upd_ctx. intros H.
  step_ok H. step_ok H.
  change (chain_transforms
            (mkState (ctx s) (transforms s) (log s) (trace s ++ [EvBinaryExecute data])))
    with (chain_transforms s) in H.
  destruct (binaryExecute E (chain_transforms s) data) as [out|]; [|discriminate].
  apply modify_inv in H. destruct H as [_ ->]. exists out. auto.
Qed.

Lemma Execute_Ok doc s s' :
  xmlSecTransformCtxExecute E doc s = (Ok tt, s') ->
  exists out,
    execute E (chain_transforms s) (uri (encTransformCtx (ctx s))) = Some out /\
    s' = mkState (set_encTransformCtx
                    (mkTransformCtx (chain (encTransformCtx (ctx s)))
                                    (uri (encTransformCtx (ctx s))) (Some out))
                    (ctx s))
                 (transforms s) (log s) (trace s ++ [EvExecute doc]).
Proof.
  unfold xmlSecTransformCtxExecute, emit, upd_tctx, upd_ctx. intros H.
  step_ok H. step_ok H.
  change (chain_transforms
            (mkState (ctx s) (transforms s) (log s) (trace s ++ [EvExecute doc])))
    with (chain_transforms s) in H.
  cbn [ctx] in H.
  destruct (execute E (chain_transforms s) (uri (encTransformCtx (ctx s)))) as [out|];
    [|discriminate].
  apply modify_inv in H. destruct H as [_ ->]. exists out. auto.
Qed.

Lemma DecryptToBuffer_stages node s buf s' :
  xmlSecEncCtxDecryptToBuffer E node s = (Ok buf, s') ->
  exists s1 s2,
    xmlSecEncCtxEncDataNodeRead E node (entered false node s) = (Ok tt, s1) /\
    match cipherValueNode (ctx s1) with
    | Some cv =>
        exists data,
          xmlNodeGetContent E cv = Some data /\
          xmlSecTransformCtxBinaryExecute E (list_byte_of_string data) s1 = (Ok tt, s2)
    | None => xmlSecTransformCtxExecute E (node_doc node) s1 = (Ok tt, s2)
    end /\
    take_result s2 = (Ok buf, s').
Proof.
  unfold xmlSecEncCtxDecryptToBuffer. intros H.
  step_ok H. step_ok H. unfold upd_ctx, xmlSecAddIDs, emit in H. do 2 step_ok H.
  bind_ok H u1 s1 H1. apply checked_Ok_inv in H1. destruct u1.
  step_ok H.
  bind_ok H u2 s2 H2. destruct u2.
  exists s1, s2. split; [exact H1|]. split; [|exact H].
  destruct (cipherValueNode (ctx s1)) as [cv|].
  - destruct (xmlNodeGetContent E cv) as [data|].
    + apply checked_Ok_inv in H2. eauto.
    + unfold xmlSecError, bind, modify, fail in H2. cbn in H2. discriminate.
  - now apply checked_Ok_inv in H2.
Qed.

(** X15: what a successful [xmlSecEncCtxDecryptToBuffer] decrypts.  When
    the template holds a CipherValue (so [cipherValueNode] is set), the
    text content of that node is pushed through the chain; otherwise the
    chain is run from its URI source.  In both cases running the chain is
    the last outside call, and the buffer returned, which is also
    [encResult], is what the chain gave. *)
Theorem decrypt_input (node : xmlNode) (s s' : state) (buf : xmlSecBuffer) :
  xmlSecEncCtxDecryptToBuffer E node s = (Ok buf, s') ->
  encResult (ctx s') = Some buf /\
  match cipherValueNode (ctx s') with
  | Some cv =>
      exists data,
        xmlNodeGetContent E cv = Some data /\
        binaryExecute E (chain_transforms s') (list_byte_of_string data) = Some buf /\
        last (new_events s s') = Some (EvBinaryExecute (list_byte_of_string data))
  | None =>
      execute E (chain_transforms s') (uri (encTransformCtx (ctx s'))) = Some buf /\
      last (new_events s s') = Some (EvExecute (node_doc node))
  end.
Proof.
  intros H. apply DecryptToBuffer_stages in H.
  destruct H as (s1 & s2 & H1 & H2 & H3).
  frame_as G1 H1 (extends (fun _ : event => true))
    ltac:(pres_extends (fun _ : event => true)).
  destruct G1 as (e1 & He1 & _). cbn [entered trace] in He1.
  apply take_result_Ok in H3. destruct H3 as (Hres & ->).
  cbn [ctx]. split; [reflexivity|].
  change (cipherValueNode (set_encResult (Some buf) (ctx s2)))
    with (cipherValueNode (ctx s2)).
  destruct (cipherValueNode (ctx s1)) as [cv|] eqn:Hcv.
  - destruct H2 as (data & Hdata & H2).
    apply BinaryExecute_Ok in H2. destruct H2 as (out & Hout & ->).
    cbn in Hres. inversion Hres; subst out. cbn. rewrite Hcv.
    exists data. split; [exact Hdata|]. split; [exact Hout|].
    rewrite (new_events_app s _ (([EvAddIDs node] ++ e1)
                                 ++ [EvBinaryExecute (list_byte_of_string data)])).
    + apply last_snoc.
    + cbn. rewrite He1. now rewrite <- !app_assoc.
  - apply Execute_Ok in H2. destruct H2 as (out & Hout & ->).
    cbn in Hres. inversion Hres; subst out. cbn. rewrite Hcv.
    split; [exact Hout|].
    rewrite (new_events_app s _ (([EvAddIDs node] ++ e1) ++ [EvExecute (node_doc node)])).
    + apply last_snoc.
    + cbn. rewrite He1. now rewrite <- !app_assoc.
Qed.

(** X16: a successful [xmlSecEncCtxDecrypt] of a template whose Type is
    Element or Content ends by replacing the EncryptedData node itself, in
    both cases, with the decrypted buffer, which is [encResult]; [replaced]
    is set. *)
Theorem decrypt_splices (node : xmlNode) (s s' : state) :
  xmlSecEncCtxDecrypt E node s = (Ok tt, s') ->
  is_element_or_content (xmlGetProp node xmlSecAttrType) = true ->
  exists buf,
    encResult (ctx s') = Some buf /\
    last (new_events s s') = Some (EvReplaceNodeBuffer node buf true) /\
    replaced (ctx s') = true.
Proof.
  unfold xmlSecEncCtxDecrypt. intros H Hty.
  bind_ok H buf s1 H1. apply checked_Ok_inv in H1.
  step_ok H. bind_ok H u2 s2 H2. apply ret_inv in H. destruct H as [_ ->].
  pose proof (DecryptToBuffer_events E node s) as G1. rewrite H1 in G1.
  destruct G1 as (e1 & He1 & _). cbn [snd] in He1.
  apply DecryptToBuffer_Ok in H1. destruct H1 as (Ht & Hr).
  exists buf.
  assert (Hs2 : s2 = mkState (set_replaced true (ctx s1)) (transforms s1) (log s1)
                             (trace s1 ++ [EvReplaceNodeBuffer node buf true])).
  { unfold is_element_or_content in Hty. rewrite <- Ht in Hty.
    destruct (is_Some_b (type_ (ctx s1))
              && xmlStrEqual (type_ (ctx s1)) (Some xmlSecTypeEncElement)).
    - bind_ok H2 u3 s3 H3. apply checked_Ok_inv in H3.
      unfold xmlSecReplaceNodeBuffer, emit in H3. step_ok H3.
      destruct (xmlSecReplaceNodeBuffer_ok E node buf); [|discriminate].
      apply ret_inv in H3. destruct H3 as [_ ->].
      unfold upd_ctx in H2. apply modify_inv in H2. destruct H2 as [_ ->]. reflexivity.
    - cbn [orb] in Hty. rewrite Hty in H2.
      bind_ok H2 u3 s3 H3. apply checked_Ok_inv in H3.
      unfold xmlSecReplaceNodeBuffer, emit in H3. step_ok H3.
      destruct (xmlSecReplaceNodeBuffer_ok E node buf); [|discriminate].
      apply ret_inv in H3. destruct H3 as [_ ->].
      unfold upd_ctx in H2. apply modify_inv in H2. destruct H2 as [_ ->]. reflexivity. }
  subst s2. cbn. split; [exact Hr|]. split; [|reflexivity].
  rewrite (new_events_app s _ (e1 ++ [EvReplaceNodeBuffer node buf true])).
  - apply last_snoc.
  - cbn. rewrite He1. now rewrite app_assoc.
Qed.

(** *** Binary and URI encryption *)

(** X18: a successful [xmlSecEncCtxBinaryEncrypt] runs the chain exactly
    once, on the bytes it was given, and [encResult] is what the chain gave
    for them. *)
Theorem binary_encrypt_input (tmpl : xmlNode) (data : list byte) (s s' : state) :
  xmlSecEncCtxBinaryEncrypt E tmpl data s = (Ok tt, s') ->
  exists buf,
    encResult (ctx s') = Some buf /\
    binaryExecute E (chain_transforms s') data = Some buf /\
    List.filter is_exec (new_events s s') = [EvBinaryExecute data].
Proof.
  intros H. apply BinaryEncrypt_stages in H.
  destruct H as (s1 & s2 & s3 & buf & H1 & H2 & H3 & H6).
  pose (P := fun e : event => negb (is_exec e)).
  frame_as G1 H1 (extends P) ltac:(pres_extends P).
  frame_as G6 H6 (extends P) ltac:(pres_extends P).
  destruct G1 as (e1 & He1 & Hf1). destruct G6 as (e6 & He6 & Hf6).
  cbn [entered trace] in He1.
  assert (Hext : extends (fun _ : event => true) s s2).
  { frame_as G2 H2 (extends (fun _ : event => true))
      ltac:(pres_extends (fun _ : event => true)).
    destruct G2 as (e2 & He2 & _).
    eexists. split; [|apply forallb_forall; auto].
    rewrite He2, He1, <- !app_assoc. reflexivity. }
  destruct (writes_after E s s2 s3 s' buf Hext H3 H6)
    as (k & Hr & _ & _ & _ & _ & _ & Htr6 & Hch6 & _).
  apply BinaryExecute_Ok in H2. destruct H2 as (out & Hout & Hs2).
  pose proof (take_result_Ok _ _ _ H3) as (Hres & Hs3).
  assert (Hob : out = buf) by (subst s2; cbn in Hres; congruence). subst out.
  exists buf. split; [exact Hr|]. split.
  - replace (chain_transforms s') with (chain_transforms s1); [exact Hout|].
    unfold chain_transforms, chain_of in *. rewrite Htr6, Hch6. subst s2. reflexivity.
  - rewrite (new_events_app s s' ([EvAddIDs tmpl] ++ e1 ++ [EvBinaryExecute data] ++ e6)).
    + rewrite !List.filter_app, (filter_none _ e1 Hf1), (filter_none _ e6 Hf6).
      reflexivity.
    + rewrite He6. subst s3 s2. cbn. rewrite He1, <- !app_assoc. reflexivity.
Qed.

Lemma SetUri_Ok u hint s s' :
  xmlSecTransformCtxSetUri E u hint s = (Ok tt, s') ->
  exists id,
    uriSource E u hint = Some id /\
    s' = mkState (set_encTransformCtx
                    (mkTransformCtx (List.length (transforms s) :: chain_of (ctx s))
                                    (Some u) (result (encTransformCtx (ctx s))))
                    (ctx s))
                 (transforms s ++ [xmlSecTransformCreate id]) (log s)
                 (trace s ++ [EvSetUri u hint]).
Proof.
  unfold xmlSecTransformCtxSetUri. intros H.
  destruct (uriSource E u hint) as [id|]; [|discriminate].
  unfold alloc, xmlSecTransformCtxPrepend, upd_tctx, upd_ctx, emit, bind, get, modify,
    ret in H.
  cbn in H. inversion H; subst. exists id. auto.
Qed.

(** X19: a successful [xmlSecEncCtxUriEncrypt] has put the source transform
    that the URI calls for at the head of the chain, before the template is
    read, has recorded the URI in the chain, and has run the chain exactly
    once, from that source; [encResult] is what the chain gave. *)
Theorem uri_encrypt_input (tmpl : xmlNode) (u : string) (s s' : state) :
  xmlSecEncCtxUriEncrypt E tmpl u s = (Ok tt, s') ->
  exists id src t rest buf,
    uriSource E u tmpl = Some id /\
    chain_of (ctx s') = src :: chain_of (ctx s) ++ rest /\
    transform_at s' src = Some t /\ tr_id t = id /\
    uri (encTransformCtx (ctx s')) = Some u /\
    execute E (chain_transforms s') (Some u) = Some buf /\
    encResult (ctx s') = Some buf /\
    List.filter is_exec (new_events s s') = [EvExecute (node_doc tmpl)].
Proof.
  intros H. apply UriEncrypt_stages in H.
  destruct H as (s0 & s1 & s2 & s3 & buf & H0 & H1 & H2 & H3 & H6).
  pose (P := fun e : event => negb (is_exec e)).
  frame_as G1 H1 (extends P) ltac:(pres_extends P).
  frame_as G6 H6 (extends P) ltac:(pres_extends P).
  destruct G1 as (e1 & He1 & Hf1). destruct G6 as (e6 & He6 & Hf6).
  apply SetUri_Ok in H0. destruct H0 as (id & Hid & Hs0).
  cbn [entered ctx transforms log trace] in Hs0.
  assert (He0 : encrypt (ctx s0) = true) by (subst s0; reflexivity).
  assert (Hq0 : transform_at s0 (List.length (transforms s))
                = Some (xmlSecTransformCreate id)).
  { subst s0. unfold transform_at. cbn.
    apply (list_lookup_middle (transforms s) [] _ _ eq_refl). }
  destruct (EncDataNodeRead_encrypt_keeps E _ _ _ _ _ H1 He0 Hq0) as (t & Ht & Htid).
  destruct (EncDataNodeRead_encrypt_parts E _ _ _ H1 He0)
    as (p & s4 & _ & Hu4 & Hch4 & H5 & Hcond).
  frame_as F5 H5 (same (fun c => uri (encTransformCtx c)))
    ltac:(pres_same (fun c => uri (encTransformCtx c))).
  unfold same in F5.
  assert (Huri : uri (encTransformCtx (ctx s1)) = uri (encTransformCtx (ctx s0)))
    by congruence.
  assert (Hch1 : exists rest, chain_of (ctx s1) = chain_of (ctx s0) ++ rest).
  { apply base64_Ok in H5.
    destruct (encrypt (ctx s4) && is_Some_b (cipherValueNode (ctx s4))).
    - destruct H5 as (q & t5 & Hc & _). exists [p; q].
      rewrite Hc, Hch4, <- app_assoc. reflexivity.
    - subst s4. eauto. }
  destruct Hch1 as (rest & Hch1).
  assert (Hext : extends (fun _ : event => true) s s2).
  { frame_as G2 H2 (extends (fun _ : event => true))
      ltac:(pres_extends (fun _ : event => true)).
    destruct G2 as (e2 & He2 & _).
    eexists. split; [|apply forallb_forall; auto].
    rewrite He2, He1. subst s0. cbn. rewrite <- !app_assoc. reflexivity. }
  destruct (writes_after E s s2 s3 s' buf Hext H3 H6)
    as (k & Hr & _ & _ & _ & _ & _ & Htr6 & Hch6 & _).
  frame_as U6 H6 (same (fun c => uri (encTransformCtx c)))
    ltac:(pres_same (fun c => uri (encTransformCtx c))).
  unfold same in U6.
  apply Execute_Ok in H2. destruct H2 as (out & Hout & Hs2).
  pose proof (take_result_Ok _ _ _ H3) as (Hres & Hs3).
  assert (Hob : out = buf) by (subst s2; cbn in Hres; congruence). subst out.
  assert (Hu1 : uri (encTransformCtx (ctx s1)) = Some u).
  { rewrite Huri. subst s0. reflexivity. }
  exists id, (List.length (transforms s)), t, rest, buf.
  split; [exact Hid|].
  split.
  { rewrite Hch6. subst s2. unfold chain_of in *. cbn. rewrite Hch1. subst s0.
    reflexivity. }
  split.
  { unfold transform_at in *. rewrite Htr6. subst s2. exact Ht. }
  split; [rewrite Htid; reflexivity|].
  split.
  { rewrite U6. subst s3 s2. cbn. exact Hu1. }
  split.
  { replace (chain_transforms s') with (chain_transforms s1).
    - now rewrite <- Hu1.
    - unfold chain_transforms, chain_of in *. rewrite Htr6, Hch6. subst s2. reflexivity. }
  split; [exact Hr|].
  rewrite (new_events_app s s' ([EvAddIDs tmpl; EvSetUri u tmpl] ++ e1
                                ++ [EvExecute (node_doc tmpl)] ++ e6)).
  - rewrite !List.filter_app, (filter_none _ e1 Hf1), (filter_none _ e6 Hf6).
    reflexivity.
  - rewrite He6. subst s3 s2. cbn. rewrite He1. subst s0. cbn.
    rewrite <- !app_assoc. reflexivity.
Qed.

(** *** Failures of the chain and of the ciphertext *)

(** X28: when the template has been read and the chain then fails on the
    data, [xmlSecEncCtxBinaryEncrypt] fails with one more report,
    XMLSEC_FAILED for [xmlSecTransformCtxBinaryExecute] with the size of the
    data as argument; the context keeps no result and nothing has been
    written into the template. *)
Theorem binary_encrypt_chain_fails (tmpl : xmlNode) (data : list byte) (s s1 : state) :
  encResult (ctx s) = None ->
  xmlSecEncCtxEncDataNodeRead E tmpl (entered true tmpl s) = (Ok tt, s1) ->
  binaryExecute E (chain_transforms s1) data = None ->
  xmlSecEncCtxBinaryEncrypt E tmpl data s =
    (Fail, mkState (ctx s1) (transforms s1)
                   (log s1 ++ [Report (mkError None (Some "xmlSecTransformCtxBinaryExecute")
                                               XMLSEC_ERRORS_R_XMLSEC_FAILED "dataSize=%d"
                                               [ArgInt (Z.of_nat (List.length data))])])
                   (trace s1 ++ [EvBinaryExecute data])) /\
  encResult (ctx s1) = None /\
  forallb (fun e => negb (is_dom_write e))
          (new_events s (snd (xmlSecEncCtxBinaryEncrypt E tmpl data s))) = true.
Proof.
  intros Hr H1 Hchain.
  assert (Hrun : xmlSecEncCtxBinaryEncrypt E tmpl data s =
                 (Fail, mkState (ctx s1) (transforms s1)
                   (log s1 ++ [Report (mkError None (Some "xmlSecTransformCtxBinaryExecute")
                                               XMLSEC_ERRORS_R_XMLSEC_FAILED "dataSize=%d"
                                               [ArgInt (Z.of_nat (List.length data))])])
                   (trace s1 ++ [EvBinaryExecute data]))).
  { unfold xmlSecEncCtxBinaryEncrypt, xmlSecAssert2, xmlSecAddIDs, get_ctx, upd_ctx, emit,
      bind, get, modify, ret.
    cbn. rewrite Hr. cbn.
    change (mkState (set_encrypt true (ctx s)) (transforms s) (log s)
                    (trace s ++ [EvAddIDs tmpl])) with (entered true tmpl s).
    unfold checked at 1. rewrite H1.
    unfold checked, xmlSecTransformCtxBinaryExecute, xmlSecError, emit, bind, get,
      modify, fail.
    cbn.
    change (chain_transforms (mkState (ctx s1) (transforms s1) (log s1)
                                      (trace s1 ++ [EvBinaryExecute data])))
      with (chain_transforms s1).
    rewrite Hchain. reflexivity. }
  split; [exact Hrun|].
  frame_as R1 H1 (same encResult) ltac:(pres_same encResult).
  frame_as G1 H1 (extends (fun e => negb (is_dom_write e)))
    ltac:(pres_extends (fun e => negb (is_dom_write e))).
  split; [unfold same in R1; cbn in R1; congruence|].
  rewrite Hrun. cbn [snd]. destruct G1 as (e1 & He1 & Hf1). cbn [entered trace] in He1.
  rewrite (new_events_app s _ ([EvAddIDs tmpl] ++ e1 ++ [EvBinaryExecute data])).
  - rewrite !forallb_app, Hf1. reflexivity.
  - cbn. rewrite He1, <- !app_assoc. reflexivity.
Qed.

(** X29: when the template has been read, it holds a CipherValue and the
    content of that node cannot be got, [xmlSecEncCtxDecryptToBuffer] fails
    with one more report, INVALID_NODE_CONTENT for [xmlNodeGetContent]
    naming the node, and the chain is never run. *)
Theorem decrypt_no_content (node cv : xmlNode) (s s1 : state) :
  encResult (ctx s) = None ->
  xmlSecEncCtxEncDataNodeRead E node (entered false node s) = (Ok tt, s1) ->
  cipherValueNode (ctx s1) = Some cv ->
  xmlNodeGetContent E cv = None ->
  xmlSecEncCtxDecryptToBuffer E node s =
    (Fail, mkState (ctx s1) (transforms s1)
                   (log s1 ++ [Report (mkError None (Some "xmlNodeGetContent")
                                               XMLSEC_ERRORS_R_INVALID_NODE_CONTENT "node=%s"
                                               [ArgStr (node_name cv)])])
                   (trace s1)) /\
  forallb (fun e => negb (is_exec e))
          (new_events s (snd (xmlSecEncCtxDecryptToBuffer E node s))) = true.
Proof.
  intros Hr H1 Hcv Hcontent.
  assert (Hrun : xmlSecEncCtxDecryptToBuffer E node s =
                 (Fail, mkState (ctx s1) (transforms s1)
                   (log s1 ++ [Report (mkError None (Some "xmlNodeGetContent")
                                               XMLSEC_ERRORS_R_INVALID_NODE_CONTENT "node=%s"
                                               [ArgStr (node_name cv)])])
                   (trace s1))).
  { unfold xmlSecEncCtxDecryptToBuffer, xmlSecAssert2, xmlSecAddIDs, get_ctx, upd_ctx, emit,
      bind, get, modify, ret.
    cbn. rewrite Hr. cbn.
    change (mkState (set_encrypt false (ctx s)) (transforms s) (log s)
                    (trace s ++ [EvAddIDs node])) with (entered false node s).
    unfold checked at 1. rewrite H1. rewrite Hcv, Hcontent.
    reflexivity. }
  split; [exact Hrun|].
  frame_as G1 H1 (extends (fun e => negb (is_exec e)))
    ltac:(pres_extends (fun e => negb (is_exec e))).
  rewrite Hrun. cbn [snd]. destruct G1 as (e1 & He1 & Hf1). cbn [entered trace] in He1.
  rewrite (new_events_app s _ ([EvAddIDs node] ++ e1)).
  - rewrite forallb_app, Hf1. reflexivity.
  - cbn. rewrite He1, <- !app_assoc. reflexivity.
Qed.

End WithEnv.

Import EncSamples MoreSamples.

Lemma xml_encrypt_input_witness :
  let tmpl := tmpl_content in
  let node := secret_pair in
  let s := initialized mngr_aes in
  let s' := snd (xmlSecEncCtxXmlEncrypt env_ok tmpl node s) in
  xmlSecEncCtxXmlEncrypt env_ok tmpl node s = (Ok tt, s') /\
  result (encTransformCtx (ctx s)) = None /\
  exists nodes buf,
    xml_input (xmlGetProp tmpl xmlSecAttrType) node = Some nodes /\
    List.filter is_outputWrite (new_events s s')
      = map (fun n => EvOutputWrite (XmlEnc.xmlNodeDump env_ok n)) nodes /\
    binaryExecute env_ok (chain_transforms s')
                  (concat (map (XmlEnc.xmlNodeDump env_ok) nodes)) = Some buf /\
    encResult (ctx s') = Some buf /\
    last (new_events s s')
      = Some (xml_splice (xmlGetProp tmpl xmlSecAttrType) node tmpl) /\
    replaced (ctx s') = true.
Proof.
  cbv zeta.
  assert (H1 : xmlSecEncCtxXmlEncrypt env_ok tmpl_content secret_pair (initialized mngr_aes)
               = (Ok tt, snd (xmlSecEncCtxXmlEncrypt env_ok tmpl_content secret_pair
                                (initialized mngr_aes)))).
  { vm_compute. reflexivity. }
  assert (H2 : result (encTransformCtx (ctx (initialized mngr_aes))) = None)
    by reflexivity.
  split; [exact H1|]. split; [exact H2|].
  exact (xml_encrypt_input env_ok _ _ _ _ H1 H2).
Defined.

Lemma xml_encrypt_unknown_type_witness :
  let tmpl := tmpl_value_untyped in
  let node := secret in
  let s := initialized mngr_aes in
  xml_input (xmlGetProp tmpl xmlSecAttrType) node = None /\
  (fst (xmlSecEncCtxXmlEncrypt env_ok tmpl node s) = Fail /\
   forallb no_write (new_events s (snd (xmlSecEncCtxXmlEncrypt env_ok tmpl node s)))
   = true /\
   replaced (ctx (snd (xmlSecEncCtxXmlEncrypt env_ok tmpl node s))) = replaced (ctx s)).
Proof.
  cbv zeta.
  assert (H : xml_input (xmlGetProp tmpl_value_untyped xmlSecAttrType) secret = None)
    by reflexivity.
  split; [exact H|].
  exact (xml_encrypt_unknown_type env_ok tmpl_value_untyped secret
                                  (initialized mngr_aes) H).
Defined.

Lemma decrypt_input_witness :
  let node := tmpl_value_untyped in
  let s := initialized mngr_aes in
  let buf := x2a :: list_byte_of_string "QUJD" in
  let s' := snd (xmlSecEncCtxDecryptToBuffer env_ok node s) in
  xmlSecEncCtxDecryptToBuffer env_ok node s = (Ok buf, s') /\
  (encResult (ctx s') = Some buf /\
   match cipherValueNode (ctx s') with
   | Some cv =>
       exists data,
         xmlNodeGetContent env_ok cv = Some data /\
         binaryExecute env_ok (chain_transforms s') (list_byte_of_string data)
         = Some buf /\
         last (new_events s s') = Some (EvBinaryExecute (list_byte_of_string data))
   | None =>
       execute env_ok (chain_transforms s') (uri (encTransformCtx (ctx s'))) = Some buf /\
       last (new_events s s') = Some (EvExecute (node_doc node))
   end).
Proof.
  cbv zeta.
  assert (H : xmlSecEncCtxDecryptToBuffer env_ok tmpl_value_untyped (initialized mngr_aes)
              = (Ok (x2a :: list_byte_of_string "QUJD"),
                 snd (xmlSecEncCtxDecryptToBuffer env_ok tmpl_value_untyped
                        (initialized mngr_aes)))).
  { vm_compute. reflexivity. }
  split; [exact H|].
  exact (decrypt_input env_ok _ _ _ _ H).
Defined.

Lemma decrypt_splices_witness :
  let node := tmpl_content in
  let s := initialized mngr_aes in
  let s' := snd (xmlSecEncCtxDecrypt env_ok node s) in
  xmlSecEncCtxDecrypt env_ok node s = (Ok tt, s') /\
  is_element_or_content (xmlGetProp node xmlSecAttrType) = true /\
  exists buf,
    encResult (ctx s') = Some buf /\
    last (new_events s s') = Some (EvReplaceNodeBuffer node buf true) /\
    replaced (ctx s') = true.
Proof.
  cbv zeta.
  assert (H1 : xmlSecEncCtxDecrypt env_ok tmpl_content (initialized mngr_aes)
               = (Ok tt, snd (xmlSecEncCtxDecrypt env_ok tmpl_content
                                (initialized mngr_aes)))).
  { vm_compute. reflexivity. }
  assert (H2 : is_element_or_content (xmlGetProp tmpl_content xmlSecAttrType) = true)
    by reflexivity.
  split; [exact H1|]. split; [exact H2|].
  exact (decrypt_splices env_ok _ _ _ H1 H2).
Defined.

Lemma binary_encrypt_input_witness :
  let s := initialized mngr_aes in
  let s' := snd (xmlSecEncCtxBinaryEncrypt env_ok tmpl_value data_hello s) in
  xmlSecEncCtxBinaryEncrypt env_ok tmpl_value data_hello s = (Ok tt, s') /\
  exists buf,
    encResult (ctx s') = Some buf /\
    binaryExecute env_ok (chain_transforms s') data_hello = Some buf /\
    List.filter is_exec (new_events s s') = [EvBinaryExecute data_hello].
Proof.
  cbv zeta.
  assert (H : xmlSecEncCtxBinaryEncrypt env_ok tmpl_value data_hello (initialized mngr_aes)
              = (Ok tt, snd (xmlSecEncCtxBinaryEncrypt env_ok tmpl_value data_hello
                               (initialized mngr_aes)))).
  { vm_compute. reflexivity. }
  split; [exact H|].
  exact (binary_encrypt_input env_ok _ _ _ _ H).
Defined.

Lemma uri_encrypt_input_witness :
  let tmpl := tmpl_value in
  let u := "file:///tmp/plain.bin" in
  let s := initialized mngr_aes in
  let s' := snd (xmlSecEncCtxUriEncrypt env_ok tmpl u s) in
  xmlSecEncCtxUriEncrypt env_ok tmpl u s = (Ok tt, s') /\
  exists id src t rest buf,
    uriSource env_ok u tmpl = Some id /\
    chain_of (ctx s') = src :: chain_of (ctx s) ++ rest /\
    transform_at s' src = Some t /\ tr_id t = id /\
    uri (encTransformCtx (ctx s')) = Some u /\
    execute env_ok (chain_transforms s') (Some u) = Some buf /\
    encResult (ctx s') = Some buf /\
    List.filter is_exec (new_events s s') = [EvExecute (node_doc tmpl)].
Proof.
  cbv zeta.
  assert (H : xmlSecEncCtxUriEncrypt env_ok tmpl_value "file:///tmp/plain.bin"
                (initialized mngr_aes)
              = (Ok tt, snd (xmlSecEncCtxUriEncrypt env_ok tmpl_value
                               "file:///tmp/plain.bin" (initialized mngr_aes)))).
  { vm_compute. reflexivity. }
  split; [exact H|].
  exact (uri_encrypt_input env_ok _ _ _ _ H).
Defined.

Lemma binary_encrypt_chain_fails_witness :
  let tmpl := tmpl_value in
  let s := initialized mngr_aes in
  let s1 := snd (xmlSecEncCtxEncDataNodeRead env_chain_fails tmpl (entered true tmpl s)) in
  encResult (ctx s) = None /\
  xmlSecEncCtxEncDataNodeRead env_chain_fails tmpl (entered true tmpl s) = (Ok tt, s1) /\
  binaryExecute env_chain_fails (chain_transforms s1) data_hello = None /\
  (xmlSecEncCtxBinaryEncrypt env_chain_fails tmpl data_hello s =
     (Fail, mkState (ctx s1) (transforms s1)
                    (log s1 ++ [Report (mkError None (Some "xmlSecTransformCtxBinaryExecute")
                                                XMLSEC_ERRORS_R_XMLSEC_FAILED "dataSize=%d"
                                                [ArgInt (Z.of_nat (List.length data_hello))])])
                    (trace s1 ++ [EvBinaryExecute data_hello])) /\
   encResult (ctx s1) = None /\
   forallb (fun e => negb (is_dom_write e))
           (new_events s (snd (xmlSecEncCtxBinaryEncrypt env_chain_fails tmpl data_hello s)))
   = true).
Proof.
  cbv zeta.
  assert (H1 : encResult (ctx (initialized mngr_aes)) = None) by reflexivity.
  assert (H2 : xmlSecEncCtxEncDataNodeRead env_chain_fails tmpl_value
                 (entered true tmpl_value (initialized mngr_aes))
               = (Ok tt, snd (xmlSecEncCtxEncDataNodeRead env_chain_fails tmpl_value
                                (entered true tmpl_value (initialized mngr_aes))))).
  { vm_compute. reflexivity. }
  assert (H3 : binaryExecute env_chain_fails
                 (chain_transforms
                    (snd (xmlSecEncCtxEncDataNodeRead env_chain_fails tmpl_value
                            (entered true tmpl_value (initialized mngr_aes)))))
                 data_hello = None) by reflexivity.
  split; [exact H1|]. split; [exact H2|]. split; [exact H3|].
  exact (binary_encrypt_chain_fails env_chain_fails _ _ _ _ H1 H2 H3).
Defined.

Lemma decrypt_no_content_witness :
  let node := tmpl_value in
  let cv := CipherValue_node in
  let s := initialized mngr_aes in
  let s1 := snd (xmlSecEncCtxEncDataNodeRead env_no_content node (entered false node s)) in
  encResult (ctx s) = None /\
  xmlSecEncCtxEncDataNodeRead env_no_content node (entered false node s) = (Ok tt, s1) /\
  cipherValueNode (ctx s1) = Some cv /\
  xmlNodeGetContent env_no_content cv = None /\
  (xmlSecEncCtxDecryptToBuffer env_no_content node s =
     (Fail, mkState (ctx s1) (transforms s1)
                    (log s1 ++ [Report (mkError None (Some "xmlNodeGetContent")
                                                XMLSEC_ERRORS_R_INVALID_NODE_CONTENT "node=%s"
                                                [ArgStr (node_name cv)])])
                    (trace s1)) /\
   forallb (fun e => negb (is_exec e))
           (new_events s (snd (xmlSecEncCtxDecryptToBuffer env_no_content node s))) = true).
Proof.
  cbv zeta.
  assert (H1 : encResult (ctx (initialized mngr_aes)) = None) by reflexivity.
  assert (H2 : xmlSecEncCtxEncDataNodeRead env_no_content tmpl_value
                 (entered false tmpl_value (initialized mngr_aes))
               = (Ok tt, snd (xmlSecEncCtxEncDataNodeRead env_no_content tmpl_value
                                (entered false tmpl_value (initialized mngr_aes))))).
  { vm_compute. reflexivity. }
  assert (H3 : cipherValueNode
                 (ctx (snd (xmlSecEncCtxEncDataNodeRead env_no_content tmpl_value
                              (entered false tmpl_value (initialized mngr_aes)))))
               = Some CipherValue_node).
  { vm_compute. reflexivity. }
  assert (H4 : xmlNodeGetContent env_no_content CipherValue_node = None) by reflexivity.
  split; [exact H1|]. split; [exact H2|]. split; [exact H3|]. split; [exact H4|].
  exact (decrypt_no_content env_no_content _ _ _ _ H1 H2 H3 H4).
Defined.

End EncData.

(* ================================================================== *)
(** * The CipherData source and the key check of a read *)
(* ================================================================== *)

Module EncRead.
Import XmlEnc EncLogic EncMoreDefs MonadFacts EncFacts EncLifecycle EncTemplate EncOps EncData.

Section WithEnv.
Variable E : env.

(** *** The key check *)








(** *** A CipherReference puts its source on the chain *)






End WithEnv.

Import EncSamples MoreSamples.



(** The other way to have no acceptable key: nothing is preset and the
    keys manager's hook finds nothing.  Decrypt then fails with
    KEY_NOT_FOUND and does not run the chain. *)
Lemma missing_key_example :
  let s := initialized mngr_empty in
  let r := run_op env_ok (Decrypt tmpl_value) s in
  encKey (ctx s) = None /\
  existsb key_failure (new_events s (snd r)) = true /\
  fst r = Fail /\
  reported XMLSEC_ERRORS_R_KEY_NOT_FOUND (new_log s (snd r)) /\
  existsb is_exec (new_events s (snd r)) = false.
Proof. vm_compute. repeat split; reflexivity. Qed.

End EncRead.

(* ================================================================== *)
(** * Further properties of the XSLT stage *)
(* ================================================================== *)

Module XsltMore.
Import Xslt XsltSamples MonadFacts.

Section WithEnv.
Variable E : env.

(** X21: every method of the XSLT klass first checks that the transform it
    is given is an XSLT transform; on any other transform it fails on that
    assertion and leaves the transform as it was. *)
Theorem wrong_klass_rejected (t : xmlSecTransform) (lg : xmlSecLog)
    (node : xmlNode) (last : Z) (transformCtx_set : bool) :
  xmlSecTransformCheckId t xmlSecTransformXsltId = false ->
  let rejected :=
    (Fail, mkState t (lg ++ [AssertFailed
             "xmlSecTransformCheckId(transform, xmlSecTransformXsltId)"])) in
  xmlSecXsltInitialize (mkState t lg) = rejected /\
  xmlSecXsltFinalize (mkState t lg) = rejected /\
  xmlSecXsltReadNode E node (mkState t lg) = rejected /\
  xmlSecXsltExecute E last transformCtx_set (mkState t lg) = rejected.
Proof.
  intros H. cbv zeta.
  unfold xmlSecXsltInitialize, xmlSecXsltFinalize, xmlSecXsltReadNode, xmlSecXsltExecute,
    xmlSecAssert2, bind, get, modify, ret, fail.
  cbn. rewrite H. cbn. auto.
Qed.

(** X22: a successful [xmlSecXsltReadNode] has stored the stylesheet
    compiled from the document parsed from the serialization of the
    children of the node, and has changed nothing else; the stylesheet can
    be read only once: any further [readNode] on that transform fails on
    the assertion [ctx->xslt == NULL] and leaves the transform as it is. *)
Theorem readNode_records (t : xmlSecTransform) (lg : xmlSecLog) (node : xmlNode)
    (s' : state) :
  xmlSecXsltReadNode E node (mkState t lg) = (Ok tt, s') ->
  exists doc sheet,
    xmlSecParseMemory E (List.concat (List.map (xmlNodeDump E) (node_children node)))
      = Some doc /\
    xsltParseStylesheetDoc E doc = Some sheet /\
    s' = mkState (set_tr_xsltCtx (mkXsltCtx (Some sheet)) t) lg /\
    forall node',
      xmlSecXsltReadNode E node' s'
      = (Fail, mkState (transform s') (lg ++ [AssertFailed "ctx->xslt == NULL"])).
Proof.
  unfold xmlSecXsltReadNode, xmlSecError, xmlSecAssert2, update, bind, get, modify, ret, fail.
  cbn.
  destruct (xmlSecTransformCheckId t xmlSecTransformXsltId) eqn:Hid; cbn; [|discriminate].
  destruct (xslt (tr_xsltCtx t)) eqn:Hx; cbn; [discriminate|].
  destruct (xmlBufferCreate_ok E); cbn; [|discriminate].
  destruct (xmlSecParseMemory E _) as [doc|]; cbn; [|discriminate].
  destruct (xsltParseStylesheetDoc E doc) as [sheet|] eqn:Hs; cbn; [|discriminate].
  intros H. inversion H; subst s'. clear H.
  exists doc, sheet.
  split; [reflexivity|]. split; [exact Hs|]. split; [reflexivity|].
  intros node'. cbn.
  unfold xmlSecTransformCheckId in *. destruct t; cbn in *. rewrite Hid. reflexivity.
Qed.

Lemma process_Fail_keeps (t : xmlSecTransform) (lg : xmlSecLog)
    (sheet : xsltStylesheetPtr) (s' : state) :
  xmlSecXslProcess E (Some sheet) (mkState t lg) = (Fail, s') -> transform s' = t.
Proof.
  unfold xmlSecXslProcess, xmlSecError, xmlSecAssert2, update, bind, get, modify, ret, fail.
  cbn.
  destruct (xmlSecParseMemory E (tr_inBuf t)) as [docIn|]; cbn.
  2: { intros H; inversion H; reflexivity. }
  destruct (xsltApplyStylesheet E sheet docIn) as [docOut|]; cbn.
  2: { intros H; inversion H; reflexivity. }
  destruct (xmlAllocOutputBuffer_ok E); cbn.
  2: { intros H; inversion H; reflexivity. }
  destruct (xsltSaveResultTo E docOut sheet) as [bytes|]; cbn.
  2: { intros H; inversion H; reflexivity. }
  destruct (xmlSecBufferSetData_ok E bytes); cbn.
  - discriminate.
  - intros H; inversion H; reflexivity.
Qed.

(** X23: a failed [xmlSecXslProcess] leaves both buffers and the whole
    transform as they were and makes exactly one report, whose subject and
    reason name the collaborator that failed: the parser of the input
    (XMLSEC_FAILED), the application of the stylesheet (XSLT_FAILED), the
    allocation of the output buffer (XML_FAILED), the serialization of the
    result (XSLT_FAILED) or the copy into the output buffer
    (XMLSEC_FAILED). *)
Theorem process_failure (t : xmlSecTransform) (lg : xmlSecLog)
    (sheet : xsltStylesheetPtr) (s' : state) :
  xmlSecXslProcess E (Some sheet) (mkState t lg) = (Fail, s') ->
  transform s' = t /\
  exists subject reason,
    log s' = lg ++ [Report (mkError None (Some subject) reason
                                    XMLSEC_ERRORS_NO_MESSAGE [])] /\
    ((subject = "xmlSecParseMemory" /\ reason = XMLSEC_ERRORS_R_XMLSEC_FAILED /\
      xmlSecParseMemory E (tr_inBuf t) = None) \/
     (subject = "xsltApplyStylesheet" /\ reason = XMLSEC_ERRORS_R_XSLT_FAILED /\
      exists docIn, xmlSecParseMemory E (tr_inBuf t) = Some docIn /\
                    xsltApplyStylesheet E sheet docIn = None) \/
     (subject = "xmlAllocOutputBuffer" /\ reason = XMLSEC_ERRORS_R_XML_FAILED /\
      xmlAllocOutputBuffer_ok E = false) \/
     (subject = "xsltSaveResultTo" /\ reason = XMLSEC_ERRORS_R_XSLT_FAILED /\
      exists docIn docOut,
        xmlSecParseMemory E (tr_inBuf t) = Some docIn /\
        xsltApplyStylesheet E sheet docIn = Some docOut /\
        xsltSaveResultTo E docOut sheet = None) \/
     (subject = "xmlSecBufferSetData" /\ reason = XMLSEC_ERRORS_R_XMLSEC_FAILED /\
      exists docIn docOut bytes,
        xmlSecParseMemory E (tr_inBuf t) = Some docIn /\
        xsltApplyStylesheet E sheet docIn = Some docOut /\
        xsltSaveResultTo E docOut sheet = Some bytes /\
        xmlSecBufferSetData_ok E bytes = false)).
Proof.
  unfold xmlSecXslProcess, xmlSecError, xmlSecAssert2, update, bind, get, modify, ret, fail.
  cbn.
  destruct (xmlSecParseMemory E (tr_inBuf t)) as [docIn|] eqn:Hp; cbn.
  2: { intros H; inversion H; subst; cbn. split; [reflexivity|].
       eexists _, _. split; [reflexivity|]. left. auto. }
  destruct (xsltApplyStylesheet E sheet docIn) as [docOut|] eqn:Ha; cbn.
  2: { intros H; inversion H; subst; cbn. split; [reflexivity|].
       eexists _, _. split; [reflexivity|]. right; left. eauto. }
  destruct (xmlAllocOutputBuffer_ok E) eqn:Hb; cbn.
  2: { intros H; inversion H; subst; cbn. split; [reflexivity|].
       eexists _, _. split; [reflexivity|]. right; right; left. auto. }
  destruct (xsltSaveResultTo E docOut sheet) as [bytes|] eqn:Hs; cbn.
  2: { intros H; inversion H; subst; cbn. split; [reflexivity|].
       eexists _, _. split; [reflexivity|]. right; right; right; left. eauto 10. }
  destruct (xmlSecBufferSetData_ok E bytes) eqn:Hd; cbn.
  - discriminate.
  - intros H; inversion H; subst; cbn. split; [reflexivity|].
    eexists _, _. split; [reflexivity|]. right; right; right; right. eauto 10.
Qed.

Lemma process_Ok_inv (t : xmlSecTransform) (lg : xmlSecLog)
    (sheet : xsltStylesheetPtr) (s' : state) :
  xmlSecXslProcess E (Some sheet) (mkState t lg) = (Ok tt, s') ->
  exists docIn docOut out,
    xmlSecParseMemory E (tr_inBuf t) = Some docIn /\
    xsltApplyStylesheet E sheet docIn = Some docOut /\
    xsltSaveResultTo E docOut sheet = Some out /\
    s' = mkState (set_tr_outBuf out t) lg.
Proof.
  unfold xmlSecXslProcess, xmlSecError, xmlSecAssert2, update, bind, get, modify, ret, fail.
  cbn.
  destruct (xmlSecParseMemory E (tr_inBuf t)) as [docIn|] eqn:Hp; cbn; [|discriminate].
  destruct (xsltApplyStylesheet E sheet docIn) as [docOut|] eqn:Ha; cbn; [|discriminate].
  destruct (xmlAllocOutputBuffer_ok E) eqn:Hb; cbn; [|discriminate].
  destruct (xsltSaveResultTo E docOut sheet) as [bytes|] eqn:Hs; cbn; [|discriminate].
  destruct (xmlSecBufferSetData_ok E bytes) eqn:Hd; cbn; [|discriminate].
  intros H; inversion H; subst. eauto 10.
Qed.


Lemma execute_last0_Ok_inv (t : xmlSecTransform) (lg : xmlSecLog) (s' : state) :
  xmlSecXsltExecute E 0 true (mkState t lg) = (Ok tt, s') ->
  tr_status t = xmlSecTransformStatusNone \/ tr_status t = xmlSecTransformStatusWorking ->
  s' = mkState (set_tr_status xmlSecTransformStatusWorking t) lg /\
  tr_outBuf t = [] /\ tr_id t = xmlSecTransformXsltId /\
  exists sheet, xslt (tr_xsltCtx t) = Some sheet.
Proof.
  destruct t as [i st e ib ob [x]]. cbn. intros H Hst.
  unfold xmlSecXsltExecute, xmlSecError, xmlSecAssert2, update, bind, get, modify, ret,
    fail in H.
  cbn in H.
  destruct i; cbn in H; try discriminate H.
  destruct x as [sheet|]; cbn in H; try discriminate H.
  destruct ob; cbn in H;
    destruct Hst as [-> | ->]; cbn in H; try discriminate H;
    inversion H; subst; eauto 10.
Qed.

Lemma execute_last_Ok_inv (last : Z) (t : xmlSecTransform) (lg : xmlSecLog) (s' : state) :
  xmlSecXsltExecute E last true (mkState t lg) = (Ok tt, s') ->
  (last =? 0)%Z = false ->
  tr_status t = xmlSecTransformStatusNone \/ tr_status t = xmlSecTransformStatusWorking ->
  exists sheet docIn docOut out,
    xslt (tr_xsltCtx t) = Some sheet /\
    xmlSecParseMemory E (tr_inBuf t) = Some docIn /\
    xsltApplyStylesheet E sheet docIn = Some docOut /\
    xsltSaveResultTo E docOut sheet = Some out /\
    s' = mkState (mkTransform xmlSecTransformXsltId xmlSecTransformStatusFinished
                              (tr_encode t) [] out (tr_xsltCtx t)) lg.
Proof.
  destruct t as [i st e ib ob [x]]. cbn. intros H Hl Hst.
  unfold xmlSecXsltExecute, xmlSecError, xmlSecAssert2, update, checked, bind, get,
    modify, ret, fail in H.
  cbn -[xmlSecXslProcess] in H. rewrite Hl in H.
  destruct i; cbn -[xmlSecXslProcess] in H; try discriminate H.
  destruct x as [sheet|]; cbn -[xmlSecXslProcess] in H; try discriminate H.
  destruct ob; cbn -[xmlSecXslProcess] in H.
  2: { destruct Hst as [-> | ->]; cbn in H; discriminate H. }
  assert (Hproc : exists sp,
             xmlSecXslProcess E (Some sheet)
               (mkState (mkTransform xmlSecTransformXsltId xmlSecTransformStatusWorking
                                     e ib [] (mkXsltCtx (Some sheet))) lg) = (Ok tt, sp) /\
             s' = mkState (set_tr_status xmlSecTransformStatusFinished
                             (set_tr_inBuf
                                (xmlSecBufferRemoveHead (tr_inBuf (transform sp))
                                   (xmlSecBufferGetSize ib))
                                (transform sp)))
                          (log sp)).
  { destruct Hst as [-> | ->]; cbn -[xmlSecXslProcess] in H;
      match type of H with
      | context [xmlSecXslProcess E (Some sheet) ?st] =>
          destruct (xmlSecXslProcess E (Some sheet) st) as [[[]|] sp] eqn:Hp;
            cbn in H; [|discriminate H]
      end; inversion H; subst; eauto. }
  destruct Hproc as (sp & Hp & ->).
  apply process_Ok_inv in Hp. destruct Hp as (docIn & docOut & out & Hpa & Hap & Hsv & ->).
  exists sheet, docIn, docOut, out. cbn in *.
  repeat (split; [assumption || reflexivity|]).
  unfold xmlSecBufferRemoveHead, xmlSecBufferGetSize. now rewrite skipn_all.
Qed.

(** X24: a successful run of the stage (any number of chunks, each
    followed by [execute(last=0)], then [execute(last=1)]) from status None
    or Working means that the transform had a stylesheet and that the whole
    input, the bytes already buffered followed by the chunks in order,
    parsed, that the stylesheet applied to it and that the result
    serialized; the stage is then Finished, its input buffer is empty, its
    output buffer holds that serialization, and nothing was logged. *)
Theorem run_Ok_inv (chunks : list (list byte)) :
  forall (t : xmlSecTransform) (lg : xmlSecLog) (s' : state),
  run E chunks (mkState t lg) = (Ok tt, s') ->
  tr_status t = xmlSecTransformStatusNone \/ tr_status t = xmlSecTransformStatusWorking ->
  exists sheet docIn docOut out,
    xslt (tr_xsltCtx t) = Some sheet /\
    xmlSecParseMemory E (tr_inBuf t ++ List.concat chunks) = Some docIn /\
    xsltApplyStylesheet E sheet docIn = Some docOut /\
    xsltSaveResultTo E docOut sheet = Some out /\
    s' = mkState (mkTransform xmlSecTransformXsltId xmlSecTransformStatusFinished
                              (tr_encode t) [] out (tr_xsltCtx t)) lg.
Proof.
  induction chunks as [|c cs IH]; intros t lg s' H Hst.
  - cbn [run] in H. cbn [List.concat]. rewrite app_nil_r.
    now apply (execute_last_Ok_inv 1).
  - cbn [run] in H.
    apply bind_inv in H. destruct H as [(u1 & s1 & H1 & H) | (Hf & _)]; [|discriminate].
    unfold xmlSecBufferAppend, update, modify in H1. inversion H1; subst s1. clear H1.
    apply bind_inv in H. destruct H as [(u2 & s2 & Hex & H) | (Hf & _)]; [|discriminate].
    destruct u2.
    apply execute_last0_Ok_inv in Hex; [|exact Hst].
    destruct Hex as (-> & _).
    apply IH in H; [|right; reflexivity].
    destruct H as (sheet & docIn & docOut & out & Hx & Hp & Ha & Hs & ->).
    exists sheet, docIn, docOut, out. cbn in *.
    rewrite <- app_assoc in Hp. auto.
Qed.

(** X25: when the processing of the buffered input fails in the closing
    [execute], the call fails, the stage stays Working with its transform,
    input included, otherwise as it was, and the last report is
    XMLSEC_FAILED for [xmlSecXslProcess] on the transform "xslt". *)
Theorem execute_process_fails (last : Z) (t : xmlSecTransform) (lg : xmlSecLog)
    (sheet : xsltStylesheetPtr) :
  (last =? 0)%Z = false ->
  tr_id t = xmlSecTransformXsltId ->
  xslt (tr_xsltCtx t) = Some sheet ->
  tr_outBuf t = [] ->
  tr_status t = xmlSecTransformStatusNone \/ tr_status t = xmlSecTransformStatusWorking ->
  fst (xmlSecXslProcess E (Some sheet)
         (mkState (set_tr_status xmlSecTransformStatusWorking t) lg)) = Fail ->
  let r := xmlSecXsltExecute E last true (mkState t lg) in
  fst r = Fail /\
  transform (snd r) = set_tr_status xmlSecTransformStatusWorking t /\
  list.last (log (snd r))
  = Some (Report (mkError (Some "xslt") (Some "xmlSecXslProcess")
                          XMLSEC_ERRORS_R_XMLSEC_FAILED XMLSEC_ERRORS_NO_MESSAGE [])).
Proof.
  destruct t as [i st e ib ob [x]]. cbn -[xmlSecXslProcess xmlSecXsltExecute].
  intros Hl -> -> -> Hst Hfail.
  assert (Hfail' : fst (xmlSecXslProcess E (Some sheet)
                          (mkState (mkTransform xmlSecTransformXsltId
                                      xmlSecTransformStatusWorking
                                      e ib [] (mkXsltCtx (Some sheet))) lg)) = Fail)
    by exact Hfail.
  clear Hfail.
  destruct (xmlSecXslProcess E (Some sheet)
              (mkState (mkTransform xmlSecTransformXsltId xmlSecTransformStatusWorking
                                    e ib [] (mkXsltCtx (Some sheet))) lg))
    as [[[]|] sp] eqn:Hp; [discriminate Hfail'|]. clear Hfail'.
  pose proof (process_Fail_keeps _ _ _ _ Hp) as Ht.
  unfold xmlSecXsltExecute, xmlSecError, xmlSecAssert2, update, checked, bind, get,
    modify, ret, fail.
  destruct Hst as [-> | ->]; cbn -[xmlSecXslProcess]; rewrite Hl;
    cbn -[xmlSecXslProcess].
  all: cbv [set_tr_status tr_id tr_encode tr_inBuf tr_outBuf tr_xsltCtx tr_status].
  all: rewrite Hp; cbn;
    (split; [reflexivity|]); (split; [exact Ht|]);
    apply last_snoc.
Qed.

(** X26: [execute(last=0)] only buffers: whatever state the transform is
    in and whether the call succeeds or fails, its input buffer, its output
    buffer and its stylesheet are left exactly as they were. *)
Theorem execute_last0_keeps_buffers (s : state) (transformCtx_set : bool) :
  let s' := snd (xmlSecXsltExecute E 0 transformCtx_set s) in
  tr_inBuf (transform s') = tr_inBuf (transform s) /\
  tr_outBuf (transform s') = tr_outBuf (transform s) /\
  tr_xsltCtx (transform s') = tr_xsltCtx (transform s).
Proof.
  destruct s as [t lg]. destruct t as [i st e ib ob [x]].
  unfold xmlSecXsltExecute, xmlSecError, xmlSecAssert2, update, checked, bind, get,
    modify, ret, fail.
  destruct i, transformCtx_set, x, st, ob, ib; cbn; auto.
Qed.

(** X27: once the stage is Finished and its input buffer is empty, any
    further [execute] succeeds and changes nothing: neither the transform
    nor the log. *)
Theorem finished_is_final (last : Z) (t : xmlSecTransform) (lg : xmlSecLog)
    (sheet : xsltStylesheetPtr) :
  tr_id t = xmlSecTransformXsltId ->
  xslt (tr_xsltCtx t) = Some sheet ->
  tr_status t = xmlSecTransformStatusFinished ->
  tr_inBuf t = [] ->
  xmlSecXsltExecute E last true (mkState t lg) = (Ok tt, mkState t lg).
Proof.
  destruct t as [i st e ib ob [x]]. cbn. intros -> -> -> ->.
  unfold xmlSecXsltExecute, xmlSecError, xmlSecAssert2, update, checked, bind, get,
    modify, ret, fail.
  cbn. destruct (last =? 0)%Z; reflexivity.
Qed.

End WithEnv.

Lemma wrong_klass_rejected_witness :
  let t := xmlSecTransformCreate xmlSecTransformBase64Id in
  xmlSecTransformCheckId t xmlSecTransformXsltId = false /\
  (let rejected :=
     (Fail, mkState t ([] ++ [AssertFailed
              "xmlSecTransformCheckId(transform, xmlSecTransformXsltId)"])) in
   xmlSecXsltInitialize (mkState t []) = rejected /\
   xmlSecXsltFinalize (mkState t []) = rejected /\
   xmlSecXsltReadNode env_ok stylesheet_node (mkState t []) = rejected /\
   xmlSecXsltExecute env_ok 1 true (mkState t []) = rejected).
Proof.
  cbv zeta.
  assert (H : xmlSecTransformCheckId (xmlSecTransformCreate xmlSecTransformBase64Id)
                xmlSecTransformXsltId = false) by reflexivity.
  split; [exact H|].
  exact (wrong_klass_rejected env_ok _ [] stylesheet_node 1 true H).
Defined.

Lemma readNode_records_witness :
  let s' := snd (xmlSecXsltReadNode env_ok stylesheet_node (mkState fresh [])) in
  xmlSecXsltReadNode env_ok stylesheet_node (mkState fresh []) = (Ok tt, s') /\
  exists doc sheet,
    xmlSecParseMemory env_ok
      (List.concat (List.map (xmlNodeDump env_ok) (node_children stylesheet_node)))
      = Some doc /\
    xsltParseStylesheetDoc env_ok doc = Some sheet /\
    s' = mkState (set_tr_xsltCtx (mkXsltCtx (Some sheet)) fresh) [] /\
    forall node',
      xmlSecXsltReadNode env_ok node' s'
      = (Fail, mkState (transform s') ([] ++ [AssertFailed "ctx->xslt == NULL"])).
Proof.
  cbv zeta.
  assert (H : xmlSecXsltReadNode env_ok stylesheet_node (mkState fresh [])
              = (Ok tt, snd (xmlSecXsltReadNode env_ok stylesheet_node (mkState fresh []))))
    by reflexivity.
  split; [exact H|].
  exact (readNode_records env_ok fresh [] stylesheet_node _ H).
Defined.

Lemma process_failure_witness :
  let t := set_tr_inBuf [x3c] configured in
  let s' := snd (xmlSecXslProcess env_parse_fails (Some 7) (mkState t [])) in
  xmlSecXslProcess env_parse_fails (Some 7) (mkState t []) = (Fail, s') /\
  (transform s' = t /\
   exists subject reason,
     log s' = [] ++ [Report (mkError None (Some subject) reason
                                     XMLSEC_ERRORS_NO_MESSAGE [])] /\
     ((subject = "xmlSecParseMemory" /\ reason = XMLSEC_ERRORS_R_XMLSEC_FAILED /\
       xmlSecParseMemory env_parse_fails (tr_inBuf t) = None) \/
      (subject = "xsltApplyStylesheet" /\ reason = XMLSEC_ERRORS_R_XSLT_FAILED /\
       exists docIn, xmlSecParseMemory env_parse_fails (tr_inBuf t) = Some docIn /\
                     xsltApplyStylesheet env_parse_fails 7 docIn = None) \/
      (subject = "xmlAllocOutputBuffer" /\ reason = XMLSEC_ERRORS_R_XML_FAILED /\
       xmlAllocOutputBuffer_ok env_parse_fails = false) \/
      (subject = "xsltSaveResultTo" /\ reason = XMLSEC_ERRORS_R_XSLT_FAILED /\
       exists docIn docOut,
         xmlSecParseMemory env_parse_fails (tr_inBuf t) = Some docIn /\
         xsltApplyStylesheet env_parse_fails 7 docIn = Some docOut /\
         xsltSaveResultTo env_parse_fails docOut 7 = None) \/
      (subject = "xmlSecBufferSetData" /\ reason = XMLSEC_ERRORS_R_XMLSEC_FAILED /\
       exists docIn docOut bytes,
         xmlSecParseMemory env_parse_fails (tr_inBuf t) = Some docIn /\
         xsltApplyStylesheet env_parse_fails 7 docIn = Some docOut /\
         xsltSaveResultTo env_parse_fails docOut 7 = Some bytes /\
         xmlSecBufferSetData_ok env_parse_fails bytes = false))).
Proof.
  cbv zeta.
  assert (H : xmlSecXslProcess env_parse_fails (Some 7)
                (mkState (set_tr_inBuf [x3c] configured) [])
              = (Fail, snd (xmlSecXslProcess env_parse_fails (Some 7)
                              (mkState (set_tr_inBuf [x3c] configured) []))))
    by reflexivity.
  split; [exact H|].
  exact (process_failure env_parse_fails _ [] 7 _ H).
Defined.

Lemma run_Ok_inv_witness :
  let chunks := [[x3c]; [x61; x2f; x3e]] in
  let s' := snd (run env_ok chunks (mkState configured [])) in
  run env_ok chunks (mkState configured []) = (Ok tt, s') /\
  (tr_status configured = xmlSecTransformStatusNone \/
   tr_status configured = xmlSecTransformStatusWorking) /\
  exists sheet docIn docOut out,
    xslt (tr_xsltCtx configured) = Some sheet /\
    xmlSecParseMemory env_ok (tr_inBuf configured ++ List.concat chunks) = Some docIn /\
    xsltApplyStylesheet env_ok sheet docIn = Some docOut /\
    xsltSaveResultTo env_ok docOut sheet = Some out /\
    s' = mkState (mkTransform xmlSecTransformXsltId xmlSecTransformStatusFinished
                              (tr_encode configured) [] out (tr_xsltCtx configured)) [].
Proof.
  cbv zeta.
  assert (H1 : run env_ok [[x3c]; [x61; x2f; x3e]] (mkState configured [])
               = (Ok tt, snd (run env_ok [[x3c]; [x61; x2f; x3e]] (mkState configured []))))
    by reflexivity.
  assert (H2 : tr_status configured = xmlSecTransformStatusNone \/
               tr_status configured = xmlSecTransformStatusWorking)
    by (left; reflexivity).
  split; [exact H1|]. split; [exact H2|].
  exact (run_Ok_inv env_ok _ configured [] _ H1 H2).
Defined.

Lemma execute_process_fails_witness :
  let t := set_tr_inBuf [x3c] configured in
  (1 =? 0)%Z = false /\
  tr_id t = xmlSecTransformXsltId /\
  xslt (tr_xsltCtx t) = Some 7 /\
  tr_outBuf t = [] /\
  (tr_status t = xmlSecTransformStatusNone \/ tr_status t = xmlSecTransformStatusWorking) /\
  fst (xmlSecXslProcess env_parse_fails (Some 7)
         (mkState (set_tr_status xmlSecTransformStatusWorking t) [])) = Fail /\
  (let r := xmlSecXsltExecute env_parse_fails 1 true (mkState t []) in
   fst r = Fail /\
   transform (snd r) = set_tr_status xmlSecTransformStatusWorking t /\
   list.last (log (snd r))
   = Some (Report (mkError (Some "xslt") (Some "xmlSecXslProcess")
                           XMLSEC_ERRORS_R_XMLSEC_FAILED XMLSEC_ERRORS_NO_MESSAGE []))).
Proof.
  cbv zeta.
  assert (H1 : (1 =? 0)%Z = false) by reflexivity.
  assert (H2 : tr_id (set_tr_inBuf [x3c] configured) = xmlSecTransformXsltId)
    by reflexivity.
  assert (H3 : xslt (tr_xsltCtx (set_tr_inBuf [x3c] configured)) = Some 7) by reflexivity.
  assert (H4 : tr_outBuf (set_tr_inBuf [x3c] configured) = []) by reflexivity.
  assert (H5 : tr_status (set_tr_inBuf [x3c] configured) = xmlSecTransformStatusNone \/
               tr_status (set_tr_inBuf [x3c] configured) = xmlSecTransformStatusWorking)
    by (left; reflexivity).
  assert (H6 : fst (xmlSecXslProcess env_parse_fails (Some 7)
                      (mkState (set_tr_status xmlSecTransformStatusWorking
                                  (set_tr_inBuf [x3c] configured)) [])) = Fail)
    by reflexivity.
  split; [exact H1|]. split; [exact H2|]. split; [exact H3|]. split; [exact H4|].
  split; [exact H5|]. split; [exact H6|].
  exact (execute_process_fails env_parse_fails 1 _ [] 7 H1 H2 H3 H4 H5 H6).
Defined.

Lemma finished_is_final_witness :
  tr_id MoreSamples.finished = xmlSecTransformXsltId /\
  xslt (tr_xsltCtx MoreSamples.finished) = Some 7 /\
  tr_status MoreSamples.finished = xmlSecTransformStatusFinished /\
  tr_inBuf MoreSamples.finished = [] /\
  xmlSecXsltExecute env_ok 1 true (mkState MoreSamples.finished [])
  = (Ok tt, mkState MoreSamples.finished []).
Proof.
  assert (H1 : tr_id MoreSamples.finished = xmlSecTransformXsltId) by reflexivity.
  assert (H2 : xslt (tr_xsltCtx MoreSamples.finished) = Some 7) by reflexivity.
  assert (H3 : tr_status MoreSamples.finished = xmlSecTransformStatusFinished)
    by reflexivity.
  assert (H4 : tr_inBuf MoreSamples.finished = []) by reflexivity.
  split; [exact H1|]. split; [exact H2|]. split; [exact H3|]. split; [exact H4|].
  exact (finished_is_final env_ok 1 MoreSamples.finished [] 7 H1 H2 H3 H4).
Defined.

End XsltMore.
